(** * Board synchronisation core of the kanban task manager

    A shallow embedding of the TaskManager component (board state cache,
    reconciliation loader, drag controller, createTask), of the task detail
    drawer (handleSave, toggleSubtask, addSubtask, deleteSubtask), of the
    subtask readers of TaskCard, ListView and the drawer, and of the toast
    helper, together with the properties the design specification states
    about them.

    JavaScript strings are sequences of UTF-16 code units; numbers that the
    code only counts or compares are integers. *)

From Stdlib Require Import String Ascii List NArith ZArith Bool Lia DecimalN
  Sorted.
Import ListNotations.

Set Implicit Arguments.
Set Warnings "-register-all".
Local Open Scope N_scope.

(* ================================================================== *)
(** * JavaScript values used by the components *)
(* ================================================================== *)

Module JS.

(** A JavaScript string: its UTF-16 code units. *)
Definition jsstring := list N.

(** A string literal of the source, unit by unit. *)
Definition js (s : string) : jsstring :=
  map N_of_ascii (list_ascii_of_string s).

(** [a === b] on strings. *)
Fixpoint str_eqb (a b : jsstring) : bool :=
  match a, b with
  | [], [] => true
  | x :: a', y :: b' => (x =? y) && str_eqb a' b'
  | _, _ => false
  end.

(** Truthiness of a string: every string but the empty one. *)
Definition truthy (s : jsstring) : bool :=
  match s with [] => false | _ :: _ => true end.

(** Truthiness of a value that may be [undefined] or [null]. *)
Definition truthy_opt (o : option jsstring) : bool :=
  match o with Some s => truthy s | None => false end.

(** WhiteSpace and LineTerminator code units, as [String.prototype.trim]
    strips them. *)
Definition is_trim_space (c : N) : bool :=
  ((9 <=? c) && (c <=? 13)) || (c =? 32) || (c =? 160) || (c =? 5760)
  || ((8192 <=? c) && (c <=? 8202)) || (c =? 8232) || (c =? 8233)
  || (c =? 8239) || (c =? 8287) || (c =? 12288) || (c =? 65279).

Fixpoint trimStart (s : jsstring) : jsstring :=
  match s with
  | c :: r => if is_trim_space c then trimStart r else s
  | [] => []
  end.

Definition trim (s : jsstring) : jsstring :=
  rev (trimStart (rev (trimStart s))).

(** Decimal digits of a non-negative integer, as [String(n)] prints it. *)
Fixpoint uint_units (d : Decimal.uint) : jsstring :=
  match d with
  | Decimal.Nil => []
  | Decimal.D0 d' => 48 :: uint_units d'
  | Decimal.D1 d' => 49 :: uint_units d'
  | Decimal.D2 d' => 50 :: uint_units d'
  | Decimal.D3 d' => 51 :: uint_units d'
  | Decimal.D4 d' => 52 :: uint_units d'
  | Decimal.D5 d' => 53 :: uint_units d'
  | Decimal.D6 d' => 54 :: uint_units d'
  | Decimal.D7 d' => 55 :: uint_units d'
  | Decimal.D8 d' => 56 :: uint_units d'
  | Decimal.D9 d' => 57 :: uint_units d'
  end.

Definition Number_toString (n : N) : jsstring := uint_units (N.to_uint n).

(** The values a [completed] field holds: a boolean (what the components
    create) or an integer (what [toggleSubtask] writes). *)
Inductive value :=
| VBool (b : bool)
| VNum (z : Z).

(** [Number(v)]. *)
Definition Number (v : value) : Z :=
  match v with
  | VBool true => 1%Z
  | VBool false => 0%Z
  | VNum z => z
  end.


(** [s.startsWith(p)] *)
Fixpoint str_startsWith (s p : jsstring) : bool :=
  match p, s with
  | [], _ => true
  | x :: p', y :: s' => (x =? y) && str_startsWith s' p'
  | _ :: _, [] => false
  end.

(** [s.includes(sub)] *)
Fixpoint str_includes (s sub : jsstring) : bool :=
  str_startsWith s sub ||
  match s with
  | [] => false
  | _ :: r => str_includes r sub
  end.

End JS.
Import JS.

(* ================================================================== *)
(** * JSON.parse and JSON.stringify *)
(* ================================================================== *)

Module JSON.

(** A parsed JSON text.  A number keeps the text of its literal, an
    object its members in source order. *)
Inductive json :=
| JNull
| JBool (b : bool)
| JNum (literal : jsstring)
| JStr (s : jsstring)
| JArr (items : list json)
| JObj (members : list (jsstring * json)).

(** The result of a parser: a value and the unread input, a syntax error,
    or recursion budget exhausted (which [parse] below never returns). *)
Inductive outcome (A : Type) :=
| Parsed (a : A) (rest : jsstring)
| SyntaxError
| OutOfFuel.
Arguments SyntaxError {A}.
Arguments OutOfFuel {A}.

(** JSON whitespace: space, tab, line feed, carriage return. *)
Definition is_ws (c : N) : bool :=
  (c =? 32) || (c =? 9) || (c =? 10) || (c =? 13).

Fixpoint skip_ws (s : jsstring) : jsstring :=
  match s with
  | c :: r => if is_ws c then skip_ws r else s
  | [] => []
  end.

Definition is_digit (c : N) : bool := (48 <=? c) && (c <=? 57).

(** The value of a hexadecimal digit, in either case. *)
Definition hex_val (c : N) : option N :=
  if (48 <=? c) && (c <=? 57) then Some (c - 48)
  else if (97 <=? c) && (c <=? 102) then Some (c - 87)
  else if (65 <=? c) && (c <=? 70) then Some (c - 55)
  else None.

Definition hex4 (h1 h2 h3 h4 : N) : option N :=
  match hex_val h1, hex_val h2, hex_val h3, hex_val h4 with
  | Some a, Some b, Some c, Some d => Some (((a * 16 + b) * 16 + c) * 16 + d)
  | _, _, _, _ => None
  end.

(** The unit a single-character escape stands for. *)
Definition simple_escape (e : N) : option N :=
  if e =? 34 then Some 34          (* quotation mark *)
  else if e =? 92 then Some 92     (* reverse solidus *)
  else if e =? 47 then Some 47     (* solidus *)
  else if e =? 98 then Some 8      (* backspace *)
  else if e =? 102 then Some 12    (* form feed *)
  else if e =? 110 then Some 10    (* line feed *)
  else if e =? 114 then Some 13    (* carriage return *)
  else if e =? 116 then Some 9     (* tab *)
  else None.

Definition prepend (u : N) (r : option (jsstring * jsstring))
  : option (jsstring * jsstring) :=
  match r with
  | Some (s, rest) => Some (u :: s, rest)
  | None => None
  end.

(** The characters of a string literal after its opening quote, up to and
    including the closing quote.  [None] is a syntax error. *)
Fixpoint parse_chars (s : jsstring) : option (jsstring * jsstring) :=
  match s with
  | [] => None
  | c :: r =>
      if c =? 34 then Some ([], r)
      else if c =? 92 then
        match r with
        | [] => None
        | e :: r1 =>
            if e =? 117 then
              match r1 with
              | h1 :: h2 :: h3 :: h4 :: r2 =>
                  match hex4 h1 h2 h3 h4 with
                  | Some u => prepend u (parse_chars r2)
                  | None => None
                  end
              | _ => None
              end
            else
              match simple_escape e with
              | Some u => prepend u (parse_chars r1)
              | None => None
              end
        end
      else if c <? 32 then None
      else prepend c (parse_chars r)
  end.

(** The longest prefix of digits, and what follows it. *)
Fixpoint take_digits (s : jsstring) : jsstring * jsstring :=
  match s with
  | c :: r =>
      if is_digit c then let (ds, rest) := take_digits r in (c :: ds, rest)
      else ([], s)
  | [] => ([], [])
  end.

(** Integer part: [0], or a non-zero digit followed by digits. *)
Definition parse_int (s : jsstring) : option (jsstring * jsstring) :=
  match s with
  | c :: r =>
      if c =? 48 then Some ([48], r)
      else if is_digit c then let (ds, rest) := take_digits r in Some (c :: ds, rest)
      else None
  | [] => None
  end.

(** Optional fraction: a dot followed by at least one digit. *)
Definition parse_frac (s : jsstring) : option (jsstring * jsstring) :=
  match s with
  | c :: r =>
      if c =? 46 then
        match take_digits r with
        | ([], _) => None
        | (ds, rest) => Some (c :: ds, rest)
        end
      else Some ([], s)
  | [] => Some ([], s)
  end.

(** The optional sign of an exponent. *)
Definition parse_exp_sign (s : jsstring) : jsstring * jsstring :=
  match s with
  | g :: r => if (g =? 43) || (g =? 45) then ([g], r) else ([], s)
  | [] => ([], s)
  end.

(** Optional exponent: [e] or [E], an optional sign, at least one digit. *)
Definition parse_exp (s : jsstring) : option (jsstring * jsstring) :=
  match s with
  | c :: r =>
      if (c =? 101) || (c =? 69) then
        let (sign, r1) := parse_exp_sign r in
        match take_digits r1 with
        | ([], _) => None
        | (ds, rest) => Some (c :: sign ++ ds, rest)
        end
      else Some ([], s)
  | [] => Some ([], s)
  end.

(** An optional minus sign. *)
Definition parse_sign (s : jsstring) : jsstring * jsstring :=
  match s with
  | c :: r => if c =? 45 then ([c], r) else ([], s)
  | [] => ([], s)
  end.

Definition parse_number (s : jsstring) : option (jsstring * jsstring) :=
  let (sign, s1) := parse_sign s in
  match parse_int s1 with
  | None => None
  | Some (i, s2) =>
      match parse_frac s2 with
      | None => None
      | Some (f, s3) =>
          match parse_exp s3 with
          | None => None
          | Some (e, s4) => Some (sign ++ i ++ f ++ e, s4)
          end
      end
  end.

(** [s] with the prefix [p] removed, when it starts with it. *)
Fixpoint strip_prefix (p s : jsstring) : option jsstring :=
  match p, s with
  | [], _ => Some s
  | x :: p', y :: s' => if x =? y then strip_prefix p' s' else None
  | _ :: _, [] => None
  end.

(** A JSON value, after optional whitespace.  [parse_elements] reads the
    elements of an array after its first bracket, [parse_members] the
    members of an object after its first brace, both up to and including
    the closing one. *)
Fixpoint parse_value (fuel : nat) (s : jsstring) : outcome json :=
  match fuel with
  | O => OutOfFuel
  | S fuel' =>
      match skip_ws s with
      | [] => SyntaxError
      | c :: r =>
          if c =? 34 then
            match parse_chars r with
            | Some (str, rest) => Parsed (JStr str) rest
            | None => SyntaxError
            end
          else if c =? 91 then
            match strip_prefix [93] (skip_ws r) with
            | Some rest => Parsed (JArr []) rest
            | None =>
                match parse_elements fuel' r with
                | Parsed items rest => Parsed (JArr items) rest
                | SyntaxError => SyntaxError
                | OutOfFuel => OutOfFuel
                end
            end
          else if c =? 123 then
            match strip_prefix [125] (skip_ws r) with
            | Some rest => Parsed (JObj []) rest
            | None =>
                match parse_members fuel' r with
                | Parsed members rest => Parsed (JObj members) rest
                | SyntaxError => SyntaxError
                | OutOfFuel => OutOfFuel
                end
            end
          else if c =? 116 then
            match strip_prefix (js "rue") r with
            | Some rest => Parsed (JBool true) rest
            | None => SyntaxError
            end
          else if c =? 102 then
            match strip_prefix (js "alse") r with
            | Some rest => Parsed (JBool false) rest
            | None => SyntaxError
            end
          else if c =? 110 then
            match strip_prefix (js "ull") r with
            | Some rest => Parsed JNull rest
            | None => SyntaxError
            end
          else
            match parse_number (c :: r) with
            | Some (lit, rest) => Parsed (JNum lit) rest
            | None => SyntaxError
            end
      end
  end
with parse_elements (fuel : nat) (s : jsstring) : outcome (list json) :=
  match fuel with
  | O => OutOfFuel
  | S fuel' =>
      match parse_value fuel' s with
      | Parsed v r =>
          match skip_ws r with
          | [] => SyntaxError
          | c :: r' =>
              if c =? 44 then
                match parse_elements fuel' r' with
                | Parsed vs rest => Parsed (v :: vs) rest
                | SyntaxError => SyntaxError
                | OutOfFuel => OutOfFuel
                end
              else if c =? 93 then Parsed [v] r'
              else SyntaxError
          end
      | SyntaxError => SyntaxError
      | OutOfFuel => OutOfFuel
      end
  end
with parse_members (fuel : nat) (s : jsstring) : outcome (list (jsstring * json)) :=
  match fuel with
  | O => OutOfFuel
  | S fuel' =>
      match strip_prefix [34] (skip_ws s) with
      | None => SyntaxError
      | Some r =>
          match parse_chars r with
          | None => SyntaxError
          | Some (key, r1) =>
              match strip_prefix [58] (skip_ws r1) with
              | None => SyntaxError
              | Some r2 =>
                  match parse_value fuel' r2 with
                  | Parsed v r3 =>
                      match skip_ws r3 with
                      | [] => SyntaxError
                      | c :: r4 =>
                          if c =? 44 then
                            match parse_members fuel' r4 with
                            | Parsed ms rest => Parsed ((key, v) :: ms) rest
                            | SyntaxError => SyntaxError
                            | OutOfFuel => OutOfFuel
                            end
                          else if c =? 125 then Parsed [(key, v)] r4
                          else SyntaxError
                      end
                  | SyntaxError => SyntaxError
                  | OutOfFuel => OutOfFuel
                  end
              end
          end
      end
  end.

(** [JSON.parse(text)]: one value, whitespace around it, nothing else.
    The budget of two steps per code unit is never used up. *)
Definition parse (text : jsstring) : outcome json :=
  match parse_value (2 * length text + 2) text with
  | Parsed v rest =>
      match skip_ws rest with
      | [] => Parsed v []
      | _ :: _ => SyntaxError
      end
  | SyntaxError => SyntaxError
  | OutOfFuel => OutOfFuel
  end.

(** A lower-case hexadecimal digit. *)
Definition hex_digit (n : N) : N := if n <? 10 then 48 + n else 87 + n.

(** [\uXXXX] for a code unit. *)
Definition unicode_escape (c : N) : jsstring :=
  [92; 117; hex_digit (c / 4096 mod 16); hex_digit (c / 256 mod 16);
   hex_digit (c / 16 mod 16); hex_digit (c mod 16)].

Definition is_high_surrogate (c : N) : bool := (55296 <=? c) && (c <=? 56319).
Definition is_low_surrogate (c : N) : bool := (56320 <=? c) && (c <=? 57343).

(** One code unit that is not half of a surrogate pair, as
    QuoteJSONString writes it. *)
Definition quote_unit (c : N) : jsstring :=
  if c =? 34 then [92; 34]
  else if c =? 92 then [92; 92]
  else if c =? 8 then [92; 98]
  else if c =? 12 then [92; 102]
  else if c =? 10 then [92; 110]
  else if c =? 13 then [92; 114]
  else if c =? 9 then [92; 116]
  else if c <? 32 then unicode_escape c
  else if is_high_surrogate c || is_low_surrogate c then unicode_escape c
  else [c].

(** The contents of a quoted string: a surrogate pair is written as it
    is, a lone surrogate is escaped. *)
Fixpoint quote_units (s : jsstring) : jsstring :=
  match s with
  | [] => []
  | c :: r =>
      if is_high_surrogate c then
        match r with
        | d :: r' =>
            if is_low_surrogate d then c :: d :: quote_units r'
            else quote_unit c ++ quote_units r
        | [] => quote_unit c
        end
      else quote_unit c ++ quote_units r
  end.

Definition quote (s : jsstring) : jsstring := 34 :: quote_units s ++ [34].

Fixpoint join_comma (l : list jsstring) : jsstring :=
  match l with
  | [] => []
  | [x] => x
  | x :: r => x ++ 44 :: join_comma r
  end.

(** [JSON.stringify(a)] for an array of strings [a]. *)
Definition stringify (a : list jsstring) : jsstring :=
  91 :: join_comma (map quote a) ++ [93].

End JSON.
Import JSON.

(* ================================================================== *)
(** * Data model: the interfaces of the components *)
(* ================================================================== *)

(** An instant, in milliseconds since the epoch.  [Date.now()] returns it,
    and the ISO string [toISOString()] makes of it is represented by it. *)
Definition timestamp := N.

Module User.
Record t := mk {
  id : jsstring;
  email : jsstring;
  displayName : option jsstring
}.
End User.

Module Board.
Record t := mk {
  id : jsstring;
  name : jsstring;
  description : option jsstring;
  userId : jsstring;
  isShared : bool;
  isArchived : bool
}.
End Board.

Module Column.
Record t := mk {
  id : jsstring;
  name : jsstring;
  boardId : jsstring;
  position : Z;
  color : jsstring
}.
End Column.

Module Task.
(** A task.  [T] is the type of its [tags]: the encoded string of a stored
    row (absent when [undefined] or [null]), or what [JSON.parse] made of
    it in the cache. *)
Record t (T : Type) := mk {
  id : jsstring;
  title : jsstring;
  description : option jsstring;
  columnId : jsstring;
  boardId : jsstring;
  userId : jsstring;
  position : Z;
  dueDate : option timestamp;
  completed : value;
  tags : T;
  createdAt : option timestamp;
  updatedAt : option timestamp
}.

Definition row := t (option jsstring).
Definition cached := t json.

(** [{ ...task, columnId: c }] *)
Definition with_columnId {T} (c : jsstring) (task : t T) : t T :=
  mk (id task) (title task) (description task) c (boardId task)
     (userId task) (position task) (dueDate task) (completed task)
     (tags task) (createdAt task) (updatedAt task).

(** [{ ...task, tags: v }] *)
Definition with_tags {T U} (v : U) (task : t T) : t U :=
  mk (id task) (title task) (description task) (columnId task)
     (boardId task) (userId task) (position task) (dueDate task)
     (completed task) v (createdAt task) (updatedAt task).
End Task.

Module Subtask.
Record t := mk {
  id : jsstring;
  title : jsstring;
  taskId : jsstring;
  completed : value;
  position : Z
}.

Definition with_completed (v : value) (st : t) : t :=
  mk (id st) (title st) (taskId st) v (position st).
End Subtask.

(* ================================================================== *)
(** * The remote store *)
(* ================================================================== *)

Module Store.

Inductive direction := asc | desc.

(** The argument of a [list] call: [{ where: { boardId }, orderBy:
    { position } }], either part optional. *)
Record query := mkQuery {
  where_boardId : option jsstring;
  orderBy_position : option direction
}.

(** The partial record of a [tasks.update] call. *)
Record task_patch := mkPatch {
  p_title : option jsstring;
  p_description : option (option jsstring);
  p_dueDate : option (option timestamp);
  p_columnId : option jsstring;
  p_tags : option jsstring;
  p_updatedAt : option timestamp
}.

(** Modelled from the spec: the Remote Store Client, which the repository
    consumes through [blink.db] and does not implement.  The store holds
    the rows of each entity; [list(filter, orderBy)] returns the rows the
    filter selects in the order asked for, [create(record)] adds a row,
    [update(id, partialRecord)] overwrites the given fields of the rows
    with that id, [delete(id)] removes them. *)
Record t := mk {
  columns : list Column.t;
  tasks : list Task.row;
  subtasks : list Subtask.t
}.

Section Listing.
Variable A : Type.
Variable position : A -> Z.

Fixpoint insert_asc (x : A) (l : list A) : list A :=
  match l with
  | [] => [x]
  | y :: r =>
      if (position x <=? position y)%Z then x :: l
      else y :: insert_asc x r
  end.

(** A stable sort by ascending position. *)
Fixpoint sort_asc (l : list A) : list A :=
  match l with
  | [] => []
  | x :: r => insert_asc x (sort_asc r)
  end.

Fixpoint insert_desc (x : A) (l : list A) : list A :=
  match l with
  | [] => [x]
  | y :: r =>
      if (position y <=? position x)%Z then x :: l
      else y :: insert_desc x r
  end.

Fixpoint sort_desc (l : list A) : list A :=
  match l with
  | [] => []
  | x :: r => insert_desc x (sort_desc r)
  end.

Variable boardId : A -> option jsstring.

Definition selects (q : query) (x : A) : bool :=
  match where_boardId q with
  | None => true
  | Some b =>
      match boardId x with
      | Some b' => str_eqb b' b
      | None => false
      end
  end.

Definition list_rows (q : query) (rows : list A) : list A :=
  let selected := filter (selects q) rows in
  match orderBy_position q with
  | None => selected
  | Some asc => sort_asc selected
  | Some desc => sort_desc selected
  end.
End Listing.

Definition list_columns (q : query) (s : t) : list Column.t :=
  list_rows Column.position (fun c => Some (Column.boardId c)) q (columns s).

Definition list_tasks (q : query) (s : t) : list Task.row :=
  list_rows (@Task.position _) (fun x => Some (Task.boardId x)) q (tasks s).

(** A subtask row has no [boardId] field: a filter on it selects nothing. *)
Definition list_subtasks (q : query) (s : t) : list Subtask.t :=
  list_rows Subtask.position (fun _ => None) q (subtasks s).

Definition or_keep {A} (new : option A) (old : A) : A :=
  match new with Some v => v | None => old end.

Definition patch_task (p : task_patch) (x : Task.row) : Task.row :=
  Task.mk (Task.id x)
    (or_keep (p_title p) (Task.title x))
    (or_keep (p_description p) (Task.description x))
    (or_keep (p_columnId p) (Task.columnId x))
    (Task.boardId x) (Task.userId x) (Task.position x)
    (or_keep (p_dueDate p) (Task.dueDate x))
    (Task.completed x)
    (match p_tags p with Some enc => Some enc | None => Task.tags x end)
    (Task.createdAt x)
    (match p_updatedAt p with Some u => Some u | None => Task.updatedAt x end).

Definition create_task (x : Task.row) (s : t) : t :=
  mk (columns s) (tasks s ++ [x]) (subtasks s).

Definition update_task (id : jsstring) (p : task_patch) (s : t) : t :=
  mk (columns s)
     (map (fun x => if str_eqb (Task.id x) id then patch_task p x else x) (tasks s))
     (subtasks s).

Definition delete_task (id : jsstring) (s : t) : t :=
  mk (columns s)
     (filter (fun x => negb (str_eqb (Task.id x) id)) (tasks s))
     (subtasks s).

Definition create_subtask (x : Subtask.t) (s : t) : t :=
  mk (columns s) (tasks s) (subtasks s ++ [x]).

Definition update_subtask (id : jsstring) (completed : value) (s : t) : t :=
  mk (columns s) (tasks s)
     (map (fun x => if str_eqb (Subtask.id x) id
                    then Subtask.with_completed completed x else x)
          (subtasks s)).

Definition delete_subtask (id : jsstring) (s : t) : t :=
  mk (columns s) (tasks s)
     (filter (fun x => negb (str_eqb (Subtask.id x) id)) (subtasks s)).

(** A call of the client, as the components issue it. *)
Inductive call :=
| columns_list (q : query)
| tasks_list (q : query)
| subtasks_list (q : query)
| tasks_create (record : Task.row)
| tasks_update (id : jsstring) (partial : task_patch)
| tasks_delete (id : jsstring)
| subtasks_create (record : Subtask.t)
| subtasks_update (id : jsstring) (completed : value)
| subtasks_delete (id : jsstring).

(** The calls that change the store: the durable writes. *)
Definition is_write (c : call) : bool :=
  match c with
  | columns_list _ | tasks_list _ | subtasks_list _ => false
  | _ => true
  end.

End Store.

(* ================================================================== *)
(** * Effects: the store, the console, the alerts and the React state *)
(* ================================================================== *)

(** What a component can catch: a rejected store call, or the error of
    [JSON.parse]. *)
Inductive exn :=
| StoreError
| JSONSyntaxError.

Inductive level := Log | Error.

(** The state of the TaskManager component that its handlers read or set. *)
Module State.
Record t := mk {
  user : option User.t;
  currentBoard : option Board.t;
  columns : list Column.t;
  tasks : list Task.cached;
  subtasks : list Subtask.t;
  selectedTask : option Task.cached;
  activeId : option jsstring
}.
End State.

(** The world a handler runs in.  [outages] scripts the store: each call
    takes the head of the list, and is rejected when it is [true]; a call
    made after the script has run out succeeds.  [calls] records the calls
    in the order they are issued, [console] and [alerts] what [toast] and
    [console.error] print and show. *)
Record World := mkWorld {
  remote : Store.t;
  outages : list bool;
  calls : list Store.call;
  console : list (level * jsstring * option exn);
  alerts : list jsstring;
  ui : State.t
}.

Module Eff.

(** A computation: it ends with a value or a thrown error, and a new
    world.  An awaited call is run in place. *)
Definition M (A : Type) := World -> (exn + A) * World.

Definition ret {A} (a : A) : M A := fun w => (inr a, w).

Definition bind {A B} (m : M A) (k : A -> M B) : M B :=
  fun w =>
    match m w with
    | (inr a, w') => k a w'
    | (inl e, w') => (inl e, w')
    end.

Definition throw {A} (e : exn) : M A := fun w => (inl e, w).

(** [try { m } catch (error) { h error }] *)
Definition try_catch {A} (m : M A) (h : exn -> M A) : M A :=
  fun w =>
    match m w with
    | (inl e, w') => h e w'
    | (inr a, w') => (inr a, w')
    end.

(** The settlement of a promise: fulfilled with a value or rejected. *)
Definition settle {A} (m : M A) : M (exn + A) :=
  fun w => let (r, w') := m w in (inr r, w').

Definition gets {A} (f : World -> A) : M A := fun w => (inr (f w), w).

Definition modify (f : World -> World) : M unit := fun w => (inr tt, f w).

Definition exec {A} (m : M A) (w : World) : World := snd (m w).

Fixpoint mapM {A B} (f : A -> M B) (l : list A) : M (list B) :=
  match l with
  | [] => ret []
  | x :: r =>
      bind (f x) (fun y => bind (mapM f r) (fun ys => ret (y :: ys)))
  end.

End Eff.
Import Eff.

Declare Scope eff_scope.
Delimit Scope eff_scope with eff.
Notation "x <- m ;; k" := (bind m (fun x => k))
  (at level 61, m at next level, right associativity) : eff_scope.
Notation "m ;; k" := (bind m (fun _ => k))
  (at level 61, right associativity) : eff_scope.
Local Open Scope eff_scope.

Definition with_ui (f : State.t -> State.t) (w : World) : World :=
  mkWorld (remote w) (outages w) (calls w) (console w) (alerts w) (f (ui w)).

(** [console.log] and [console.error], with the error object when one is
    passed along. *)
Definition console_print (l : level) (text : jsstring) (error : option exn)
  : M unit :=
  modify (fun w =>
    mkWorld (remote w) (outages w) (calls w)
            (console w ++ [(l, text, error)]) (alerts w) (ui w)).

Definition alert (message : jsstring) : M unit :=
  modify (fun w =>
    mkWorld (remote w) (outages w) (calls w) (console w)
            (alerts w ++ [message]) (ui w)).

(** ** blink.db: the calls of the store client *)

Module db.

(** One awaited call: it is recorded, takes the next entry of the outage
    script, and is rejected or runs on the store. *)
Definition request {A} (c : Store.call) (run : Store.t -> A * Store.t)
  : M A :=
  fun w =>
    if hd false (outages w) then
      (inl StoreError,
       mkWorld (remote w) (tl (outages w)) (calls w ++ [c])
               (console w) (alerts w) (ui w))
    else
      let (a, s) := run (remote w) in
      (inr a,
       mkWorld s (tl (outages w)) (calls w ++ [c])
               (console w) (alerts w) (ui w)).

Definition columns_list (q : Store.query) : M (list Column.t) :=
  request (Store.columns_list q) (fun s => (Store.list_columns q s, s)).

Definition tasks_list (q : Store.query) : M (list Task.row) :=
  request (Store.tasks_list q) (fun s => (Store.list_tasks q s, s)).

Definition subtasks_list (q : Store.query) : M (list Subtask.t) :=
  request (Store.subtasks_list q) (fun s => (Store.list_subtasks q s, s)).

Definition tasks_create (record : Task.row) : M unit :=
  request (Store.tasks_create record) (fun s => (tt, Store.create_task record s)).

Definition tasks_update (id : jsstring) (partial : Store.task_patch) : M unit :=
  request (Store.tasks_update id partial)
          (fun s => (tt, Store.update_task id partial s)).

Definition tasks_delete (id : jsstring) : M unit :=
  request (Store.tasks_delete id) (fun s => (tt, Store.delete_task id s)).

Definition subtasks_create (record : Subtask.t) : M unit :=
  request (Store.subtasks_create record)
          (fun s => (tt, Store.create_subtask record s)).

Definition subtasks_update (id : jsstring) (completed : value) : M unit :=
  request (Store.subtasks_update id completed)
          (fun s => (tt, Store.update_subtask id completed s)).

Definition subtasks_delete (id : jsstring) : M unit :=
  request (Store.subtasks_delete id) (fun s => (tt, Store.delete_subtask id s)).

End db.

(** [Promise.all] of three calls: all three are issued, and the result is
    rejected when one of them is. *)
Definition Promise_all3 {A B C} (p1 : M A) (p2 : M B) (p3 : M C)
  : M (A * B * C) :=
  r1 <- settle p1 ;;
  r2 <- settle p2 ;;
  r3 <- settle p3 ;;
  match r1, r2, r3 with
  | inr a, inr b, inr c => ret (a, b, c)
  | inl e, _, _ => throw e
  | _, inl e, _ => throw e
  | _, _, inl e => throw e
  end.

(* ================================================================== *)
(** * hooks/use-toast.ts *)
(* ================================================================== *)

Module Toast.

Inductive ToastVariant := default | destructive.

(** [variant] is [undefined] when the caller leaves it out, and then
    defaults to ['default']. *)
Record ToastProps := mk {
  title : jsstring;
  description : option jsstring;
  variant : option ToastVariant
}.

Definition message (p : ToastProps) : jsstring :=
  match description p with
  | Some d => if truthy d then title p ++ js ": " ++ d else title p
  | None => title p
  end.

Definition toast (p : ToastProps) : M unit :=
  match variant p with
  | Some destructive =>
      console_print Error (message p) None ;;
      alert (message p)
  | _ =>
      console_print Log (message p) None ;;
      alert (message p)
  end.

End Toast.
Import Toast.

(* ================================================================== *)
(** * The TaskManager component *)
(* ================================================================== *)

(** A drag event of the drag-and-drop library: the id of the dragged item
    and the id of what the pointer is over, if anything. *)
Record DragEvent := mkDrag {
  active : jsstring;
  over : option jsstring
}.

(** A handler reads the state of the render it was created in.  Handlers
    run one after the other with a render in between, so that state is the
    current one; a setter replaces its field of the state. *)
Module TaskManager.

Definition setColumns (v : list Column.t) : M unit :=
  modify (with_ui (fun s =>
    State.mk (State.user s) (State.currentBoard s) v (State.tasks s)
             (State.subtasks s) (State.selectedTask s) (State.activeId s))).

(** [setTasks(prevTasks => f(prevTasks))] *)
Definition setTasks (f : list Task.cached -> list Task.cached) : M unit :=
  modify (with_ui (fun s =>
    State.mk (State.user s) (State.currentBoard s) (State.columns s)
             (f (State.tasks s)) (State.subtasks s) (State.selectedTask s)
             (State.activeId s))).

Definition setSubtasks (v : list Subtask.t) : M unit :=
  modify (with_ui (fun s =>
    State.mk (State.user s) (State.currentBoard s) (State.columns s)
             (State.tasks s) v (State.selectedTask s) (State.activeId s))).

Definition setActiveId (v : option jsstring) : M unit :=
  modify (with_ui (fun s =>
    State.mk (State.user s) (State.currentBoard s) (State.columns s)
             (State.tasks s) (State.subtasks s) (State.selectedTask s) v)).

(** [task.tags ? JSON.parse(task.tags) : []] *)
Definition decodeTags (tags : option jsstring) : M json :=
  match tags with
  | Some enc =>
      if truthy enc then
        match JSON.parse enc with
        | Parsed v _ => ret v
        | _ => throw JSONSyntaxError
        end
      else ret (JArr [])
  | None => ret (JArr [])
  end.

(** [{ ...task, tags: task.tags ? JSON.parse(task.tags) : [] }] *)
Definition decodeTask (task : Task.row) : M Task.cached :=
  v <- decodeTags (Task.tags task) ;;
  ret (Task.with_tags v task).

Definition loadBoardData (boardId : jsstring) : M unit :=
  try_catch
    (fetched <- Promise_all3
       (db.columns_list (Store.mkQuery (Some boardId) (Some Store.asc)))
       (db.tasks_list (Store.mkQuery (Some boardId) (Some Store.asc)))
       (db.subtasks_list (Store.mkQuery None (Some Store.asc))) ;;
     let '(boardColumns, boardTasks, allSubtasks) := fetched in
     setColumns boardColumns ;;
     decoded <- mapM decodeTask boardTasks ;;
     setTasks (fun _ => decoded) ;;
     setSubtasks allSubtasks)
    (fun error =>
       console_print Error (js "Error loading board data:") (Some error) ;;
       toast (Toast.mk (js "Loading Error")
                       (Some (js "Failed to load board data"))
                       (Some destructive))).

(** [if (currentBoard) { loadBoardData(currentBoard.id) }].  The load is
    not awaited by its callers and catches its own errors; it is run here
    where it is started.  In the code a caller that goes on after
    starting it ([createTask] and the handlers of the drawer, which show
    a toast) does so before the load has its results: when such a load
    fails, its "Loading Error" is shown after the toast of the caller in
    the code, and before it here.  The calls, their order and the final
    state are the same; what is stated below about the alerts of these
    handlers is stated for loads that go through, which show nothing. *)
Definition reload : M unit :=
  currentBoard <- gets (fun w => State.currentBoard (ui w)) ;;
  match currentBoard with
  | Some board => loadBoardData (Board.id board)
  | None => ret tt
  end.

Definition handleDragStart (event : DragEvent) : M unit :=
  setActiveId (Some (active event)).

Definition findTask (id : jsstring) (tasks : list Task.cached)
  : option Task.cached :=
  find (fun task => str_eqb (Task.id task) id) tasks.

(** The column the pointer is over: the column with the id of the target,
    or else the column of the task with that id. *)
Definition overColumn (columns : list Column.t) (tasks : list Task.cached)
           (overId : jsstring) : option Column.t :=
  match find (fun col => str_eqb (Column.id col) overId) columns with
  | Some col => Some col
  | None =>
      find (fun col =>
              match findTask overId tasks with
              | Some task => str_eqb (Task.columnId task) (Column.id col)
              | None => false
              end) columns
  end.

Definition handleDragOver (event : DragEvent) : M unit :=
  match over event with
  | None => ret tt
  | Some overId =>
      let activeId := active event in
      tasks <- gets (fun w => State.tasks (ui w)) ;;
      columns <- gets (fun w => State.columns (ui w)) ;;
      match findTask activeId tasks with
      | None => ret tt
      | Some activeTask =>
          match overColumn columns tasks overId with
          | None => ret tt
          | Some overColumn =>
              if str_eqb (Task.columnId activeTask) (Column.id overColumn)
              then ret tt
              else
                setTasks (fun prevTasks =>
                  map (fun task =>
                         if str_eqb (Task.id task) activeId
                         then Task.with_columnId (Column.id overColumn) task
                         else task)
                      prevTasks)
          end
      end
  end.

Definition handleDragEnd (event : DragEvent) (now : timestamp) : M unit :=
  setActiveId None ;;
  match over event with
  | None => ret tt
  | Some overId =>
      let activeId := active event in
      tasks <- gets (fun w => State.tasks (ui w)) ;;
      match findTask activeId tasks with
      | None => ret tt
      | Some activeTask =>
          try_catch
            (db.tasks_update activeId
               (Store.mkPatch None None None
                  (Some (Task.columnId activeTask)) None (Some now)) ;;
             reload)
            (fun error =>
               console_print Error (js "Error updating task:") (Some error) ;;
               toast (Toast.mk (js "Update Error")
                               (Some (js "Failed to move task"))
                               (Some destructive)) ;;
               reload)
      end
  end.

(** [columnId || columns[0]?.id] *)
Definition targetColumnId (columnId : option jsstring)
           (columns : list Column.t) : option jsstring :=
  if truthy_opt columnId then columnId
  else match columns with
       | col :: _ => Some (Column.id col)
       | [] => None
       end.

Definition createTask (title : jsstring) (columnId : option jsstring)
           (now : timestamp) : M unit :=
  user <- gets (fun w => State.user (ui w)) ;;
  currentBoard <- gets (fun w => State.currentBoard (ui w)) ;;
  match user, currentBoard with
  | Some user, Some currentBoard =>
      columns <- gets (fun w => State.columns (ui w)) ;;
      tasks <- gets (fun w => State.tasks (ui w)) ;;
      match targetColumnId columnId columns with
      | None => ret tt
      | Some targetColumnId =>
          if negb (truthy targetColumnId) then ret tt
          else
            try_catch
              (let taskId := js "task_" ++ Number_toString now in
               let newTask : Task.row :=
                 Task.mk taskId title None targetColumnId
                   (Board.id currentBoard) (User.id user)
                   (Z.of_nat (length
                      (filter (fun t => str_eqb (Task.columnId t) targetColumnId)
                              tasks)))
                   None (VBool false) (Some (js "[]")) None None in
               db.tasks_create newTask ;;
               loadBoardData (Board.id currentBoard) ;;
               toast (Toast.mk (js "Task created")
                        (Some (34 :: title ++ 34 :: js " has been added to your board"))
                        None))
              (fun error =>
                 console_print Error (js "Error creating task:") (Some error) ;;
                 toast (Toast.mk (js "Creation Error")
                                 (Some (js "Failed to create task"))
                                 (Some destructive)))
      end
  | _, _ => ret tt
  end.

(** A whole gesture: the drag starts on an item, the pointer passes over
    a sequence of targets, and the gesture ends over the last one. *)
Fixpoint hover (activeId : jsstring) (targets : list (option jsstring))
  : M unit :=
  match targets with
  | [] => ret tt
  | target :: more =>
      handleDragOver (mkDrag activeId target) ;;
      hover activeId more
  end.

Definition dragGesture (activeId : jsstring)
           (targets : list (option jsstring)) (drop : option jsstring)
           (now : timestamp) : M unit :=
  handleDragStart (mkDrag activeId None) ;;
  hover activeId targets ;;
  handleDragEnd (mkDrag activeId drop) now.

(** The subtasks the component passes to the drawer of the selected
    task. *)
Definition drawerSubtasks (selectedTask : Task.cached)
           (subtasks : list Subtask.t) : list Subtask.t :=
  filter (fun st => str_eqb (Subtask.taskId st) (Task.id selectedTask)) subtasks.


Definition setSelectedTask (v : option Task.cached) : M unit :=
  modify (with_ui (fun s =>
    State.mk (State.user s) (State.currentBoard s) (State.columns s)
             (State.tasks s) (State.subtasks s) v (State.activeId s))).

Definition setCurrentBoard (v : option Board.t) : M unit :=
  modify (with_ui (fun s =>
    State.mk (State.user s) v (State.columns s) (State.tasks s)
             (State.subtasks s) (State.selectedTask s) (State.activeId s))).

(** The [onClose] the component gives the drawer:
    [() => setSelectedTask(null)]. *)
Definition closeDrawer : M unit := setSelectedTask None.

(** The search of the top bar.  A computed value is [None] when its
    evaluation throws a TypeError: the tags of a cached task are whatever
    [JSON.parse] returned, and only [null] and arrays of strings go through
    [task.tags?.some(tag => tag.toLowerCase()...)]. *)
Section Search.

(** [String.prototype.toLowerCase], whose case tables are not part of the
    repository. *)
Variable toLowerCase : jsstring -> jsstring.

(** [tag.toLowerCase().includes(q)] *)
Definition tagMatches (q : jsstring) (tag : json) : option bool :=
  match tag with
  | JStr s => Some (str_includes (toLowerCase s) q)
  | _ => None
  end.

(** [items.some(tag => ...)]: the first match ends the search. *)
Fixpoint someTag (q : jsstring) (items : list json) : option bool :=
  match items with
  | [] => Some false
  | tag :: more =>
      match tagMatches q tag with
      | None => None
      | Some true => Some true
      | Some false => someTag q more
      end
  end.

(** [task.tags?.some(...)] *)
Definition tagsMatch (q : jsstring) (tags : json) : option bool :=
  match tags with
  | JNull => Some false
  | JArr items => someTag q items
  | _ => None
  end.

(** The predicate of the filter: title, then description, then tags. *)
Definition matchesSearch (searchQuery : jsstring) (task : Task.cached)
  : option bool :=
  if str_includes (toLowerCase (Task.title task)) (toLowerCase searchQuery)
  then Some true
  else if match Task.description task with
          | Some d => str_includes (toLowerCase d) (toLowerCase searchQuery)
          | None => false
          end
  then Some true
  else tagsMatch (toLowerCase searchQuery) (Task.tags task).

(** [tasks.filter(task => ...)] *)
Fixpoint filteredTasks (searchQuery : jsstring) (tasks : list Task.cached)
  : option (list Task.cached) :=
  match tasks with
  | [] => Some []
  | task :: more =>
      match matchesSearch searchQuery task with
      | None => None
      | Some keep =>
          match filteredTasks searchQuery more with
          | None => None
          | Some shown => Some (if keep then task :: shown else shown)
          end
      end
  end.

End Search.

End TaskManager.

(* ================================================================== *)
(** * components/kanban/TaskDetailDrawer.tsx *)
(* ================================================================== *)

Module TaskDetailDrawer.

Record Props := mkProps {
  task : Task.cached;
  subtasks : list Subtask.t;
  onUpdate : M unit
}.

(** The local state of the drawer. *)
Record Local := mkLocal {
  isEditing : bool;
  title : jsstring;
  description : jsstring;
  dueDate : option timestamp;
  tags : list jsstring;
  tagInput : jsstring;
  newSubtaskTitle : jsstring
}.

Definition setIsEditing (v : bool) (l : Local) : Local :=
  mkLocal v (title l) (description l) (dueDate l) (tags l) (tagInput l)
          (newSubtaskTitle l).

Definition setNewSubtaskTitle (v : jsstring) (l : Local) : Local :=
  mkLocal (isEditing l) (title l) (description l) (dueDate l) (tags l)
          (tagInput l) v.

Definition handleSave (props : Props) (l : Local) (now : timestamp)
  : M Local :=
  try_catch
    (db.tasks_update (Task.id (task props))
       (Store.mkPatch
          (Some (title l))
          (Some (if truthy (description l) then Some (description l) else None))
          (Some (dueDate l))
          None
          (Some (JSON.stringify (tags l)))
          (Some now)) ;;
     onUpdate props ;;
     toast (Toast.mk (js "Task updated")
                     (Some (js "Your changes have been saved")) None) ;;
     ret (setIsEditing false l))
    (fun error =>
       console_print Error (js "Error updating task:") (Some error) ;;
       toast (Toast.mk (js "Update failed")
                       (Some (js "Failed to save changes"))
                       (Some destructive)) ;;
       ret l).

Definition toggleSubtask (props : Props) (subtaskId : jsstring)
           (completed : bool) : M unit :=
  try_catch
    (db.subtasks_update subtaskId (VNum (if completed then 1 else 0)) ;;
     onUpdate props)
    (fun error =>
       console_print Error (js "Error updating subtask:") (Some error) ;;
       toast (Toast.mk (js "Update failed")
                       (Some (js "Failed to update subtask"))
                       (Some destructive))).

Definition addSubtask (props : Props) (l : Local) (now : timestamp)
  : M Local :=
  if negb (truthy (trim (newSubtaskTitle l))) then ret l
  else
    try_catch
      (let subtaskId := js "subtask_" ++ Number_toString now in
       db.subtasks_create
         (Subtask.mk subtaskId (trim (newSubtaskTitle l))
                     (Task.id (task props)) (VBool false)
                     (Z.of_nat (length (subtasks props)))) ;;
       onUpdate props ;;
       toast (Toast.mk (js "Subtask added")
                       (Some (js "New subtask has been created")) None) ;;
       ret (setNewSubtaskTitle [] l))
      (fun error =>
         console_print Error (js "Error creating subtask:") (Some error) ;;
         toast (Toast.mk (js "Creation failed")
                         (Some (js "Failed to create subtask"))
                         (Some destructive)) ;;
         ret l).

Definition deleteSubtask (props : Props) (subtaskId : jsstring) : M unit :=
  try_catch
    (db.subtasks_delete subtaskId ;;
     onUpdate props ;;
     toast (Toast.mk (js "Subtask deleted")
                     (Some (js "Subtask has been removed")) None))
    (fun error =>
       console_print Error (js "Error deleting subtask:") (Some error) ;;
       toast (Toast.mk (js "Delete failed")
                       (Some (js "Failed to delete subtask"))
                       (Some destructive))).

(** [tags.includes(tag)] *)
Definition includes (tags : list jsstring) (tag : jsstring) : bool :=
  existsb (fun t => str_eqb t tag) tags.

Definition addTag (l : Local) : Local :=
  let tag := trim (tagInput l) in
  if truthy tag && negb (includes (tags l) tag)
  then mkLocal (isEditing l) (title l) (description l) (dueDate l)
               (tags l ++ [tag]) [] (newSubtaskTitle l)
  else l.

Definition removeTag (tagToRemove : jsstring) (l : Local) : Local :=
  mkLocal (isEditing l) (title l) (description l) (dueDate l)
          (filter (fun tag => negb (str_eqb tag tagToRemove)) (tags l))
          (tagInput l) (newSubtaskTitle l).

(** The count of the header: [Subtasks (done/total)]. *)
Definition completedCount (props : Props) : nat :=
  length (filter (fun st => (Number (Subtask.completed st) >? 0)%Z)
                 (subtasks props)).

(** The [checked] property of the checkbox of a subtask. *)
Definition checked (subtask : Subtask.t) : bool :=
  (Number (Subtask.completed subtask) >? 0)%Z.


(** [handleDelete]; [confirmed] is the answer to the [confirm] dialog, and
    [onClose] the property of that name. *)
Definition handleDelete (props : Props) (onClose : M unit) (confirmed : bool)
  : M unit :=
  if negb confirmed then ret tt
  else
    try_catch
      (db.tasks_delete (Task.id (task props)) ;;
       onUpdate props ;;
       onClose ;;
       toast (Toast.mk (js "Task deleted")
                       (Some (js "The task has been removed")) None))
      (fun error =>
         console_print Error (js "Error deleting task:") (Some error) ;;
         toast (Toast.mk (js "Delete failed")
                         (Some (js "Failed to delete task"))
                         (Some destructive))).

End TaskDetailDrawer.

(** The drawer as TaskManager renders it for the selected task: the
    subtasks of that task, and a reload of the current board as
    [onUpdate]. *)
Definition renderDrawer (s : State.t) : option TaskDetailDrawer.Props :=
  match State.selectedTask s with
  | Some selectedTask =>
      Some (TaskDetailDrawer.mkProps selectedTask
              (TaskManager.drawerSubtasks selectedTask (State.subtasks s))
              TaskManager.reload)
  | None => None
  end.

(* ================================================================== *)
(** * The readers: TaskCard, ListView, KanbanBoard *)
(* ================================================================== *)

Module TaskCard.
Definition completedSubtasks (subtasks : list Subtask.t) : nat :=
  length (filter (fun st => (Number (Subtask.completed st) >? 0)%Z) subtasks).

Definition totalSubtasks (subtasks : list Subtask.t) : nat :=
  length subtasks.
End TaskCard.

Module ListView.
(** [getSubtaskProgress(taskId)]: the pair [{ completed, total }]. *)
Definition getSubtaskProgress (subtasks : list Subtask.t) (taskId : jsstring)
  : nat * nat :=
  let taskSubtasks :=
    filter (fun st => str_eqb (Subtask.taskId st) taskId) subtasks in
  let completed :=
    length (filter (fun st => (Number (Subtask.completed st) >? 0)%Z)
                   taskSubtasks) in
  (completed, length taskSubtasks).

(** [columns.find(col => col.id === columnId)?.name || 'Unknown'] *)
Definition getColumnName (columns : list Column.t) (columnId : jsstring)
  : jsstring :=
  match find (fun col => str_eqb (Column.id col) columnId) columns with
  | Some col => if truthy (Column.name col) then Column.name col else js "Unknown"
  | None => js "Unknown"
  end.

(** [columns.find(col => col.id === columnId)?.color || '#6b7280'] *)
Definition getColumnColor (columns : list Column.t) (columnId : jsstring)
  : jsstring :=
  match find (fun col => str_eqb (Column.id col) columnId) columns with
  | Some col => if truthy (Column.color col) then Column.color col else js "#6b7280"
  | None => js "#6b7280"
  end.

End ListView.

Module KanbanBoard.
Definition columnTasks (column : Column.t) (tasks : list Task.cached)
  : list Task.cached :=
  filter (fun task => str_eqb (Task.columnId task) (Column.id column)) tasks.

Definition taskSubtasks (task : Task.cached) (subtasks : list Subtask.t)
  : list Subtask.t :=
  filter (fun st => str_eqb (Subtask.taskId st) (Task.id task)) subtasks.
End KanbanBoard.

(* ================================================================== *)
(** * The quick-add form *)
(* ================================================================== *)

Module QuickAddTask.

Record QuickAddTaskProps := mkProps {
  columns : list Column.t;
  onCreateTask : jsstring -> option jsstring -> M unit;
  onClose : M unit
}.

(** The local state of the form. *)
Record Local := mkLocal {
  title : jsstring;
  description : jsstring;
  selectedColumn : jsstring;
  dueDate : option timestamp;
  tags : list jsstring;
  tagInput : jsstring;
  showCalendar : bool
}.

(** The state the form opens with: [columns[0]?.id || ''] is selected. *)
Definition initial (props : QuickAddTaskProps) : Local :=
  mkLocal [] []
    (match columns props with
     | col :: _ => Column.id col
     | [] => []
     end)
    None [] [] false.

Definition handleSubmit (props : QuickAddTaskProps) (l : Local) : M Local :=
  if negb (truthy (trim (title l))) then ret l
  else
    onCreateTask props (trim (title l)) (Some (selectedColumn l)) ;;
    onClose props ;;
    ret (mkLocal [] [] (selectedColumn l) None [] [] (showCalendar l)).

(** [tags.includes(tag)] *)
Definition includes (tags : list jsstring) (tag : jsstring) : bool :=
  existsb (fun t => str_eqb t tag) tags.

Definition addTag (l : Local) : Local :=
  let tag := trim (tagInput l) in
  if truthy tag && negb (includes (tags l) tag)
  then mkLocal (title l) (description l) (selectedColumn l) (dueDate l)
               (tags l ++ [tag]) [] (showCalendar l)
  else l.

Definition removeTag (tagToRemove : jsstring) (l : Local) : Local :=
  mkLocal (title l) (description l) (selectedColumn l) (dueDate l)
          (filter (fun tag => negb (str_eqb tag tagToRemove)) (tags l))
          (tagInput l) (showCalendar l).

End QuickAddTask.

(* ================================================================== *)
(** * The workspace of a user: initializeUserBoard *)
(* ================================================================== *)

Module Workspace.

(** The calls of [blink.db] that only the set-up of a workspace issues. *)
Inductive call :=
| boards_list (userId : jsstring)
| boards_create (record : Board.t)
| columns_create (record : Column.t).

(** The world of the set-up: the world of the handlers, with the boards.
    Modelled from the spec: [boardRows] is the boards table of the Remote
    Store Client, in the order in which the boards were created, which is
    the order of [createdAt]; [boards.list] returns the boards of a user in
    that order. *)
Record t := mk {
  boardRows : list Board.t;
  boards : list Board.t;
  setupCalls : list call;
  world : World
}.

Definition W (A : Type) := t -> (exn + A) * t.

Definition ret {A} (a : A) : W A := fun s => (inr a, s).

Definition bind {A B} (m : W A) (k : A -> W B) : W B :=
  fun s =>
    match m s with
    | (inr a, s') => k a s'
    | (inl e, s') => (inl e, s')
    end.

Definition try_catch {A} (m : W A) (h : exn -> W A) : W A :=
  fun s =>
    match m s with
    | (inl e, s') => h e s'
    | (inr a, s') => (inr a, s')
    end.

(** A computation of the handlers, run in the world of the set-up. *)
Definition lift {A} (m : M A) : W A :=
  fun s =>
    let (r, w) := m (world s) in
    (r, mk (boardRows s) (boards s) (setupCalls s) w).

Definition exec {A} (m : W A) (s : t) : t := snd (m s).

(** One awaited call: it is recorded, takes the next entry of the outage
    script, and is rejected or runs on the store. *)
Definition request {A} (c : call)
           (run : list Board.t -> Store.t -> A * list Board.t * Store.t)
  : W A :=
  fun s =>
    let w := world s in
    if hd false (outages w) then
      (inl StoreError,
       mk (boardRows s) (boards s) (setupCalls s ++ [c])
          (mkWorld (remote w) (tl (outages w)) (calls w) (console w)
                   (alerts w) (ui w)))
    else
      let '(a, rows, store) := run (boardRows s) (remote w) in
      (inr a,
       mk rows (boards s) (setupCalls s ++ [c])
          (mkWorld store (tl (outages w)) (calls w) (console w)
                   (alerts w) (ui w))).

(** [blink.db.boards.list({ where: { userId }, orderBy: { createdAt: 'asc' } })] *)
Definition db_boards_list (userId : jsstring) : W (list Board.t) :=
  request (boards_list userId)
    (fun rows store =>
       (filter (fun b => str_eqb (Board.userId b) userId) rows, rows, store)).

Definition db_boards_create (record : Board.t) : W unit :=
  request (boards_create record)
    (fun rows store => (tt, rows ++ [record], store)).

Definition db_columns_create (record : Column.t) : W unit :=
  request (columns_create record)
    (fun rows store =>
       (tt, rows,
        Store.mk (Store.columns store ++ [record]) (Store.tasks store)
                 (Store.subtasks store))).

Definition setBoards (v : list Board.t) : W unit :=
  fun s => (inr tt, mk (boardRows s) v (setupCalls s) (world s)).

(** The readings of [Date.now()]: one for the id of the board, and one for
    each entry of [defaultColumns]. *)
Record Clock := mkClock {
  atBoard : timestamp;
  atToDo : timestamp;
  atInProgress : timestamp;
  atDone : timestamp
}.

(** [defaultColumns], with the [boardId] the loop adds to each. *)
Definition defaultColumns (clock : Clock) (boardId : jsstring)
  : list Column.t :=
  [Column.mk (js "col_" ++ Number_toString (atToDo clock) ++ js "_1")
             (js "To Do") boardId 0 (js "#ef4444");
   Column.mk (js "col_" ++ Number_toString (atInProgress clock) ++ js "_2")
             (js "In Progress") boardId 1 (js "#f59e0b");
   Column.mk (js "col_" ++ Number_toString (atDone clock) ++ js "_3")
             (js "Done") boardId 2 (js "#10b981")].

(** [for (const col of cols) { await blink.db.columns.create(...) }] *)
Fixpoint createColumns (cols : list Column.t) : W unit :=
  match cols with
  | [] => ret tt
  | col :: more => bind (db_columns_create col) (fun _ => createColumns more)
  end.

Definition initializeUserBoard (userId : jsstring) (clock : Clock) : W unit :=
  try_catch
    (bind (db_boards_list userId) (fun userBoards =>
       if (length userBoards =? 0)%nat then
         let boardId := js "board_" ++ Number_toString (atBoard clock) in
         bind (db_boards_create
                 (Board.mk boardId (js "My Tasks")
                    (Some (js "Your personal task board")) userId false false))
           (fun _ =>
         bind (createColumns (defaultColumns clock boardId)) (fun _ =>
         bind (db_boards_list userId) (fun updatedBoards =>
         bind (setBoards updatedBoards) (fun _ =>
         lift (TaskManager.setCurrentBoard (hd_error updatedBoards))))))
       else
         bind (setBoards userBoards) (fun _ =>
         lift (TaskManager.setCurrentBoard (hd_error userBoards)))))
    (fun error =>
       bind (lift (console_print Error (js "Error initializing user board:")
                     (Some error))) (fun _ =>
       lift (toast (Toast.mk (js "Setup Error")
                      (Some (js "Failed to initialize your workspace"))
                      (Some destructive))))).

(** The effect on [currentBoard]: [if (currentBoard) loadBoardData(...)]. *)
Definition loadCurrentBoard : W unit := lift TaskManager.reload.

End Workspace.

(** A subtask is completed, for every reader, when [Number(completed) > 0]. *)
Definition isCompleted (st : Subtask.t) : bool :=
  (Number (Subtask.completed st) >? 0)%Z.

(* ================================================================== *)
(** * Vocabulary of the statements *)
(* ================================================================== *)

(** The reconciliation fetch is rejected when one of its three calls is:
    they take the next three entries of the outage script. *)
Definition fetch_rejected (script : list bool) : bool :=
  existsb (fun b => b) (firstn 3 script).

(** What [task.tags ? JSON.parse(task.tags) : []] evaluates to, when it
    does not throw. *)
Definition tags_value (tags : option jsstring) : option json :=
  match tags with
  | Some enc =>
      if truthy enc then
        match JSON.parse enc with
        | Parsed v _ => Some v
        | _ => None
        end
      else Some (JArr [])
  | None => Some (JArr [])
  end.

(** A stored encoding is malformed when it is a non-empty string that is
    not a JSON text. *)
Definition malformed (tags : option jsstring) : bool :=
  match tags_value tags with Some _ => false | None => true end.

Definition decodable (row : Task.row) : bool := negb (malformed (Task.tags row)).

(** The cached task of a row with well-formed tags. *)
Definition decoded (row : Task.row) : Task.cached :=
  Task.with_tags
    (match tags_value (Task.tags row) with Some v => v | None => JArr [] end)
    row.

(** The queries of the loader. *)
Definition board_query (boardId : jsstring) : Store.query :=
  Store.mkQuery (Some boardId) (Some Store.asc).

Definition all_query : Store.query := Store.mkQuery None (Some Store.asc).

Definition fetch_calls (boardId : jsstring) : list Store.call :=
  [Store.columns_list (board_query boardId);
   Store.tasks_list (board_query boardId);
   Store.subtasks_list all_query].

Definition loading_error : jsstring :=
  js "Loading Error: Failed to load board data".

Definition update_error : jsstring :=
  js "Update Error: Failed to move task".

(** The world after a load that ran to its end. *)
Definition reconciled (boardId : jsstring) (w : World) : World :=
  mkWorld (remote w) (tl (tl (tl (outages w)))) (calls w ++ fetch_calls boardId)
    (console w) (alerts w)
    (State.mk (State.user (ui w)) (State.currentBoard (ui w))
       (Store.list_columns (board_query boardId) (remote w))
       (map decoded (Store.list_tasks (board_query boardId) (remote w)))
       (Store.list_subtasks all_query (remote w))
       (State.selectedTask (ui w)) (State.activeId (ui w))).

(** The world after a load that caught [error], with the state [s]. *)
Definition load_failed (boardId : jsstring) (error : exn) (s : State.t)
           (w : World) : World :=
  mkWorld (remote w) (tl (tl (tl (outages w)))) (calls w ++ fetch_calls boardId)
    (console w ++ [(Error, js "Error loading board data:", Some error);
                   (Error, loading_error, None)])
    (alerts w ++ [loading_error])
    s.

(** The state when the decoding of the tasks throws: the columns have been
    set, the tasks and the subtasks have not. *)
Definition columns_only (boardId : jsstring) (w : World) : State.t :=
  State.mk (State.user (ui w)) (State.currentBoard (ui w))
    (Store.list_columns (board_query boardId) (remote w))
    (State.tasks (ui w)) (State.subtasks (ui w))
    (State.selectedTask (ui w)) (State.activeId (ui w)).


(** The tasks after the optimistic move of the task [activeId]. *)
Definition moved (activeId columnId : jsstring) (tasks : list Task.cached)
  : list Task.cached :=
  map (fun task =>
         if str_eqb (Task.id task) activeId
         then Task.with_columnId columnId task
         else task) tasks.

(** The world with other cached tasks. *)
Definition retasked (tasks : list Task.cached) (w : World) : World :=
  mkWorld (remote w) (outages w) (calls w) (console w) (alerts w)
    (State.mk (State.user (ui w)) (State.currentBoard (ui w))
       (State.columns (ui w)) tasks (State.subtasks (ui w))
       (State.selectedTask (ui w)) (State.activeId (ui w))).

(** Two tasks that differ in their column at most. *)
Definition same_except_columnId (a b : Task.cached) : Prop :=
  Task.id a = Task.id b /\ Task.title a = Task.title b /\
  Task.description a = Task.description b /\
  Task.boardId a = Task.boardId b /\ Task.userId a = Task.userId b /\
  Task.position a = Task.position b /\ Task.dueDate a = Task.dueDate b /\
  Task.completed a = Task.completed b /\ Task.tags a = Task.tags b /\
  Task.createdAt a = Task.createdAt b /\ Task.updatedAt a = Task.updatedAt b.

(** The partial record the drop writes. *)
Definition drop_patch (activeTask : Task.cached) (now : timestamp)
  : Store.task_patch :=
  Store.mkPatch None None None (Some (Task.columnId activeTask)) None (Some now).

(** The world in which the load that follows a drop starts: the write has
    been issued, and reported if it was rejected. *)
Definition after_drop_write (event : DragEvent) (activeTask : Task.cached)
           (now : timestamp) (w : World) : World :=
  let rejected := hd false (outages w) in
  mkWorld
    (if rejected then remote w
     else Store.update_task (active event) (drop_patch activeTask now) (remote w))
    (tl (outages w))
    (calls w ++ [Store.tasks_update (active event) (drop_patch activeTask now)])
    (if rejected
     then console w ++ [(Error, js "Error updating task:", Some StoreError);
                        (Error, update_error, None)]
     else console w)
    (if rejected then alerts w ++ [update_error] else alerts w)
    (State.mk (State.user (ui w)) (State.currentBoard (ui w))
       (State.columns (ui w)) (State.tasks (ui w)) (State.subtasks (ui w))
       (State.selectedTask (ui w)) None).

(** The durable writes among the calls of a world. *)
Definition writes (w : World) : list Store.call :=
  filter Store.is_write (calls w).

(** The call a handler issues first, in a world that had issued [before]. *)
Definition first_call (before after : World) : option Store.call :=
  nth_error (calls after) (length (calls before)).

(** The board a subtask belongs to in the store: the board of its task. *)
Definition board_of_subtask (s : Store.t) (st : Subtask.t) : option jsstring :=
  option_map (@Task.boardId _)
    (find (fun row => str_eqb (Task.id row) (Subtask.taskId st)) (Store.tasks s)).

(** The tags a cached value holds, as a set. *)
Definition has_tag (v : json) (tag : jsstring) : Prop :=
  match v with
  | JArr items => In (JStr tag) items
  | _ => False
  end.

(** What a hover does to the world, in one expression. *)
Definition hovered (event : DragEvent) (w : World) : World :=
  match over event with
  | None => w
  | Some overId =>
      match TaskManager.findTask (active event) (State.tasks (ui w)) with
      | None => w
      | Some t =>
          match TaskManager.overColumn (State.columns (ui w))
                  (State.tasks (ui w)) overId with
          | None => w
          | Some col =>
              if str_eqb (Task.columnId t) (Column.id col) then w
              else retasked (moved (active event) (Column.id col)
                                   (State.tasks (ui w))) w
          end
      end
  end.

(** Silent recovery of a load: it shows nothing and replaces the tasks, a
    malformed encoding read as no tags. *)
Definition recovers_silently (boardId : jsstring) (w : World) : Prop :=
  let w' := exec (TaskManager.loadBoardData boardId) w in
  alerts w' = alerts w /\
  State.tasks (ui w') =
    map decoded (Store.list_tasks (board_query boardId) (remote w)).

(** A load restricted to a board: what it leaves in the cache belongs to
    the board. *)
Definition fetches_board_only (boardId : jsstring) (w : World) : Prop :=
  let w' := exec (TaskManager.loadBoardData boardId) w in
  (forall c, In c (State.columns (ui w')) -> Column.boardId c = boardId) /\
  (forall t, In t (State.tasks (ui w')) -> Task.boardId t = boardId) /\
  (forall st, In st (State.subtasks (ui w')) ->
              board_of_subtask (remote w) st = Some boardId).

(** No durable write is issued between the worlds [w] and [w']. *)
Definition no_durable_write (w w' : World) : Prop := writes w' = writes w.

(** A computation that only adds to the record of calls. *)
Definition appends {A} (m : M A) : Prop :=
  forall w, exists more, calls (snd (m w)) = calls w ++ more.

(** A computation whose first call is [c]. *)
Definition issues_first {A} (c : Store.call) (m : M A) : Prop :=
  forall w, exists more, calls (snd (m w)) = calls w ++ c :: more.

(** Every cached task is in a cached column. *)
Definition columns_valid (columns : list Column.t) (tasks : list Task.cached)
  : Prop :=
  Forall (fun task => In (Task.columnId task) (map Column.id columns)) tasks.

(** The sum of the counts that the headers of the columns show. *)
Definition boardTotal (columns : list Column.t) (tasks : list Task.cached)
  : nat :=
  list_sum (map (fun column => length (KanbanBoard.columnTasks column tasks))
                columns).

(** The world with no drag in progress. *)
Definition idle (w : World) : World :=
  mkWorld (remote w) (outages w) (calls w) (console w) (alerts w)
    (State.mk (State.user (ui w)) (State.currentBoard (ui w))
       (State.columns (ui w)) (State.tasks (ui w)) (State.subtasks (ui w))
       (State.selectedTask (ui w)) None).

(** Two stored tasks that differ in their column and their time of update
    at most. *)
Definition same_except_move (a b : Task.row) : Prop :=
  Task.id a = Task.id b /\ Task.title a = Task.title b /\
  Task.description a = Task.description b /\
  Task.boardId a = Task.boardId b /\ Task.userId a = Task.userId b /\
  Task.position a = Task.position b /\ Task.dueDate a = Task.dueDate b /\
  Task.completed a = Task.completed b /\ Task.tags a = Task.tags b /\
  Task.createdAt a = Task.createdAt b.

(** The relation between the cached tasks before and after hovers of the
    task [activeId]. *)
Definition hover_related (activeId : jsstring) (old new : Task.cached) : Prop :=
  if str_eqb (Task.id old) activeId
  then same_except_columnId old new
  else new = old.

(** A task is in a column. *)
Definition inColumn (task : Task.cached) (column : Column.t) : bool :=
  str_eqb (Task.columnId task) (Column.id column).

(** The world after a call [c] that left the store [s]. *)
Definition issued (c : Store.call) (s : Store.t) (w : World) : World :=
  mkWorld s (tl (outages w)) (calls w ++ [c]) (console w) (alerts w) (ui w).

(** The world after a catch block has printed [error] under [text] and
    shown the destructive toast [message]. *)
Definition reported (text : jsstring) (error : exn) (message : jsstring)
           (w : World) : World :=
  mkWorld (remote w) (outages w) (calls w)
    (console w ++ [(Error, text, Some error); (Error, message, None)])
    (alerts w ++ [message]) (ui w).

(** The world after a toast of the default variant. *)
Definition notified (message : jsstring) (w : World) : World :=
  mkWorld (remote w) (outages w) (calls w)
    (console w ++ [(Log, message, None)]) (alerts w ++ [message]) (ui w).

(** The record [createTask] sends to the store. *)
Definition newTask (title target : jsstring) (now : timestamp)
           (user : User.t) (board : Board.t) (tasks : list Task.cached)
  : Task.row :=
  Task.mk (js "task_" ++ Number_toString now) title None target
    (Board.id board) (User.id user)
    (Z.of_nat (length (filter (fun t => str_eqb (Task.columnId t) target)
                              tasks)))
    None (VBool false) (Some (js "[]")) None None.

(** The message of the toast of a created task. *)
Definition task_created (title : jsstring) : jsstring :=
  js "Task created: " ++ 34 :: title ++ 34 :: js " has been added to your board".

(** A rejected write: the call [c] is the only one issued, the store and
    the state of the component are what they were, and [message] is
    shown. *)
Definition only_reports (c : Store.call) (message : jsstring)
           (w w' : World) : Prop :=
  remote w' = remote w /\ ui w' = ui w /\
  calls w' = calls w ++ [c] /\
  alerts w' = alerts w ++ [message].

(** The partial record [handleSave] sends to the store. *)
Definition save_patch (l : TaskDetailDrawer.Local) (now : timestamp)
  : Store.task_patch :=
  Store.mkPatch
    (Some (TaskDetailDrawer.title l))
    (Some (if truthy (TaskDetailDrawer.description l)
           then Some (TaskDetailDrawer.description l) else None))
    (Some (TaskDetailDrawer.dueDate l))
    None
    (Some (JSON.stringify (TaskDetailDrawer.tags l)))
    (Some now).

(** The record [addSubtask] sends to the store. *)
Definition newSubtask (props : TaskDetailDrawer.Props)
           (l : TaskDetailDrawer.Local) (now : timestamp) : Subtask.t :=
  Subtask.mk (js "subtask_" ++ Number_toString now)
    (trim (TaskDetailDrawer.newSubtaskTitle l))
    (Task.id (TaskDetailDrawer.task props)) (VBool false)
    (Z.of_nat (length (TaskDetailDrawer.subtasks props))).

(** The value [toggleSubtask] writes. *)
Definition toggled (checked : bool) : value :=
  VNum (if checked then 1 else 0).

(** Tags the search can read: [null], or an array of strings. *)
Definition searchable (tags : json) : bool :=
  match tags with
  | JNull => true
  | JArr items =>
      forallb (fun tag => match tag with JStr _ => true | _ => false end) items
  | _ => false
  end.

(** A task with readable tags matches a query when its title, its
    description or one of its tags contains it, letter case apart. *)
Definition matches (toLowerCase : jsstring -> jsstring)
           (searchQuery : jsstring) (task : Task.cached) : bool :=
  str_includes (toLowerCase (Task.title task)) (toLowerCase searchQuery)
  || match Task.description task with
     | Some d => str_includes (toLowerCase d) (toLowerCase searchQuery)
     | None => false
     end
  || match Task.tags task with
     | JArr items =>
         existsb (fun tag =>
                    match tag with
                    | JStr s => str_includes (toLowerCase s)
                                             (toLowerCase searchQuery)
                    | _ => false
                    end) items
     | _ => false
     end.

(** The boards of a user in the boards table. *)
Definition userBoards (userId : jsstring) (rows : list Board.t)
  : list Board.t :=
  filter (fun b => str_eqb (Board.userId b) userId) rows.

(** The board the set-up creates for a new user. *)
Definition defaultBoard (userId : jsstring) (clock : Workspace.Clock)
  : Board.t :=
  Board.mk (js "board_" ++ Number_toString (Workspace.atBoard clock))
    (js "My Tasks") (Some (js "Your personal task board")) userId false false.

(** The next [n] calls are served. *)
Definition served (n : nat) (script : list bool) : bool :=
  negb (existsb (fun b => b) (firstn n script)).

Definition setup_error : jsstring :=
  js "Setup Error: Failed to initialize your workspace".



(* ================================================================== *)
(** * A board to run the components on *)
(* ================================================================== *)

Module Scenario.

Definition alice : User.t :=
  User.mk (js "u1") (js "alice@example.com") None.

Definition board1 : Board.t :=
  Board.mk (js "b1") (js "My Tasks") (Some (js "Your personal task board"))
           (js "u1") false false.

Definition col_todo : Column.t :=
  Column.mk (js "col_todo") (js "To Do") (js "b1") 0 (js "#ef4444").
Definition col_doing : Column.t :=
  Column.mk (js "col_doing") (js "In Progress") (js "b1") 1 (js "#f59e0b").
Definition col_done : Column.t :=
  Column.mk (js "col_done") (js "Done") (js "b1") 2 (js "#10b981").
(** A column of another board. *)
Definition col_other : Column.t :=
  Column.mk (js "col_other") (js "To Do") (js "b2") 0 (js "#ef4444").

Definition row (id title columnId boardId : string) (position : Z)
           (tags : option jsstring) : Task.row :=
  Task.mk (js id) (js title) None (js columnId) (js boardId) (js "u1")
          position None (VBool false) tags (Some 1000) (Some 1000).

Definition t1 : Task.row :=
  row "t1" "Write spec" "col_todo" "b1" 0
      (Some (JSON.stringify [js "urgent"; js "q3"])).
Definition t2 : Task.row :=
  row "t2" "Review" "col_todo" "b1" 1 (Some (js "[]")).
Definition t3 : Task.row :=
  row "t3" "Ship" "col_done" "b1" 0 None.
(** A task of another board. *)
Definition t9 : Task.row :=
  row "t9" "Elsewhere" "col_other" "b2" 0 None.

Definition s1 : Subtask.t :=
  Subtask.mk (js "s1") (js "Outline") (js "t1") (VNum 1) 0.
Definition s2 : Subtask.t :=
  Subtask.mk (js "s2") (js "Draft") (js "t1") (VBool false) 1.
(** A subtask of the task of the other board. *)
Definition s9 : Subtask.t :=
  Subtask.mk (js "s9") (js "Far away") (js "t9") (VBool false) 0.

Definition store0 : Store.t :=
  Store.mk [col_todo; col_doing; col_done; col_other]
           [t1; t2; t3; t9] [s1; s2; s9].

(** The component after sign-in and selection of the board, before its
    first load. *)
Definition signed_in : State.t :=
  State.mk (Some alice) (Some board1) [] [] [] None None.

Definition start (store : Store.t) (script : list bool) : World :=
  mkWorld store script [] [] [] signed_in.

(** The board loaded from [store0], and a script for what follows. *)
Definition loaded (script : list bool) : World :=
  let w := exec (TaskManager.loadBoardData (js "b1")) (start store0 []) in
  mkWorld (remote w) script [] [] [] (ui w).

(** A store in which the tags of the first task are not JSON. *)
Definition t1_malformed : Task.row :=
  row "t1" "Write spec" "col_todo" "b1" 0 (Some (js "urgent,q3")).

Definition store_malformed : Store.t :=
  Store.mk [col_todo; col_doing; col_done] [t1_malformed; t2] [s1; s2].

(** The loaded board with the drawer of task [t1] open, and what the user
    has typed in it. *)
Definition drawer_open (script : list bool) : World :=
  let w := loaded script in
  mkWorld (remote w) (outages w) (calls w) (console w) (alerts w)
    (State.mk (State.user (ui w)) (State.currentBoard (ui w))
       (State.columns (ui w)) (State.tasks (ui w)) (State.subtasks (ui w))
       (Some (decoded t1)) (State.activeId (ui w))).

Definition typing : TaskDetailDrawer.Local :=
  TaskDetailDrawer.mkLocal false (js "Write spec") [] None
    [js "urgent"; js "q3"] [] (js "  Write tests ").

(** [toLowerCase] on the letters A to Z, which is all the text of this
    board needs. *)
Definition lower (s : jsstring) : jsstring :=
  map (fun c => if (65 <=? c) && (c <=? 90) then c + 32 else c) s.

(** The drawer the component renders for [t1] on the loaded board. *)
Definition drawer (script : list bool) : TaskDetailDrawer.Props :=
  TaskDetailDrawer.mkProps (decoded t1)
    (TaskManager.drawerSubtasks (decoded t1)
       (State.subtasks (ui (drawer_open script))))
    TaskManager.reload.

(** The quick-add form of the loaded board, filled in, with [createTask]
    at the instant [now] as its [onCreateTask]; closing the dialog changes
    nothing of the state kept here. *)
Definition quickAdd (now : timestamp) : QuickAddTask.QuickAddTaskProps :=
  QuickAddTask.mkProps [col_todo; col_doing; col_done]
    (fun title columnId => TaskManager.createTask title columnId now)
    (ret tt).

Definition filled : QuickAddTask.Local :=
  QuickAddTask.mkLocal (js "  Call the bank ") (js "before noon")
    (js "col_doing") (Some 5000) [js "money"] (js " home ") false.

(** The set-up of a user, before any board is selected: the boards table
    and a script for the calls. *)
Definition desk (rows : list Board.t) (script : list bool) : Workspace.t :=
  Workspace.mk rows [] []
    (mkWorld store0 script [] [] []
       (State.mk (Some alice) None [] [] [] None None)).

Definition clock0 : Workspace.Clock :=
  Workspace.mkClock 1700000000000 1700000000001 1700000000001 1700000000002.

(** A task whose stored tags are the JSON text of a number: the loader
    takes it as it is. *)
Definition numbered : Task.cached :=
  decoded (row "t4" "Plan" "col_todo" "b1" 2 (Some (js "5"))).

(** The drawer of [t1] with a tag typed in. *)
Definition tagging : TaskDetailDrawer.Local :=
  TaskDetailDrawer.mkLocal true (js "Write spec") [] None
    [js "urgent"; js "q3"] (js " later ") [].

(** The loaded board while task [t1] is dragged over the column
    [col_done]. *)
Definition dragging (script : list bool) : World :=
  exec (TaskManager.hover (js "t1") [Some (js "col_done")]) (loaded script).

(** The path of a drag: over [col_done], over nothing, over task [t2]. *)
Definition path : list (option jsstring) :=
  [Some (js "col_done"); None; Some (js "t2")].

Definition drop_on_done : DragEvent :=
  mkDrag (js "t1") (Some (js "col_done")).

(** Task [t1] as the cache has it while it is over [col_done]. *)
Definition t1_over_done : Task.cached :=
  Task.with_columnId (js "col_done") (decoded t1).

(** The set-up of a new user in which the fourth call, the creation of
    the second column, is rejected. *)
Definition interrupted : Workspace.t :=
  desk [] [false; false; false; true].



(** The loaded board, after the tags of [t1] were overwritten in the
    store by a text that is not JSON. *)
Definition spoiled : World :=
  mkWorld store_malformed [] [] [] [] (ui (loaded [])).

End Scenario.

(* ================================================================== *)
(** * Properties of JSON.parse and JSON.stringify *)
(* ================================================================== *)

Module JSONFacts.

Lemma hex_val_digit n : n < 16 -> hex_val (hex_digit n) = Some n.
Proof.
  intros H. unfold hex_digit, hex_val.
  destruct (N.ltb_spec n 10).
  - replace ((48 <=? 48 + n) && (48 + n <=? 57)) with true.
    + f_equal; lia.
    + symmetry; apply andb_true_iff; split; apply N.leb_le; lia.
  - replace ((48 <=? 87 + n) && (87 + n <=? 57)) with false.
    + replace ((97 <=? 87 + n) && (87 + n <=? 102)) with true.
      * f_equal; lia.
      * symmetry; apply andb_true_iff; split; apply N.leb_le; lia.
    + symmetry; apply andb_false_iff; right; apply N.leb_gt; lia.
Qed.

Lemma hex4_digits c :
  c < 65536 ->
  hex4 (hex_digit (c / 4096 mod 16)) (hex_digit (c / 256 mod 16))
       (hex_digit (c / 16 mod 16)) (hex_digit (c mod 16)) = Some c.
Proof.
  intros H. unfold hex4.
  rewrite !hex_val_digit by (apply N.mod_lt; discriminate).
  f_equal. zify. Z.to_euclidean_division_equations. lia.
Qed.

Lemma parse_chars_u h1 h2 h3 h4 rest :
  parse_chars (92 :: 117 :: h1 :: h2 :: h3 :: h4 :: rest) =
  match hex4 h1 h2 h3 h4 with
  | Some u => prepend u (parse_chars rest)
  | None => None
  end.
Proof. reflexivity. Qed.

Lemma parse_chars_unicode_escape c rest :
  c < 65536 ->
  parse_chars (unicode_escape c ++ rest) = prepend c (parse_chars rest).
Proof.
  intros H. unfold unicode_escape. cbn [app].
  rewrite parse_chars_u, hex4_digits by assumption. reflexivity.
Qed.

Lemma parse_chars_plain c rest :
  c <> 34 -> c <> 92 -> 32 <= c ->
  parse_chars (c :: rest) = prepend c (parse_chars rest).
Proof.
  intros H34 H92 H32. cbn [parse_chars].
  apply N.eqb_neq in H34, H92. rewrite H34, H92.
  replace (c <? 32) with false by (symmetry; apply N.ltb_ge; assumption).
  reflexivity.
Qed.

Lemma surrogate_range c :
  is_high_surrogate c || is_low_surrogate c = true ->
  55296 <= c /\ c <= 57343.
Proof.
  unfold is_high_surrogate, is_low_surrogate.
  rewrite orb_true_iff, !andb_true_iff, !N.leb_le. lia.
Qed.

(** A unit written by [quote_unit] is read back as that unit. *)
Lemma parse_chars_quote_unit c rest :
  parse_chars (quote_unit c ++ rest) = prepend c (parse_chars rest).
Proof.
  unfold quote_unit.
  destruct (N.eqb_spec c 34) as [->|H34]; [reflexivity|].
  destruct (N.eqb_spec c 92) as [->|H92]; [reflexivity|].
  destruct (N.eqb_spec c 8) as [->|H8]; [reflexivity|].
  destruct (N.eqb_spec c 12) as [->|H12]; [reflexivity|].
  destruct (N.eqb_spec c 10) as [->|H10]; [reflexivity|].
  destruct (N.eqb_spec c 13) as [->|H13]; [reflexivity|].
  destruct (N.eqb_spec c 9) as [->|H9]; [reflexivity|].
  destruct (N.ltb_spec c 32) as [Hlt|Hge].
  - apply parse_chars_unicode_escape. lia.
  - destruct (is_high_surrogate c || is_low_surrogate c) eqn:Hs.
    + apply surrogate_range in Hs.
      apply parse_chars_unicode_escape. lia.
    + apply parse_chars_plain; assumption.
Qed.

Lemma parse_chars_quote_units_bounded :
  forall (n : nat) (s tail : jsstring),
    (length s <= n)%nat ->
    parse_chars (quote_units s ++ 34 :: tail) = Some (s, tail).
Proof.
  induction n as [|n IH]; intros [|c r] tail Hlen; cbn [length] in Hlen;
    try reflexivity; try lia.
  cbn [quote_units].
  destruct (is_high_surrogate c) eqn:Hh.
  - destruct r as [|d r'].
    + rewrite parse_chars_quote_unit. reflexivity.
    + destruct (is_low_surrogate d) eqn:Hl.
      * assert (Hc : 55296 <= c /\ c <= 57343)
          by (apply surrogate_range; rewrite Hh; reflexivity).
        assert (Hd : 55296 <= d /\ d <= 57343)
          by (apply surrogate_range; rewrite Hl; apply orb_true_r).
        cbn [app].
        rewrite !parse_chars_plain by lia.
        rewrite IH by (cbn [length] in Hlen; lia). reflexivity.
      * rewrite <- app_assoc, parse_chars_quote_unit, IH by lia.
        reflexivity.
  - rewrite <- app_assoc, parse_chars_quote_unit, IH by lia.
    reflexivity.
Qed.

(** The contents of a quoted string are read back as the string. *)
Lemma parse_chars_quote_units (s tail : jsstring) :
  parse_chars (quote_units s ++ 34 :: tail) = Some (s, tail).
Proof. apply parse_chars_quote_units_bounded with (n := length s). lia. Qed.

Lemma parse_value_string f r :
  parse_value (S f) (34 :: r) =
  match parse_chars r with
  | Some (str, rest) => Parsed (JStr str) rest
  | None => SyntaxError
  end.
Proof. reflexivity. Qed.

Lemma parse_value_quote f s tail :
  parse_value (S f) (quote s ++ tail) = Parsed (JStr s) tail.
Proof.
  unfold quote. cbn [app]. rewrite parse_value_string.
  rewrite <- app_assoc. cbn [app].
  rewrite parse_chars_quote_units. reflexivity.
Qed.

Lemma parse_elements_step f s :
  parse_elements (S f) s =
  match parse_value f s with
  | Parsed v r =>
      match skip_ws r with
      | [] => SyntaxError
      | c :: r' =>
          if c =? 44 then
            match parse_elements f r' with
            | Parsed vs rest => Parsed (v :: vs) rest
            | SyntaxError => SyntaxError
            | OutOfFuel => OutOfFuel
            end
          else if c =? 93 then Parsed [v] r'
          else SyntaxError
      end
  | SyntaxError => SyntaxError
  | OutOfFuel => OutOfFuel
  end.
Proof. reflexivity. Qed.

Lemma join_comma_cons x y l :
  join_comma (x :: y :: l) = x ++ 44 :: join_comma (y :: l).
Proof. reflexivity. Qed.

(** The elements of a stringified array are read back in order. *)
Lemma parse_elements_strings :
  forall (l : list jsstring) (x : jsstring) (f : nat) (tail : jsstring),
    (length l + 2 <= f)%nat ->
    parse_elements f (join_comma (map quote (x :: l)) ++ 93 :: tail) =
    Parsed (map JStr (x :: l)) tail.
Proof.
  induction l as [|y l IH]; intros x f tail Hf.
  - destruct f as [|[|f]]; cbn [length] in Hf; try lia.
    cbn [map join_comma].
    rewrite parse_elements_step, parse_value_quote. reflexivity.
  - destruct f as [|[|f]]; cbn [length] in Hf; try lia.
    cbn [map]. rewrite join_comma_cons, <- app_assoc. cbn [app].
    rewrite parse_elements_step, parse_value_quote.
    change (skip_ws (44 :: ?r)) with (44 :: r).
    change (quote y :: map quote l) with (map quote (y :: l)).
    cbv beta iota. change (44 =? 44) with true. cbv iota.
    rewrite IH by (cbn [length]; lia). reflexivity.
Qed.

Lemma parse_value_array f r :
  parse_value (S f) (91 :: 34 :: r) =
  match parse_elements f (34 :: r) with
  | Parsed items rest => Parsed (JArr items) rest
  | SyntaxError => SyntaxError
  | OutOfFuel => OutOfFuel
  end.
Proof. reflexivity. Qed.

Lemma length_join_quote (l : list jsstring) :
  (length l <= length (join_comma (map quote l)))%nat.
Proof.
  induction l as [|x [|y l] IH]; cbn [map join_comma length] in *;
    unfold quote in *; cbn [length] in *; try lia.
  rewrite length_app. cbn [length]. lia.
Qed.

(** [JSON.parse(JSON.stringify(a))] is the array [a], for every array of
    strings [a]. *)
Lemma parse_stringify (a : list jsstring) :
  JSON.parse (JSON.stringify a) = Parsed (JArr (map JStr a)) [].
Proof.
  unfold JSON.parse, JSON.stringify.
  destruct a as [|x l]; [reflexivity|].
  set (body := join_comma (map quote (x :: l))).
  assert (Hlen : (length (x :: l) <= length body)%nat)
    by apply length_join_quote.
  cbn [length] in Hlen.
  set (text := 91 :: body ++ [93]).
  replace (2 * length text + 2)%nat with (S (2 * length text + 1)) by lia.
  assert (Htext : (length text = length body + 2)%nat).
  { subst text. cbn [length]. rewrite length_app. cbn [length]. lia. }
  subst text.
  assert (Hb : exists r, body = 34 :: r).
  { subst body. destruct l; cbn [map join_comma]; unfold quote; cbn [app];
      eexists; reflexivity. }
  destruct Hb as [r Hr].
  assert (Hbody : body ++ [93] = 34 :: (r ++ [93])) by (rewrite Hr; reflexivity).
  cbn [app]. rewrite Hbody, parse_value_array, <- Hbody.
  rewrite Htext. subst body. rewrite parse_elements_strings.
  - reflexivity.
  - lia.
Qed.

(** ** The budget of [parse] is never used up *)

Lemma skip_ws_length s : (length (skip_ws s) <= length s)%nat.
Proof.
  induction s as [|c r IH]; cbn [skip_ws length]; [lia|].
  destruct (is_ws c); cbn [length]; lia.
Qed.

Lemma strip_prefix_length p :
  forall s rest, strip_prefix p s = Some rest ->
                 (length rest + length p = length s)%nat.
Proof.
  induction p as [|x p IH]; intros [|y s] rest H; cbn [strip_prefix] in H;
    try discriminate.
  - inversion H; subst. cbn [length]. lia.
  - inversion H; subst. cbn [length]. lia.
  - destruct (x =? y); [|discriminate].
    apply IH in H. cbn [length]. lia.
Qed.

Lemma prepend_Some u r x rest :
  prepend u r = Some (x, rest) ->
  exists x', r = Some (x', rest) /\ x = u :: x'.
Proof.
  destruct r as [[x' rest']|]; cbn [prepend]; intros H; inversion H; subst.
  eexists; split; reflexivity.
Qed.

Lemma parse_chars_length_bounded :
  forall (n : nat) (s x rest : jsstring),
    (length s <= n)%nat ->
    parse_chars s = Some (x, rest) -> (length rest < length s)%nat.
Proof.
  induction n as [|n IH]; intros [|c r] x rest Hlen H;
    cbn [parse_chars] in H; try discriminate; cbn [length] in *; try lia.
  destruct (c =? 34).
  { inversion H; subst. lia. }
  destruct (c =? 92).
  - destruct r as [|e r1]; [discriminate|].
    destruct (e =? 117).
    + destruct r1 as [|h1 [|h2 [|h3 [|h4 r2]]]]; try discriminate.
      destruct (hex4 h1 h2 h3 h4); [|discriminate].
      apply prepend_Some in H. destruct H as (x' & H & _).
      apply IH in H; cbn [length] in *; lia.
    + destruct (simple_escape e); [|discriminate].
      apply prepend_Some in H. destruct H as (x' & H & _).
      apply IH in H; cbn [length] in *; lia.
  - destruct (c <? 32); [discriminate|].
    apply prepend_Some in H. destruct H as (x' & H & _).
    apply IH in H; lia.
Qed.

Lemma parse_chars_length s x rest :
  parse_chars s = Some (x, rest) -> (length rest < length s)%nat.
Proof. apply parse_chars_length_bounded with (n := length s). lia. Qed.

Lemma take_digits_length s :
  (length (snd (take_digits s)) <= length s)%nat.
Proof.
  induction s as [|c r IH]; cbn [take_digits]; [cbn; lia|].
  destruct (is_digit c); [|cbn; lia].
  destruct (take_digits r) as [ds rest]. cbn [snd length] in *. lia.
Qed.

Lemma parse_int_length s i rest :
  parse_int s = Some (i, rest) -> (length rest < length s)%nat.
Proof.
  destruct s as [|c r]; cbn [parse_int]; [discriminate|].
  destruct (c =? 48).
  { intros H; inversion H; subst. cbn [length]. lia. }
  destruct (is_digit c); [|discriminate].
  pose proof (take_digits_length r) as Hd.
  destruct (take_digits r) as [ds rest']. intros H; inversion H; subst.
  cbn [snd length] in *. lia.
Qed.

Lemma parse_frac_length s f rest :
  parse_frac s = Some (f, rest) -> (length rest <= length s)%nat.
Proof.
  destruct s as [|c r]; cbn [parse_frac].
  { intros H; inversion H; subst. lia. }
  destruct (c =? 46).
  - pose proof (take_digits_length r) as Hd.
    destruct (take_digits r) as [[|d ds] rest']; [discriminate|].
    intros H; inversion H; subst. cbn [snd length] in *. lia.
  - intros H; inversion H; subst. lia.
Qed.

Lemma parse_exp_length s e rest :
  parse_exp s = Some (e, rest) -> (length rest <= length s)%nat.
Proof.
  destruct s as [|c r]; cbn [parse_exp].
  { intros H; inversion H; subst. lia. }
  destruct ((c =? 101) || (c =? 69)).
  - assert (Hs : (length (snd (parse_exp_sign r)) <= length r)%nat).
    { destruct r as [|g r']; cbn [parse_exp_sign]; [cbn; lia|].
      destruct ((g =? 43) || (g =? 45)); cbn [snd length]; lia. }
    destruct (parse_exp_sign r) as [sign r1]. cbn [snd] in Hs.
    pose proof (take_digits_length r1) as Hd.
    destruct (take_digits r1) as [[|d ds] rest']; [discriminate|].
    intros H; inversion H; subst. cbn [snd length] in *. lia.
  - intros H; inversion H; subst. lia.
Qed.

Lemma parse_number_length s lit rest :
  parse_number s = Some (lit, rest) -> (length rest < length s)%nat.
Proof.
  unfold parse_number.
  assert (Hs : (length (snd (parse_sign s)) <= length s)%nat).
  { destruct s as [|c r]; cbn [parse_sign]; [cbn; lia|].
    destruct (c =? 45); cbn [snd length]; lia. }
  destruct (parse_sign s) as [sign s1]. cbn [snd] in Hs.
  destruct (parse_int s1) as [[i s2]|] eqn:Ei; [|discriminate].
  destruct (parse_frac s2) as [[f s3]|] eqn:Ef; [|discriminate].
  destruct (parse_exp s3) as [[e s4]|] eqn:Ee; [|discriminate].
  intros H; inversion H; subst.
  apply parse_int_length in Ei. apply parse_frac_length in Ef.
  apply parse_exp_length in Ee. lia.
Qed.

Lemma parse_value_step f s :
  parse_value (S f) s =
      match skip_ws s with
      | [] => SyntaxError
      | c :: r =>
          if c =? 34 then
            match parse_chars r with
            | Some (str, rest) => Parsed (JStr str) rest
            | None => SyntaxError
            end
          else if c =? 91 then
            match strip_prefix [93] (skip_ws r) with
            | Some rest => Parsed (JArr []) rest
            | None =>
                match parse_elements f r with
                | Parsed items rest => Parsed (JArr items) rest
                | SyntaxError => SyntaxError
                | OutOfFuel => OutOfFuel
                end
            end
          else if c =? 123 then
            match strip_prefix [125] (skip_ws r) with
            | Some rest => Parsed (JObj []) rest
            | None =>
                match parse_members f r with
                | Parsed members rest => Parsed (JObj members) rest
                | SyntaxError => SyntaxError
                | OutOfFuel => OutOfFuel
                end
            end
          else if c =? 116 then
            match strip_prefix (js "rue") r with
            | Some rest => Parsed (JBool true) rest
            | None => SyntaxError
            end
          else if c =? 102 then
            match strip_prefix (js "alse") r with
            | Some rest => Parsed (JBool false) rest
            | None => SyntaxError
            end
          else if c =? 110 then
            match strip_prefix (js "ull") r with
            | Some rest => Parsed JNull rest
            | None => SyntaxError
            end
          else
            match parse_number (c :: r) with
            | Some (lit, rest) => Parsed (JNum lit) rest
            | None => SyntaxError
            end
      end.
Proof. reflexivity. Qed.

Lemma parse_members_step f s :
  parse_members (S f) s =
      match strip_prefix [34] (skip_ws s) with
      | None => SyntaxError
      | Some r =>
          match parse_chars r with
          | None => SyntaxError
          | Some (key, r1) =>
              match strip_prefix [58] (skip_ws r1) with
              | None => SyntaxError
              | Some r2 =>
                  match parse_value f r2 with
                  | Parsed v r3 =>
                      match skip_ws r3 with
                      | [] => SyntaxError
                      | c :: r4 =>
                          if c =? 44 then
                            match parse_members f r4 with
                            | Parsed ms rest => Parsed ((key, v) :: ms) rest
                            | SyntaxError => SyntaxError
                            | OutOfFuel => OutOfFuel
                            end
                          else if c =? 125 then Parsed [(key, v)] r4
                          else SyntaxError
                      end
                  | SyntaxError => SyntaxError
                  | OutOfFuel => OutOfFuel
                  end
              end
          end
      end.
Proof. reflexivity. Qed.

Ltac len_facts :=
  repeat match goal with
  | H : skip_ws ?s = _ |- _ =>
      let L := fresh "L" in
      pose proof (skip_ws_length s) as L; rewrite H in L; clear H
  | H : strip_prefix _ _ = Some _ |- _ => apply strip_prefix_length in H
  | H : parse_chars _ = Some _ |- _ => apply parse_chars_length in H
  | H : parse_number _ = Some _ |- _ => apply parse_number_length in H
  end;
  repeat match goal with
  | H : context [length (skip_ws ?s)] |- _ =>
      lazymatch goal with
      | _ : (length (skip_ws s) <= length s)%nat |- _ => fail
      | _ => pose proof (skip_ws_length s)
      end
  end;
  cbn [length js map list_ascii_of_string] in *.

Ltac split_match H :=
  repeat match type of H with
  | context [match ?x with _ => _ end] =>
      destruct x eqn:?; try discriminate H
  end.

Lemma parse_consumes :
  forall f : nat,
    (forall s v rest, parse_value f s = Parsed v rest ->
                      (length rest < length s)%nat) /\
    (forall s vs rest, parse_elements f s = Parsed vs rest ->
                       (length rest < length s)%nat) /\
    (forall s ms rest, parse_members f s = Parsed ms rest ->
                       (length rest < length s)%nat).
Proof.
  induction f as [|f (IHv & IHe & IHm)].
  { repeat split; intros; discriminate. }
  repeat split; intros s x rest H.
  - rewrite parse_value_step in H. split_match H; inversion H; subst;
      repeat match goal with
      | E : parse_elements f _ = Parsed _ _ |- _ => apply IHe in E
      | E : parse_members f _ = Parsed _ _ |- _ => apply IHm in E
      end; len_facts; lia.
  - rewrite parse_elements_step in H. split_match H; inversion H; subst;
      repeat match goal with
      | E : parse_elements f _ = Parsed _ _ |- _ => apply IHe in E
      | E : parse_value f _ = Parsed _ _ |- _ => apply IHv in E
      end; len_facts; lia.
  - rewrite parse_members_step in H. split_match H; inversion H; subst;
      repeat match goal with
      | E : parse_members f _ = Parsed _ _ |- _ => apply IHm in E
      | E : parse_value f _ = Parsed _ _ |- _ => apply IHv in E
      end; len_facts; lia.
Qed.

Lemma parse_fuel :
  forall f : nat,
    (forall s, (2 * length s + 1 <= f)%nat -> parse_value f s <> OutOfFuel) /\
    (forall s, (2 * length s + 2 <= f)%nat -> parse_elements f s <> OutOfFuel) /\
    (forall s, (2 * length s + 2 <= f)%nat -> parse_members f s <> OutOfFuel).
Proof.
  induction f as [|f (IHv & IHe & IHm)].
  { repeat split; intros s Hf; lia. }
  destruct (parse_consumes f) as (Cv & Ce & Cm).
  repeat split; intros s Hf H.
  - rewrite parse_value_step in H. split_match H.
    + eapply IHe; [|eassumption]. len_facts. lia.
    + eapply IHm; [|eassumption]. len_facts. lia.
  - rewrite parse_elements_step in H. split_match H.
    + match goal with E : parse_value f _ = Parsed _ _ |- _ => apply Cv in E end.
      eapply IHe; [|eassumption]. len_facts. lia.
    + eapply IHv; [|eassumption]. lia.
  - rewrite parse_members_step in H. split_match H.
    + match goal with E : parse_value f _ = Parsed _ _ |- _ => apply Cv in E end.
      eapply IHm; [|eassumption]. len_facts. lia.
    + eapply IHv; [|eassumption]. len_facts. lia.
Qed.

(** [JSON.parse] returns a value or a syntax error. *)
Lemma parse_total (text : jsstring) : JSON.parse text <> OutOfFuel.
Proof.
  unfold JSON.parse. intros H.
  destruct (parse_value (2 * length text + 2) text) eqn:E.
  - destruct (skip_ws rest); discriminate.
  - discriminate.
  - destruct (parse_fuel (2 * length text + 2)) as (Fv & _).
    apply (Fv text); [lia|assumption].
Qed.

End JSONFacts.

(* ================================================================== *)
(** * Strings and the effect primitives *)
(* ================================================================== *)

Lemma str_eqb_refl (a : jsstring) : str_eqb a a = true.
Proof.
  induction a as [|x a IH]; cbn [str_eqb]; [reflexivity|].
  rewrite N.eqb_refl. exact IH.
Qed.

Lemma str_eqb_eq (a b : jsstring) : str_eqb a b = true <-> a = b.
Proof.
  split; [|intros ->; apply str_eqb_refl].
  revert b; induction a as [|x a IH]; intros [|y b] H; cbn [str_eqb] in H;
    try discriminate; [reflexivity|].
  apply andb_true_iff in H. destruct H as [Hx Ha].
  apply N.eqb_eq in Hx. apply IH in Ha. congruence.
Qed.

Lemma str_eqb_neq (a b : jsstring) : str_eqb a b = false <-> a <> b.
Proof.
  split.
  - intros H E. apply str_eqb_eq in E. congruence.
  - intros H. destruct (str_eqb a b) eqn:E; [|reflexivity].
    apply str_eqb_eq in E. contradiction.
Qed.

(** Unfolding of the projections of a world and of a state. *)
Ltac world_simpl :=
  cbn [hd tl outages remote calls console alerts ui
       State.user State.currentBoard State.columns State.tasks
       State.subtasks State.selectedTask State.activeId] in *.

(* ================================================================== *)
(** * The reconciliation loader *)
(* ================================================================== *)

Module LoaderFacts.

Lemma decodeTask_eq (row : Task.row) (w : World) :
  TaskManager.decodeTask row w =
  (if decodable row then inr (decoded row) else inl JSONSyntaxError, w).
Proof.
  unfold TaskManager.decodeTask, TaskManager.decodeTags, decodable,
    malformed, decoded, tags_value, bind, ret, throw.
  destruct (Task.tags row) as [enc|]; [|reflexivity].
  destruct (truthy enc); [|reflexivity].
  destruct (JSON.parse enc); reflexivity.
Qed.

Lemma mapM_decode_ok (rows : list Task.row) (w : World) :
  forallb decodable rows = true ->
  mapM TaskManager.decodeTask rows w = (inr (map decoded rows), w).
Proof.
  induction rows as [|row rows IH]; cbn [forallb mapM map]; [reflexivity|].
  intros H. apply andb_true_iff in H. destruct H as [Hr Hrs].
  unfold bind. rewrite decodeTask_eq, Hr. fold (@bind (list Task.cached)).
  rewrite IH by assumption. reflexivity.
Qed.

Lemma mapM_decode_fail (rows : list Task.row) (w : World) :
  forallb decodable rows = false ->
  mapM TaskManager.decodeTask rows w = (inl JSONSyntaxError, w).
Proof.
  induction rows as [|row rows IH]; cbn [forallb mapM map]; [discriminate|].
  intros H. unfold bind. rewrite decodeTask_eq.
  destruct (decodable row); [|reflexivity].
  cbn [andb] in H. rewrite IH by assumption. reflexivity.
Qed.

Ltac run_load :=
  cbv beta iota zeta delta
    [TaskManager.loadBoardData try_catch bind Promise_all3 settle
     db.columns_list db.tasks_list db.subtasks_list db.request
     ret throw TaskManager.setColumns TaskManager.setTasks
     TaskManager.setSubtasks toast console_print alert modify with_ui
     hd tl outages remote calls console alerts ui
     Toast.variant].

(** The fetch went through and every row decodes: the cache is replaced. *)
Lemma loadBoardData_ok (boardId : jsstring) (w : World) :
  fetch_rejected (outages w) = false ->
  forallb decodable (Store.list_tasks (board_query boardId) (remote w)) = true ->
  TaskManager.loadBoardData boardId w = (inr tt, reconciled boardId w).
Proof.
  destruct w as [r o c k a u]. unfold fetch_rejected. world_simpl.
  intros Ho Hd.
  destruct o as [|[] [|[] [|[] o]]]; try discriminate Ho;
    run_load; (rewrite mapM_decode_ok by exact Hd);
    unfold reconciled, fetch_calls, board_query, all_query; world_simpl;
    rewrite <- !app_assoc; reflexivity.
Qed.

(** A call of the fetch is rejected: the error is caught and shown. *)
Lemma loadBoardData_rejected (boardId : jsstring) (w : World) :
  fetch_rejected (outages w) = true ->
  TaskManager.loadBoardData boardId w =
  (inr tt, load_failed boardId StoreError (ui w) w).
Proof.
  destruct w as [r o c k a u]. unfold fetch_rejected. world_simpl.
  intros Ho.
  destruct o as [|[] [|[] [|[] o]]]; try discriminate Ho;
    run_load; unfold load_failed, fetch_calls; world_simpl;
    rewrite <- ?app_assoc; reflexivity.
Qed.

(** The fetch went through and a row does not decode: the error is
    caught and shown after the columns have been set. *)
Lemma loadBoardData_undecodable (boardId : jsstring) (w : World) :
  fetch_rejected (outages w) = false ->
  forallb decodable (Store.list_tasks (board_query boardId) (remote w)) = false ->
  TaskManager.loadBoardData boardId w =
  (inr tt, load_failed boardId JSONSyntaxError (columns_only boardId w) w).
Proof.
  destruct w as [r o c k a u]. unfold fetch_rejected. world_simpl.
  intros Ho Hd.
  destruct o as [|[] [|[] [|[] o]]]; try discriminate Ho;
    run_load; (rewrite mapM_decode_fail by exact Hd);
    unfold load_failed, columns_only, fetch_calls; world_simpl;
    rewrite <- ?app_assoc; reflexivity.
Qed.

(** The three outcomes of a load. *)
Lemma loadBoardData_cases (boardId : jsstring) (w : World) :
  TaskManager.loadBoardData boardId w = (inr tt, reconciled boardId w) \/
  TaskManager.loadBoardData boardId w =
    (inr tt, load_failed boardId StoreError (ui w) w) \/
  TaskManager.loadBoardData boardId w =
    (inr tt, load_failed boardId JSONSyntaxError (columns_only boardId w) w).
Proof.
  destruct (fetch_rejected (outages w)) eqn:Ho.
  - right; left. apply loadBoardData_rejected; assumption.
  - destruct (forallb decodable
                (Store.list_tasks (board_query boardId) (remote w))) eqn:Hd.
    + left. apply loadBoardData_ok; assumption.
    + right; right. apply loadBoardData_undecodable; assumption.
Qed.

(** A load never throws, leaves the store as it is, and issues its three
    reads whatever happens. *)
Lemma loadBoardData_frame (boardId : jsstring) (w : World) :
  exists w',
    TaskManager.loadBoardData boardId w = (inr tt, w') /\
    remote w' = remote w /\
    outages w' = tl (tl (tl (outages w))) /\
    calls w' = calls w ++ fetch_calls boardId.
Proof.
  destruct (loadBoardData_cases boardId w) as [H|[H|H]];
    eexists; (split; [exact H|]); repeat split.
Qed.

(** An encoding is malformed exactly when it is a non-empty string on
    which [JSON.parse] raises its syntax error. *)
Lemma malformed_iff (tags : option jsstring) :
  malformed tags = true <->
  exists enc, tags = Some enc /\ truthy enc = true /\
              JSON.parse enc = SyntaxError.
Proof.
  unfold malformed, tags_value. split.
  - destruct tags as [enc|]; [|discriminate].
    destruct (truthy enc) eqn:Ht; [|discriminate].
    destruct (JSON.parse enc) eqn:Ep; [discriminate| |].
    + intros _. exists enc. split; [reflexivity|]. split; assumption.
    + exfalso. exact (@JSONFacts.parse_total enc Ep).
  - intros (enc & -> & Ht & Ep). rewrite Ht, Ep. reflexivity.
Qed.

End LoaderFacts.

(* ================================================================== *)
(** * Claims about the reconciliation loader *)
(* ================================================================== *)

Module LoaderClaims.
Import LoaderFacts.

Lemma In_insert_asc {A} (position : A -> Z) (x y : A) (l : list A) :
  In y (Store.insert_asc position x l) <-> y = x \/ In y l.
Proof.
  induction l as [|z l IH]; cbn [Store.insert_asc In].
  - intuition congruence.
  - destruct (position x <=? position z)%Z; cbn [In]; [intuition congruence|].
    rewrite IH. intuition congruence.
Qed.

(** Sorting keeps the rows. *)
Lemma In_sort_asc {A} (position : A -> Z) (y : A) (l : list A) :
  In y (Store.sort_asc position l) <-> In y l.
Proof.
  induction l as [|x l IH]; cbn [Store.sort_asc In]; [tauto|].
  rewrite In_insert_asc, IH. intuition congruence.
Qed.

Lemma filter_all {A} (l : list A) : filter (fun _ => true) l = l.
Proof. induction l as [|x l IH]; cbn [filter]; congruence. Qed.

Lemma list_columns_board (boardId : jsstring) (s : Store.t) :
  Store.list_columns (board_query boardId) s =
  Store.sort_asc Column.position
    (filter (fun c => str_eqb (Column.boardId c) boardId) (Store.columns s)).
Proof. reflexivity. Qed.

Lemma list_tasks_board (boardId : jsstring) (s : Store.t) :
  Store.list_tasks (board_query boardId) s =
  Store.sort_asc (@Task.position _)
    (filter (fun x => str_eqb (Task.boardId x) boardId) (Store.tasks s)).
Proof. reflexivity. Qed.

Lemma list_subtasks_all (s : Store.t) :
  Store.list_subtasks all_query s =
  Store.sort_asc Subtask.position (Store.subtasks s).
Proof.
  unfold Store.list_subtasks, Store.list_rows, Store.selects, all_query.
  cbn [Store.where_boardId Store.orderBy_position].
  rewrite filter_all. reflexivity.
Qed.

Lemma malformed_not_decodable (rows : list Task.row) :
  existsb (fun row => malformed (Task.tags row)) rows = true ->
  forallb decodable rows = false.
Proof.
  induction rows as [|row rows IH]; cbn [existsb forallb]; [discriminate|].
  unfold decodable at 1. destruct (malformed (Task.tags row)); cbn [negb andb orb].
  - reflexivity.
  - exact IH.
Qed.

(** C5.  When one of the three reads of a reconciliation fetch is
    rejected, the whole state of the component is what it was before the
    load, so that none of the columns, the tasks and the subtasks is
    overwritten, the store is untouched, and the notification
    "Loading Error: Failed to load board data" is shown. *)
Theorem fetch_failure_retains_cache :
  forall (boardId : jsstring) (w : World),
    fetch_rejected (outages w) = true ->
    let w' := exec (TaskManager.loadBoardData boardId) w in
    ui w' = ui w /\
    State.columns (ui w') = State.columns (ui w) /\
    State.tasks (ui w') = State.tasks (ui w) /\
    State.subtasks (ui w') = State.subtasks (ui w) /\
    alerts w' = alerts w ++ [loading_error] /\
    remote w' = remote w.
Proof.
  intros boardId w H. unfold exec.
  rewrite loadBoardData_rejected by assumption.
  repeat split.
Qed.

(** C4, as stated, fails: with the tags of task [t1] stored as
    [urgent,q3], which is not JSON, the load of the board shows the
    loading error. *)
Lemma malformed_tags_not_silent :
  malformed (Task.tags Scenario.t1_malformed) = true /\
  ~ recovers_silently (js "b1") (Scenario.start Scenario.store_malformed []).
Proof.
  split; [vm_compute; reflexivity|].
  intros [Ha _]. vm_compute in Ha. discriminate Ha.
Qed.

(** C4, amended.  When the fetch goes through and the stored tags of one
    of the fetched tasks are malformed, [JSON.parse] throws, the loader
    catches the error and shows "Loading Error: Failed to load board
    data", and the cached tasks and subtasks stay what they were.  The
    malformed encodings are exactly the non-empty strings on which
    [JSON.parse] raises its syntax error; an absent and an empty encoding
    are read as the empty list of tags, [JSON.parse] not being called;
    every other encoding is read as what [JSON.parse] makes of it, which
    is the empty list for the encoding of [createTask]. *)
Theorem malformed_tags_abort_load :
  (forall (boardId : jsstring) (w : World),
      fetch_rejected (outages w) = false ->
      existsb (fun row => malformed (Task.tags row))
              (Store.list_tasks (board_query boardId) (remote w)) = true ->
      let w' := exec (TaskManager.loadBoardData boardId) w in
      State.tasks (ui w') = State.tasks (ui w) /\
      State.subtasks (ui w') = State.subtasks (ui w) /\
      alerts w' = alerts w ++ [loading_error] /\
      remote w' = remote w) /\
  (forall tags : option jsstring,
      malformed tags = true <->
      exists enc, tags = Some enc /\ truthy enc = true /\
                  JSON.parse enc = SyntaxError) /\
  (forall w : World,
      TaskManager.decodeTags None w = (inr (JArr []), w) /\
      TaskManager.decodeTags (Some []) w = (inr (JArr []), w)) /\
  (forall (enc : jsstring) (w : World),
      truthy enc = true ->
      TaskManager.decodeTags (Some enc) w =
      match JSON.parse enc with
      | Parsed v _ => (inr v, w)
      | _ => (inl JSONSyntaxError, w)
      end) /\
  (forall w : World,
      TaskManager.decodeTags (Some (js "[]")) w = (inr (JArr []), w)).
Proof.
  split; [|split; [|split; [|split]]].
  - intros boardId w Ho Hm. unfold exec.
    rewrite loadBoardData_undecodable
      by (try assumption; apply malformed_not_decodable; assumption).
    repeat split.
  - exact malformed_iff.
  - intros w. split; reflexivity.
  - intros enc w Ht. unfold TaskManager.decodeTags. rewrite Ht.
    destruct (JSON.parse enc); reflexivity.
  - intros w. vm_compute. reflexivity.
Qed.

(** C8, as stated, fails: the load of board [b1] puts the subtask [s9]
    in the cache, which belongs to a task of board [b2]. *)
Lemma subtasks_query_unrestricted :
  ~ fetches_board_only (js "b1") (Scenario.start Scenario.store0 []).
Proof.
  intros (_ & _ & H). specialize (H Scenario.s9).
  assert (Hin : In Scenario.s9
                   (State.subtasks
                      (ui (exec (TaskManager.loadBoardData (js "b1"))
                                (Scenario.start Scenario.store0 [])))))
    by (vm_compute; right; left; reflexivity).
  apply H in Hin. vm_compute in Hin. discriminate Hin.
Qed.

(** C8, amended.  A load that runs to its end issues three reads: the
    columns and the tasks filtered by the given board, and the subtasks
    with no filter.  The cache then holds exactly the columns of the
    board, exactly the tasks of the board (decoded), and every subtask
    of the store, whatever board its task is on. *)
Theorem load_queries :
  forall (boardId : jsstring) (w : World),
    fetch_rejected (outages w) = false ->
    forallb decodable (Store.list_tasks (board_query boardId) (remote w)) = true ->
    let w' := exec (TaskManager.loadBoardData boardId) w in
    calls w' =
      calls w ++
      [Store.columns_list (Store.mkQuery (Some boardId) (Some Store.asc));
       Store.tasks_list (Store.mkQuery (Some boardId) (Some Store.asc));
       Store.subtasks_list (Store.mkQuery None (Some Store.asc))] /\
    (forall c, In c (State.columns (ui w')) <->
               In c (Store.columns (remote w)) /\ Column.boardId c = boardId) /\
    (forall t, In t (State.tasks (ui w')) <->
               exists row, In row (Store.tasks (remote w)) /\
                           Task.boardId row = boardId /\ t = decoded row) /\
    (forall st, In st (State.subtasks (ui w')) <->
                In st (Store.subtasks (remote w))).
Proof.
  intros boardId w Ho Hd. unfold exec.
  rewrite loadBoardData_ok by assumption.
  unfold reconciled; cbn [snd calls ui State.columns State.tasks State.subtasks].
  split; [reflexivity|]. split; [|split].
  - intros c. rewrite list_columns_board, In_sort_asc, filter_In, str_eqb_eq.
    tauto.
  - intros t. rewrite list_tasks_board, in_map_iff. split.
    + intros (row & <- & Hin).
      rewrite In_sort_asc, filter_In, str_eqb_eq in Hin.
      exists row. tauto.
    + intros (row & Hin & Hb & ->). exists row. split; [reflexivity|].
      rewrite In_sort_asc, filter_In, str_eqb_eq. tauto.
  - intros st. rewrite list_subtasks_all, In_sort_asc. tauto.
Qed.

End LoaderClaims.

Module LoaderWitnesses.
Import Scenario.

Lemma fetch_failure_retains_cache_witness :
  fetch_rejected (outages (Scenario.loaded [false; true])) = true /\
  (let w' := exec (TaskManager.loadBoardData (js "b1"))
                  (Scenario.loaded [false; true]) in
   ui w' = ui (Scenario.loaded [false; true]) /\
   State.columns (ui w') = State.columns (ui (Scenario.loaded [false; true])) /\
   State.tasks (ui w') = State.tasks (ui (Scenario.loaded [false; true])) /\
   State.subtasks (ui w') = State.subtasks (ui (Scenario.loaded [false; true])) /\
   alerts w' = alerts (Scenario.loaded [false; true]) ++ [loading_error] /\
   remote w' = remote (Scenario.loaded [false; true])).
Proof.
  split; [reflexivity|].
  apply (LoaderClaims.fetch_failure_retains_cache (js "b1")
           (Scenario.loaded [false; true])).
  reflexivity.
Defined.

(** The board is loaded, with its three tasks and three subtasks in the
    cache, when the tags of [t1] in the store become text that is not
    JSON: the next load shows the error and keeps the three tasks and the
    three subtasks. *)
Lemma malformed_tags_abort_load_witness :
  length (State.tasks (ui spoiled)) = 3%nat /\
  length (State.subtasks (ui spoiled)) = 3%nat /\
  fetch_rejected (outages spoiled) = false /\
  existsb (fun row => malformed (Task.tags row))
          (Store.list_tasks (board_query (js "b1")) (remote spoiled)) = true /\
  State.tasks (ui (exec (TaskManager.loadBoardData (js "b1")) spoiled))
    = State.tasks (ui spoiled) /\
  State.subtasks (ui (exec (TaskManager.loadBoardData (js "b1")) spoiled))
    = State.subtasks (ui spoiled) /\
  alerts (exec (TaskManager.loadBoardData (js "b1")) spoiled)
    = alerts spoiled ++ [loading_error] /\
  remote (exec (TaskManager.loadBoardData (js "b1")) spoiled)
    = remote spoiled.
Proof.
  split; [vm_compute; reflexivity|]. split; [vm_compute; reflexivity|].
  split; [reflexivity|]. split; [vm_compute; reflexivity|].
  apply (proj1 LoaderClaims.malformed_tags_abort_load (js "b1") spoiled);
    vm_compute; reflexivity.
Defined.

Lemma load_queries_witness :
  fetch_rejected (outages (start store0 [])) = false /\
  forallb decodable
    (Store.list_tasks (board_query (js "b1")) (remote (start store0 [])))
    = true /\
  calls (exec (TaskManager.loadBoardData (js "b1")) (start store0 [])) =
    calls (start store0 []) ++
    [Store.columns_list (Store.mkQuery (Some (js "b1")) (Some Store.asc));
     Store.tasks_list (Store.mkQuery (Some (js "b1")) (Some Store.asc));
     Store.subtasks_list (Store.mkQuery None (Some Store.asc))] /\
  (forall c,
      In c (State.columns
              (ui (exec (TaskManager.loadBoardData (js "b1")) (start store0 []))))
      <-> In c (Store.columns (remote (start store0 []))) /\
          Column.boardId c = js "b1") /\
  (forall t,
      In t (State.tasks
              (ui (exec (TaskManager.loadBoardData (js "b1")) (start store0 []))))
      <-> exists row, In row (Store.tasks (remote (start store0 []))) /\
                      Task.boardId row = js "b1" /\ t = decoded row) /\
  (forall st,
      In st (State.subtasks
               (ui (exec (TaskManager.loadBoardData (js "b1")) (start store0 []))))
      <-> In st (Store.subtasks (remote (start store0 [])))).
Proof.
  split; [reflexivity|]. split; [vm_compute; reflexivity|].
  apply (LoaderClaims.load_queries (js "b1") (start store0 []));
    vm_compute; reflexivity.
Defined.

End LoaderWitnesses.

(* ================================================================== *)
(** * The drag controller *)
(* ================================================================== *)

Module DragFacts.
Import LoaderFacts.

Lemma retasked_same (w : World) : retasked (State.tasks (ui w)) w = w.
Proof. destruct w as [r o c k a [us cb cols ts sts sel act]]. reflexivity. Qed.

Lemma retasked_twice (t1 t2 : list Task.cached) (w : World) :
  retasked t2 (retasked t1 w) = retasked t2 w.
Proof. reflexivity. Qed.

Ltac run_over :=
  cbv beta iota zeta delta
    [TaskManager.handleDragOver bind gets ret TaskManager.setTasks modify
     with_ui].

(** The hover moves the task: the target resolves to another column than
    the one the dragged task is in. *)
Lemma handleDragOver_move (event : DragEvent) (w : World)
      (overId : jsstring) (t : Task.cached) (col : Column.t) :
  over event = Some overId ->
  TaskManager.findTask (active event) (State.tasks (ui w)) = Some t ->
  TaskManager.overColumn (State.columns (ui w)) (State.tasks (ui w)) overId
    = Some col ->
  str_eqb (Task.columnId t) (Column.id col) = false ->
  TaskManager.handleDragOver event w =
  (inr tt, retasked (moved (active event) (Column.id col) (State.tasks (ui w))) w).
Proof.
  intros Hover Hfind Hcol Hneq. run_over.
  rewrite Hover, Hfind, Hcol, Hneq. reflexivity.
Qed.

(** Every hover either leaves the world as it is or moves the dragged
    task to a column. *)
Lemma handleDragOver_cases (event : DragEvent) (w : World) :
  TaskManager.handleDragOver event w = (inr tt, w) \/
  exists columnId,
    TaskManager.handleDragOver event w =
    (inr tt, retasked (moved (active event) columnId (State.tasks (ui w))) w).
Proof.
  run_over.
  destruct (over event) as [overId|]; [|left; reflexivity].
  destruct (TaskManager.findTask (active event) (State.tasks (ui w)))
    as [t|]; [|left; reflexivity].
  destruct (TaskManager.overColumn (State.columns (ui w))
              (State.tasks (ui w)) overId) as [col|]; [|left; reflexivity].
  destruct (str_eqb (Task.columnId t) (Column.id col)); [left; reflexivity|].
  right. exists (Column.id col). reflexivity.
Qed.

Lemma moved_ids (activeId columnId : jsstring) (tasks : list Task.cached) :
  map (@Task.id _) (moved activeId columnId tasks) = map (@Task.id _) tasks.
Proof.
  unfold moved. rewrite map_map. apply map_ext. intros task.
  destruct (str_eqb (Task.id task) activeId); reflexivity.
Qed.

Lemma findTask_In (id : jsstring) (tasks : list Task.cached) :
  TaskManager.findTask id tasks <> None <-> In id (map (@Task.id _) tasks).
Proof.
  unfold TaskManager.findTask.
  induction tasks as [|task tasks IH]; cbn [find map In]; [tauto|].
  destruct (str_eqb (Task.id task) id) eqn:E.
  - apply str_eqb_eq in E. split; [intros _; left; exact E|discriminate].
  - apply str_eqb_neq in E. rewrite IH. tauto.
Qed.

(** The hovers of a gesture change the cached tasks only, and keep their
    ids. *)
Lemma hover_frame (activeId : jsstring) (targets : list (option jsstring)) :
  forall w : World,
  exists tasks,
    TaskManager.hover activeId targets w = (inr tt, retasked tasks w) /\
    map (@Task.id _) tasks = map (@Task.id _) (State.tasks (ui w)).
Proof.
  induction targets as [|target targets IH]; intros w;
    cbn [TaskManager.hover].
  - exists (State.tasks (ui w)). rewrite retasked_same. split; reflexivity.
  - unfold bind.
    destruct (handleDragOver_cases (mkDrag activeId target) w)
      as [E|[columnId E]]; rewrite E.
    + apply IH.
    + destruct (IH (retasked (moved (active (mkDrag activeId target)) columnId
                                    (State.tasks (ui w))) w))
        as (tasks & Eh & Hids).
      exists tasks. rewrite Eh, retasked_twice. split; [reflexivity|].
      rewrite Hids. cbn [retasked ui State.tasks]. apply moved_ids.
Qed.

(** A reload never throws, leaves the store as it is, and issues reads
    only. *)
Lemma reload_frame (w : World) :
  exists w',
    TaskManager.reload w = (inr tt, w') /\
    remote w' = remote w /\
    calls w' =
      calls w ++
      match State.currentBoard (ui w) with
      | Some board => fetch_calls (Board.id board)
      | None => []
      end.
Proof.
  unfold TaskManager.reload, bind, gets.
  destruct (State.currentBoard (ui w)) as [board|].
  - destruct (loadBoardData_frame (Board.id board) w) as (w' & E & Hr & _ & Hc).
    exists w'. repeat split; assumption.
  - exists w. unfold ret. rewrite app_nil_r. repeat split.
Qed.

(** A drop of a cached task: the write is issued, a rejection is
    reported, and the board is reloaded in either case. *)
Lemma handleDragEnd_drop (event : DragEvent) (now : timestamp) (w : World)
      (overId : jsstring) (t : Task.cached) :
  over event = Some overId ->
  TaskManager.findTask (active event) (State.tasks (ui w)) = Some t ->
  TaskManager.handleDragEnd event now w =
  TaskManager.reload (after_drop_write event t now w).
Proof.
  intros Hover Hfind.
  destruct w as [r o c k a [us cb cols ts sts sel act]]. world_simpl.
  cbv beta iota zeta delta
    [TaskManager.handleDragEnd bind gets ret TaskManager.setActiveId modify
     with_ui try_catch db.tasks_update db.request console_print toast alert
     Toast.variant after_drop_write drop_patch
     hd tl outages remote calls console alerts ui
     State.user State.currentBoard State.columns State.tasks
     State.subtasks State.selectedTask State.activeId].
  rewrite Hover, Hfind.
  destruct o as [|[] o].
  - match goal with
    | |- match TaskManager.reload ?w2 with _ => _ end = _ =>
        destruct (reload_frame w2) as (w' & E & _)
    end.
    rewrite E. reflexivity.
  - rewrite <- app_assoc. reflexivity.
  - match goal with
    | |- match TaskManager.reload ?w2 with _ => _ end = _ =>
        destruct (reload_frame w2) as (w' & E & _)
    end.
    rewrite E. reflexivity.
Qed.


Lemma writes_app (w : World) (more : list Store.call) (w' : World) :
  calls w' = calls w ++ more ->
  writes w' = writes w ++ filter Store.is_write more.
Proof. unfold writes. intros ->. apply filter_app. Qed.

(** The world in which a gesture starts. *)
Lemma dragGesture_drop (w : World) (activeId : jsstring)
      (targets : list (option jsstring)) (drop : jsstring) (now : timestamp) :
  TaskManager.findTask activeId (State.tasks (ui w)) <> None ->
  exists (tasks : list Task.cached) (t : Task.cached) (w1 : World),
    TaskManager.findTask activeId tasks = Some t /\
    remote w1 = remote w /\ outages w1 = outages w /\
    State.currentBoard (ui w1) = State.currentBoard (ui w) /\
    TaskManager.dragGesture activeId targets (Some drop) now w =
    TaskManager.reload
      (after_drop_write (mkDrag activeId (Some drop)) t now w1).
Proof.
  intros Hfind.
  unfold TaskManager.dragGesture, TaskManager.handleDragStart.
  unfold bind at 1. unfold TaskManager.setActiveId, modify at 1.
  set (w0 := with_ui _ w).
  unfold bind at 1.
  destruct (hover_frame activeId targets w0) as (tasks & Eh & Hids).
  rewrite Eh.
  assert (Hfind1 : TaskManager.findTask activeId tasks <> None).
  { apply findTask_In. rewrite Hids. apply findTask_In. exact Hfind. }
  destruct (TaskManager.findTask activeId tasks) as [t|] eqn:Ef;
    [|contradiction].
  exists tasks, t, (retasked tasks w0).
  split; [exact Ef|]. repeat (split; [reflexivity|]).
  apply handleDragEnd_drop with (overId := drop); [reflexivity|exact Ef].
Qed.

(** The optimistic move changes the column of the tasks with the id of
    the dragged one, and nothing else. *)
Lemma moved_frame (activeId columnId : jsstring) (tasks : list Task.cached) :
  Forall2 (fun old new =>
             if str_eqb (Task.id old) activeId
             then Task.columnId new = columnId /\
                  same_except_columnId old new
             else new = old)
          tasks (moved activeId columnId tasks).
Proof.
  unfold moved. induction tasks as [|task tasks IH];
    cbn [map]; constructor; [|exact IH].
  destruct (str_eqb (Task.id task) activeId).
  - split; [reflexivity|]. unfold same_except_columnId. repeat split.
  - reflexivity.
Qed.

Lemma handleDragOver_eq (event : DragEvent) (w : World) :
  TaskManager.handleDragOver event w = (inr tt, hovered event w).
Proof.
  unfold hovered. run_over.
  destruct (over event) as [overId|]; [|reflexivity].
  destruct (TaskManager.findTask (active event) (State.tasks (ui w)))
    as [t|]; [|reflexivity].
  destruct (TaskManager.overColumn (State.columns (ui w))
              (State.tasks (ui w)) overId) as [col|]; [|reflexivity].
  destruct (str_eqb (Task.columnId t) (Column.id col)); reflexivity.
Qed.

(** The hover changes nothing: the target resolves to the column the
    dragged task is in. *)
Lemma handleDragOver_stay (event : DragEvent) (w : World)
      (overId : jsstring) (t : Task.cached) (col : Column.t) :
  over event = Some overId ->
  TaskManager.findTask (active event) (State.tasks (ui w)) = Some t ->
  TaskManager.overColumn (State.columns (ui w)) (State.tasks (ui w)) overId
    = Some col ->
  str_eqb (Task.columnId t) (Column.id col) = true ->
  TaskManager.handleDragOver event w = (inr tt, w).
Proof.
  intros Hover Hfind Hcol Heq. rewrite handleDragOver_eq. unfold hovered.
  rewrite Hover, Hfind, Hcol, Heq. reflexivity.
Qed.

End DragFacts.

(* ================================================================== *)
(** * Claims about the drag controller *)
(* ================================================================== *)

Module DragClaims.
Import LoaderFacts DragFacts.


(** C2, as stated, fails: task [t1] is in column [col_todo]; dragged over
    that column and dropped on it, with no optimistic move on the way, it
    is written to the store all the same. *)
Lemma self_drop_writes :
  option_map (@Task.columnId _)
    (TaskManager.findTask (js "t1") (State.tasks (ui (Scenario.loaded []))))
    = Some (js "col_todo") /\
  State.tasks
    (ui (exec (TaskManager.hover (js "t1") [Some (js "col_todo")])
              (Scenario.loaded [])))
    = State.tasks (ui (Scenario.loaded [])) /\
  ~ no_durable_write
      (Scenario.loaded [])
      (exec (TaskManager.dragGesture (js "t1") [Some (js "col_todo")]
               (Some (js "col_todo")) 5)
            (Scenario.loaded [])).
Proof.
  split; [vm_compute; reflexivity|]. split; [vm_compute; reflexivity|].
  unfold no_durable_write. vm_compute. discriminate.
Qed.

(** C2, amended.  Every drop of a cached task on a target, its own column
    included, issues exactly one durable write: the update of the task
    with the column the cache has for it and the time of the drop. *)
Theorem drop_issues_one_write :
  forall (event : DragEvent) (now : timestamp) (w : World)
         (overId : jsstring) (t : Task.cached),
    over event = Some overId ->
    TaskManager.findTask (active event) (State.tasks (ui w)) = Some t ->
    writes (exec (TaskManager.handleDragEnd event now) w) =
    writes w ++
    [Store.tasks_update (active event)
       (Store.mkPatch None None None (Some (Task.columnId t)) None (Some now))].
Proof.
  intros event now w overId t Hover Hfind. unfold exec.
  rewrite (@handleDragEnd_drop event now w overId t Hover Hfind).
  destruct (reload_frame (after_drop_write event t now w)) as (w' & E & _ & Hc).
  rewrite E. cbn [snd].
  assert (Hall : calls w' =
                 calls w ++
                 Store.tasks_update (active event) (drop_patch t now) ::
                 match State.currentBoard (ui w) with
                 | Some board => fetch_calls (Board.id board)
                 | None => []
                 end).
  { rewrite Hc. cbn [after_drop_write calls ui State.currentBoard].
    rewrite <- app_assoc. reflexivity. }
  rewrite (@writes_app w _ w' Hall). f_equal.
  destruct (State.currentBoard (ui w)); reflexivity.
Qed.

(** C3.  While task T is dragged and its cached column is already C, a
    hover whose target resolves to column C, because the target is that
    column or because it is a task in it, changes nothing: neither the
    cache nor anything else. *)
Theorem handleDragOver_same_column :
  forall (event : DragEvent) (w : World) (overId : jsstring)
         (t : Task.cached) (col : Column.t),
    over event = Some overId ->
    TaskManager.findTask (active event) (State.tasks (ui w)) = Some t ->
    TaskManager.overColumn (State.columns (ui w)) (State.tasks (ui w)) overId
      = Some col ->
    Task.columnId t = Column.id col ->
    TaskManager.handleDragOver event w = (inr tt, w).
Proof.
  intros event w overId t col Hover Hfind Hcol Heq.
  apply str_eqb_eq in Heq.
  apply handleDragOver_stay with (overId := overId) (t := t) (col := col);
    assumption.
Qed.

(** C9.  When a hover moves task T to another column C, nothing is
    written or requested, the columns, the subtasks and the rest of the
    state are what they were, and the cached tasks are the same tasks in
    the same order, where a task with the id of T has C as its column and
    all its other fields unchanged, and every other task is unchanged. *)
Theorem handleDragOver_frame :
  forall (event : DragEvent) (w : World) (overId : jsstring)
         (t : Task.cached) (col : Column.t),
    over event = Some overId ->
    TaskManager.findTask (active event) (State.tasks (ui w)) = Some t ->
    TaskManager.overColumn (State.columns (ui w)) (State.tasks (ui w)) overId
      = Some col ->
    Task.columnId t <> Column.id col ->
    let w' := exec (TaskManager.handleDragOver event) w in
    remote w' = remote w /\ calls w' = calls w /\
    outages w' = outages w /\ console w' = console w /\
    alerts w' = alerts w /\
    State.user (ui w') = State.user (ui w) /\
    State.currentBoard (ui w') = State.currentBoard (ui w) /\
    State.columns (ui w') = State.columns (ui w) /\
    State.subtasks (ui w') = State.subtasks (ui w) /\
    State.selectedTask (ui w') = State.selectedTask (ui w) /\
    State.activeId (ui w') = State.activeId (ui w) /\
    Forall2 (fun old new =>
               if str_eqb (Task.id old) (active event)
               then Task.columnId new = Column.id col /\
                    same_except_columnId old new
               else new = old)
            (State.tasks (ui w)) (State.tasks (ui w')).
Proof.
  intros event w overId t col Hover Hfind Hcol Hneq.
  apply str_eqb_neq in Hneq. unfold exec.
  rewrite (@handleDragOver_move event w overId t col Hover Hfind Hcol Hneq).
  cbn [snd retasked remote calls outages console alerts ui State.user
       State.currentBoard State.columns State.subtasks State.selectedTask
       State.activeId State.tasks].
  repeat (split; [reflexivity|]).
  apply moved_frame.
Qed.

Lemma findTask_moved (id activeId columnId : jsstring)
      (tasks : list Task.cached) :
  TaskManager.findTask id (moved activeId columnId tasks) =
  option_map (fun task =>
                if str_eqb (Task.id task) activeId
                then Task.with_columnId columnId task else task)
             (TaskManager.findTask id tasks).
Proof.
  unfold TaskManager.findTask, moved.
  induction tasks as [|task tasks IH]; cbn [map find]; [reflexivity|].
  destruct (str_eqb (Task.id task) activeId) eqn:Ea;
    cbn [Task.id Task.with_columnId];
    destruct (str_eqb (Task.id task) id) eqn:Ei; cbn [option_map];
    rewrite ?Ea; try reflexivity; exact IH.
Qed.

Lemma findTask_id (id : jsstring) (tasks : list Task.cached) (t : Task.cached) :
  TaskManager.findTask id tasks = Some t -> str_eqb (Task.id t) id = true.
Proof.
  unfold TaskManager.findTask. intros H.
  apply find_some in H. tauto.
Qed.

Lemma find_ext {A} (f g : A -> bool) (l : list A) :
  (forall x, f x = g x) -> find f l = find g l.
Proof.
  intros H. induction l as [|x l IH]; cbn [find]; [reflexivity|].
  rewrite H, IH. reflexivity.
Qed.

Lemma str_eqb_same_left (a b c : jsstring) :
  str_eqb a b = true -> str_eqb a c = str_eqb b c.
Proof. intros H. apply str_eqb_eq in H. subst. reflexivity. Qed.

Lemma overColumn_moved (columns : list Column.t) (tasks : list Task.cached)
      (activeId overId : jsstring) (col : Column.t) :
  TaskManager.overColumn columns tasks overId = Some col ->
  TaskManager.overColumn columns (moved activeId (Column.id col) tasks) overId
    = Some col.
Proof.
  unfold TaskManager.overColumn.
  destruct (find (fun c => str_eqb (Column.id c) overId) columns) as [c0|];
    [tauto|].
  rewrite findTask_moved.
  destruct (TaskManager.findTask overId tasks) as [u|]; cbn [option_map];
    [|tauto].
  intros H.
  destruct (str_eqb (Task.id u) activeId); [|exact H].
  cbn [Task.columnId Task.with_columnId].
  rewrite <- H. apply find_ext. intros c.
  apply find_some in H. destruct H as [_ H].
  symmetry. apply str_eqb_same_left. exact H.
Qed.

(** Issuing the same hover twice in a row is issuing it once: the second
    one finds the dragged task in the column of the target. *)
Lemma handleDragOver_twice (event : DragEvent) (w : World) :
  exec (TaskManager.handleDragOver event)
       (exec (TaskManager.handleDragOver event) w) =
  exec (TaskManager.handleDragOver event) w.
Proof.
  unfold exec. rewrite !handleDragOver_eq. cbn [snd].
  unfold hovered at 2 3.
  destruct (over event) as [overId|] eqn:Hover;
    [|unfold hovered; rewrite Hover; reflexivity].
  destruct (TaskManager.findTask (active event) (State.tasks (ui w)))
    as [t|] eqn:Hfind;
    [|unfold hovered; rewrite Hover, Hfind; reflexivity].
  destruct (TaskManager.overColumn (State.columns (ui w))
              (State.tasks (ui w)) overId) as [col|] eqn:Hcol;
    [|unfold hovered; rewrite Hover, Hfind, Hcol; reflexivity].
  destruct (str_eqb (Task.columnId t) (Column.id col)) eqn:Heq;
    [unfold hovered; rewrite Hover, Hfind, Hcol, Heq; reflexivity|].
  set (w1 := retasked _ w).
  assert (Hfind1 : TaskManager.findTask (active event) (State.tasks (ui w1))
                   = Some (Task.with_columnId (Column.id col) t)).
  { cbn [w1 retasked ui State.tasks]. rewrite findTask_moved, Hfind.
    cbn [option_map]. rewrite (findTask_id _ _ Hfind). reflexivity. }
  assert (Hcol1 : TaskManager.overColumn (State.columns (ui w1))
                    (State.tasks (ui w1)) overId = Some col).
  { cbn [w1 retasked ui State.tasks State.columns].
    apply overColumn_moved. exact Hcol. }
  unfold hovered. rewrite Hover, Hfind1, Hcol1.
  cbn [Task.columnId Task.with_columnId]. rewrite str_eqb_refl.
  reflexivity.
Qed.

(** The store after a gesture that ends in a drop: as it was when the write
    is rejected, and with the cached column of the dragged task written
    when it is not. *)
Lemma drag_store (w : World) (activeId : jsstring)
      (targets : list (option jsstring)) (drop : jsstring) (now : timestamp) :
  TaskManager.findTask activeId (State.tasks (ui w)) <> None ->
  exists t : Task.cached,
    remote (exec (TaskManager.dragGesture activeId targets (Some drop) now) w) =
    if hd false (outages w) then remote w
    else Store.update_task activeId (drop_patch t now) (remote w).
Proof.
  intros Hfind. unfold exec.
  destruct (@dragGesture_drop w activeId targets drop now Hfind)
    as (tasks & t & w1 & _ & Hr1 & Ho1 & _ & E).
  rewrite E. clear E.
  destruct (reload_frame
              (after_drop_write (mkDrag activeId (Some drop)) t now w1))
    as (w' & E & Hr & _).
  rewrite E. cbn [snd]. rewrite Hr.
  exists t. cbn [after_drop_write remote active]. rewrite Ho1, Hr1.
  reflexivity.
Qed.

End DragClaims.

(* ================================================================== *)
(** * The calls a handler issues *)
(* ================================================================== *)

Module CallFacts.
Import LoaderFacts DragFacts.

Lemma appends_ret {A} (a : A) : appends (ret a).
Proof. intros w. exists []. cbn. rewrite app_nil_r. reflexivity. Qed.

Lemma appends_bind {A B} (m : M A) (k : A -> M B) :
  appends m -> (forall a, appends (k a)) -> appends (bind m k).
Proof.
  intros Hm Hk w. unfold bind. destruct (Hm w) as [more E].
  destruct (m w) as [[e|a] w1]; cbn [snd] in *.
  - exists more. exact E.
  - destruct (Hk a w1) as [more' E']. exists (more ++ more').
    rewrite E', E, app_assoc. reflexivity.
Qed.

Lemma appends_try_catch {A} (m : M A) (h : exn -> M A) :
  appends m -> (forall e, appends (h e)) -> appends (try_catch m h).
Proof.
  intros Hm Hh w. unfold try_catch. destruct (Hm w) as [more E].
  destruct (m w) as [[e|a] w1]; cbn [snd] in *.
  - destruct (Hh e w1) as [more' E']. exists (more ++ more').
    rewrite E', E, app_assoc. reflexivity.
  - exists more. exact E.
Qed.

Lemma appends_console_print l text error :
  appends (console_print l text error).
Proof. intros w. exists []. cbn. rewrite app_nil_r. reflexivity. Qed.

Lemma appends_toast p : appends (toast p).
Proof.
  intros w. exists []. unfold toast.
  destruct (Toast.variant p) as [[]|]; cbn; rewrite app_nil_r; reflexivity.
Qed.

Lemma appends_reload : appends TaskManager.reload.
Proof.
  intros w. destruct (reload_frame w) as (w' & E & _ & Hc).
  rewrite E. cbn [snd]. eexists. exact Hc.
Qed.

Lemma appends_loadBoardData boardId :
  appends (TaskManager.loadBoardData boardId).
Proof.
  intros w. destruct (loadBoardData_frame boardId w) as (w' & E & _ & _ & Hc).
  rewrite E. cbn [snd]. eexists. exact Hc.
Qed.

Lemma issues_first_request {A B} (c : Store.call)
      (run : Store.t -> A * Store.t) (k : A -> M B) :
  (forall a, appends (k a)) -> issues_first c (bind (db.request c run) k).
Proof.
  intros Hk w. unfold bind, db.request.
  destruct (hd false (outages w)).
  - exists []. reflexivity.
  - destruct (run (remote w)) as [a s].
    match goal with
    | |- context [k a ?w1] => destruct (Hk a w1) as [more E]
    end.
    exists more. rewrite E. cbn [calls]. rewrite <- app_assoc. reflexivity.
Qed.

Lemma issues_first_try_catch {A} (c : Store.call) (m : M A)
      (h : exn -> M A) :
  issues_first c m -> (forall e, appends (h e)) ->
  issues_first c (try_catch m h).
Proof.
  intros Hm Hh w. unfold try_catch. destruct (Hm w) as [more E].
  destruct (m w) as [[e|a] w1]; cbn [snd] in *.
  - destruct (Hh e w1) as [more' E']. exists (more ++ more').
    rewrite E', E, <- app_assoc. reflexivity.
  - exists more. exact E.
Qed.

Lemma issues_first_call {A} (c : Store.call) (m : M A) (w : World) :
  issues_first c m -> first_call w (exec m w) = Some c.
Proof.
  intros H. destruct (H w) as [more E]. unfold first_call, exec.
  rewrite E, nth_error_app2, Nat.sub_diag by lia. reflexivity.
Qed.

Ltac appends_tac :=
  repeat first
    [ apply appends_ret | apply appends_toast | apply appends_console_print
    | apply appends_reload | apply appends_loadBoardData
    | apply appends_bind | apply appends_try_catch | intro ].

(** [createTask], when it gets as far as the store, first creates the
    task. *)
Lemma createTask_issues (title : jsstring) (columnId : option jsstring)
      (now : timestamp) (w : World) (user : User.t) (board : Board.t)
      (target : jsstring) :
  State.user (ui w) = Some user ->
  State.currentBoard (ui w) = Some board ->
  TaskManager.targetColumnId columnId (State.columns (ui w)) = Some target ->
  truthy target = true ->
  first_call w (exec (TaskManager.createTask title columnId now) w) =
  Some (Store.tasks_create
          (Task.mk (js "task_" ++ Number_toString now) title None target
             (Board.id board) (User.id user)
             (Z.of_nat (length (filter
                (fun t => str_eqb (Task.columnId t) target)
                (State.tasks (ui w)))))
             None (VBool false) (Some (js "[]")) None None)).
Proof.
  intros Hu Hb Ht Htr.
  set (record := Task.mk _ _ _ _ _ _ _ _ _ _ _ _).
  assert (E : TaskManager.createTask title columnId now w =
              try_catch
                (db.tasks_create record ;;
                 TaskManager.loadBoardData (Board.id board) ;;
                 toast (Toast.mk (js "Task created")
                          (Some (34 :: title ++ 34 ::
                                 js " has been added to your board")) None))
                (fun error =>
                   console_print Error (js "Error creating task:") (Some error) ;;
                   toast (Toast.mk (js "Creation Error")
                                   (Some (js "Failed to create task"))
                                   (Some destructive))) w).
  { unfold TaskManager.createTask. unfold bind at 1, gets at 1.
    rewrite Hu. unfold bind at 1, gets at 1. rewrite Hb.
    unfold bind at 1, gets at 1. unfold bind at 1, gets at 1.
    rewrite Ht, Htr. reflexivity. }
  unfold exec. rewrite E. apply issues_first_call.
  apply issues_first_try_catch; [|appends_tac].
  unfold db.tasks_create. apply issues_first_request. appends_tac.
Qed.

Lemma addSubtask_issues (task : Task.cached) (subtasks : list Subtask.t)
      (l : TaskDetailDrawer.Local) (now : timestamp) (w : World) :
  truthy (trim (TaskDetailDrawer.newSubtaskTitle l)) = true ->
  first_call w
    (exec (TaskDetailDrawer.addSubtask
             (TaskDetailDrawer.mkProps task subtasks TaskManager.reload) l now)
          w) =
  Some (Store.subtasks_create
          (Subtask.mk (js "subtask_" ++ Number_toString now)
             (trim (TaskDetailDrawer.newSubtaskTitle l)) (Task.id task)
             (VBool false) (Z.of_nat (length subtasks)))).
Proof.
  intros Htr. unfold TaskDetailDrawer.addSubtask. rewrite Htr. cbn [negb].
  apply issues_first_call.
  apply issues_first_try_catch; [|appends_tac].
  unfold db.subtasks_create. apply issues_first_request.
  cbn [TaskDetailDrawer.onUpdate]. appends_tac.
Qed.

Lemma toggleSubtask_issues (task : Task.cached) (subtasks : list Subtask.t)
      (subtaskId : jsstring) (completed : bool) (w : World) :
  first_call w
    (exec (TaskDetailDrawer.toggleSubtask
             (TaskDetailDrawer.mkProps task subtasks TaskManager.reload)
             subtaskId completed)
          w) =
  Some (Store.subtasks_update subtaskId (VNum (if completed then 1 else 0))).
Proof.
  unfold TaskDetailDrawer.toggleSubtask.
  apply issues_first_call.
  apply issues_first_try_catch; [|appends_tac].
  unfold db.subtasks_update. apply issues_first_request.
  cbn [TaskDetailDrawer.onUpdate]. appends_tac.
Qed.

Lemma handleSave_issues (task : Task.cached) (subtasks : list Subtask.t)
      (l : TaskDetailDrawer.Local) (now : timestamp) (w : World) :
  first_call w
    (exec (TaskDetailDrawer.handleSave
             (TaskDetailDrawer.mkProps task subtasks TaskManager.reload) l now)
          w) =
  Some (Store.tasks_update (Task.id task)
          (Store.mkPatch
             (Some (TaskDetailDrawer.title l))
             (Some (if truthy (TaskDetailDrawer.description l)
                    then Some (TaskDetailDrawer.description l) else None))
             (Some (TaskDetailDrawer.dueDate l))
             None
             (Some (JSON.stringify (TaskDetailDrawer.tags l)))
             (Some now))).
Proof.
  unfold TaskDetailDrawer.handleSave.
  apply issues_first_call.
  apply issues_first_try_catch; [|appends_tac].
  unfold db.tasks_update. apply issues_first_request.
  cbn [TaskDetailDrawer.onUpdate]. appends_tac.
Qed.

End CallFacts.

(* ================================================================== *)
(** * Claims about the mutators and the readers *)
(* ================================================================== *)

Module MutatorClaims.
Import CallFacts.

(** C7.  Encoding a tag list with [JSON.stringify] and decoding the result
    as the loader does gives the same list, hence the same set of tags; an
    absent encoding and an empty one decode to no tags; and [handleSave]
    writes the tags of the drawer to the store in that encoding. *)
Theorem tags_round_trip :
  forall (tags : list jsstring) (w : World),
    TaskManager.decodeTags (Some (JSON.stringify tags)) w
      = (inr (JArr (map JStr tags)), w) /\
    (forall tag, has_tag (JArr (map JStr tags)) tag <-> In tag tags) /\
    TaskManager.decodeTags None w = (inr (JArr []), w) /\
    TaskManager.decodeTags (Some []) w = (inr (JArr []), w) /\
    (forall task subtasks l now,
        exists partial,
          first_call w
            (exec (TaskDetailDrawer.handleSave
                     (TaskDetailDrawer.mkProps task subtasks TaskManager.reload)
                     l now) w)
            = Some (Store.tasks_update (Task.id task) partial) /\
          Store.p_tags partial
            = Some (JSON.stringify (TaskDetailDrawer.tags l))).
Proof.
  intros tags w. split; [|split; [|split; [|split]]].
  - unfold TaskManager.decodeTags.
    rewrite JSONFacts.parse_stringify. reflexivity.
  - intros tag. cbn [has_tag]. rewrite in_map_iff. split.
    + intros (x & E & Hin). inversion E; subst. exact Hin.
    + intros Hin. exists tag. split; [reflexivity|exact Hin].
  - reflexivity.
  - reflexivity.
  - intros task subtasks l now. eexists. split.
    + apply handleSave_issues.
    + reflexivity.
Qed.

(** C10.  [toggleSubtask] writes [completed] as the number 1 when the box
    is checked and 0 when it is not; [addSubtask] writes the boolean
    [false]; the badge of the card, the progress of the list, the count
    and the checkboxes of the drawer all take a subtask as completed
    exactly when [Number(completed) > 0]; so a subtask written by the
    toggle is completed exactly when the box was checked, and a new
    subtask is not completed. *)
Theorem completed_numeric_encoding :
  (forall (task : Task.cached) (subtasks : list Subtask.t)
          (subtaskId : jsstring) (checked : bool) (w : World),
      first_call w
        (exec (TaskDetailDrawer.toggleSubtask
                 (TaskDetailDrawer.mkProps task subtasks TaskManager.reload)
                 subtaskId checked) w)
      = Some (Store.subtasks_update subtaskId
                (VNum (if checked then 1 else 0)))) /\
  (forall (task : Task.cached) (subtasks : list Subtask.t)
          (l : TaskDetailDrawer.Local) (now : timestamp) (w : World),
      truthy (trim (TaskDetailDrawer.newSubtaskTitle l)) = true ->
      exists record,
        first_call w
          (exec (TaskDetailDrawer.addSubtask
                   (TaskDetailDrawer.mkProps task subtasks TaskManager.reload)
                   l now) w)
        = Some (Store.subtasks_create record) /\
        Subtask.completed record = VBool false) /\
  (forall subtasks,
      TaskCard.completedSubtasks subtasks
      = length (filter isCompleted subtasks)) /\
  (forall subtasks taskId,
      fst (ListView.getSubtaskProgress subtasks taskId)
      = length (filter isCompleted
                  (filter (fun st => str_eqb (Subtask.taskId st) taskId)
                          subtasks))) /\
  (forall props,
      TaskDetailDrawer.completedCount props
      = length (filter isCompleted (TaskDetailDrawer.subtasks props))) /\
  (forall st, TaskDetailDrawer.checked st = isCompleted st) /\
  (forall st, isCompleted st = true <-> (Number (Subtask.completed st) > 0)%Z) /\
  (forall st (checked : bool),
      isCompleted (Subtask.with_completed (VNum (if checked then 1 else 0)) st)
      = checked) /\
  (forall st, isCompleted (Subtask.with_completed (VBool false) st) = false).
Proof.
  repeat split.
  - apply toggleSubtask_issues.
  - intros w0. eexists. split.
    + apply addSubtask_issues. assumption.
    + reflexivity.
  - unfold isCompleted. intros H. apply Z.gtb_lt in H. lia.
  - unfold isCompleted. intros H. apply Z.gtb_lt. lia.
  - intros st []; reflexivity.
Qed.

(** The tags of the drawer are a set: [addTag] and [removeTag] keep the
    list free of duplicates. *)
Lemma includes_In (tags : list jsstring) (tag : jsstring) :
  TaskDetailDrawer.includes tags tag = true <-> In tag tags.
Proof.
  unfold TaskDetailDrawer.includes. rewrite existsb_exists. split.
  - intros (t & Hin & E). apply str_eqb_eq in E. subst. exact Hin.
  - intros Hin. exists tag. split; [exact Hin|apply str_eqb_refl].
Qed.

Lemma NoDup_snoc {A} (l : list A) (x : A) :
  NoDup l -> ~ In x l -> NoDup (l ++ [x]).
Proof.
  induction l as [|y l IH]; intros Hnd Hnot.
  - constructor; [intros []|constructor].
  - cbn [app]. inversion Hnd as [|z zs Hy Hl]; subst. constructor.
    + rewrite in_app_iff. intros [Hin|[E|[]]]; [contradiction|].
      apply Hnot. left. symmetry. exact E.
    + apply IH; [exact Hl|]. intros Hin. apply Hnot. right. exact Hin.
Qed.

Lemma addTag_NoDup (l : TaskDetailDrawer.Local) :
  NoDup (TaskDetailDrawer.tags l) ->
  NoDup (TaskDetailDrawer.tags (TaskDetailDrawer.addTag l)).
Proof.
  intros Hnd. unfold TaskDetailDrawer.addTag.
  destruct (truthy (trim (TaskDetailDrawer.tagInput l))); cbn [andb];
    [|exact Hnd].
  destruct (TaskDetailDrawer.includes (TaskDetailDrawer.tags l)
              (trim (TaskDetailDrawer.tagInput l))) eqn:Hi;
    cbn [negb]; [exact Hnd|].
  cbn [TaskDetailDrawer.tags]. apply NoDup_snoc; [exact Hnd|].
  intros Hin. apply includes_In in Hin. congruence.
Qed.

Lemma removeTag_NoDup (tagToRemove : jsstring) (l : TaskDetailDrawer.Local) :
  NoDup (TaskDetailDrawer.tags l) ->
  NoDup (TaskDetailDrawer.tags (TaskDetailDrawer.removeTag tagToRemove l)).
Proof.
  intros Hnd. cbn [TaskDetailDrawer.removeTag TaskDetailDrawer.tags].
  apply NoDup_filter. exact Hnd.
Qed.

End MutatorClaims.

(* ================================================================== *)
(** * The claims on the board of the scenario *)
(* ================================================================== *)

Module DragWitnesses.
Import Scenario.


Lemma drop_issues_one_write_witness :
  over (mkDrag (js "t1") (Some (js "col_todo"))) = Some (js "col_todo") /\
  TaskManager.findTask (active (mkDrag (js "t1") (Some (js "col_todo"))))
    (State.tasks (ui (loaded []))) = Some (decoded t1) /\
  writes (exec (TaskManager.handleDragEnd
                  (mkDrag (js "t1") (Some (js "col_todo"))) 5)
               (loaded [])) =
  writes (loaded []) ++
  [Store.tasks_update (js "t1")
     (Store.mkPatch None None None (Some (js "col_todo")) None (Some 5))].
Proof.
  split; [reflexivity|]. split; [vm_compute; reflexivity|].
  apply (@DragClaims.drop_issues_one_write
           (mkDrag (js "t1") (Some (js "col_todo"))) 5 (loaded [])
           (js "col_todo") (decoded t1)).
  - reflexivity.
  - vm_compute; reflexivity.
Defined.

(** The pointer is over task [t2], which is in the column of [t1]. *)
Lemma handleDragOver_same_column_witness :
  over (mkDrag (js "t1") (Some (js "t2"))) = Some (js "t2") /\
  TaskManager.findTask (active (mkDrag (js "t1") (Some (js "t2"))))
    (State.tasks (ui (loaded []))) = Some (decoded t1) /\
  TaskManager.overColumn (State.columns (ui (loaded [])))
    (State.tasks (ui (loaded []))) (js "t2") = Some col_todo /\
  Task.columnId (decoded t1) = Column.id col_todo /\
  TaskManager.handleDragOver (mkDrag (js "t1") (Some (js "t2"))) (loaded [])
    = (inr tt, loaded []).
Proof.
  split; [reflexivity|]. split; [vm_compute; reflexivity|].
  split; [vm_compute; reflexivity|]. split; [reflexivity|].
  apply (@DragClaims.handleDragOver_same_column
           (mkDrag (js "t1") (Some (js "t2"))) (loaded [])
           (js "t2") (decoded t1) col_todo).
  - reflexivity.
  - vm_compute; reflexivity.
  - vm_compute; reflexivity.
  - reflexivity.
Defined.

Lemma handleDragOver_frame_witness :
  over (mkDrag (js "t1") (Some (js "col_done"))) = Some (js "col_done") /\
  TaskManager.findTask (active (mkDrag (js "t1") (Some (js "col_done"))))
    (State.tasks (ui (loaded []))) = Some (decoded t1) /\
  TaskManager.overColumn (State.columns (ui (loaded [])))
    (State.tasks (ui (loaded []))) (js "col_done") = Some col_done /\
  Task.columnId (decoded t1) <> Column.id col_done /\
  remote (exec (TaskManager.handleDragOver
                  (mkDrag (js "t1") (Some (js "col_done")))) (loaded []))
    = remote (loaded []) /\
  calls (exec (TaskManager.handleDragOver
                 (mkDrag (js "t1") (Some (js "col_done")))) (loaded []))
    = calls (loaded []) /\
  Forall2 (fun old new =>
             if str_eqb (Task.id old) (js "t1")
             then Task.columnId new = Column.id col_done /\
                  same_except_columnId old new
             else new = old)
          (State.tasks (ui (loaded [])))
          (State.tasks
             (ui (exec (TaskManager.handleDragOver
                          (mkDrag (js "t1") (Some (js "col_done"))))
                       (loaded [])))).
Proof.
  split; [reflexivity|]. split; [vm_compute; reflexivity|].
  split; [vm_compute; reflexivity|]. split; [vm_compute; discriminate|].
  pose proof (@DragClaims.handleDragOver_frame
                (mkDrag (js "t1") (Some (js "col_done"))) (loaded [])
                (js "col_done") (decoded t1) col_done) as H.
  cbv zeta in H.
  destruct H as (Hr & Hc & _ & _ & _ & _ & _ & _ & _ & _ & _ & Ht).
  - reflexivity.
  - vm_compute; reflexivity.
  - vm_compute; reflexivity.
  - vm_compute; discriminate.
  - split; [exact Hr|]. split; [exact Hc|exact Ht].
Defined.

End DragWitnesses.

Module MutatorWitnesses.
Import Scenario.

Lemma completed_numeric_encoding_witness :
  truthy (trim (TaskDetailDrawer.newSubtaskTitle typing)) = true /\
  exists record,
    first_call (drawer_open [])
      (exec (TaskDetailDrawer.addSubtask
               (TaskDetailDrawer.mkProps (decoded t1) [s1; s2]
                  TaskManager.reload)
               typing 5)
            (drawer_open []))
      = Some (Store.subtasks_create record) /\
    Subtask.completed record = VBool false.
Proof.
  split; [vm_compute; reflexivity|].
  apply (proj1 (proj2 MutatorClaims.completed_numeric_encoding)
           (decoded t1) [s1; s2] typing 5 (drawer_open [])).
  vm_compute; reflexivity.
Defined.

End MutatorWitnesses.

(* ================================================================== *)
(** * The scenarios of the specification, run *)
(* ================================================================== *)

Module Examples.
Import Scenario.

(** The tags [urgent] and [q3] go through the store and come back. *)
Example tags_urgent_q3 :
  JSON.stringify [js "urgent"; js "q3"] = 91 :: 34 :: js "urgent" ++ 34 :: 44 :: 34 :: js "q3" ++ [34; 93] /\
  tags_value (Some (JSON.stringify [js "urgent"; js "q3"]))
    = Some (JArr [JStr (js "urgent"); JStr (js "q3")]).
Proof. split; vm_compute; reflexivity. Qed.

(** The subtask "Write tests" is added to task [t1], which has two
    subtasks: it is created with position 2, and after the reload the
    badge of the card counts three subtasks. *)
Example write_tests_subtask :
  let w' := exec (TaskDetailDrawer.addSubtask
                    (TaskDetailDrawer.mkProps (decoded t1)
                       (TaskManager.drawerSubtasks (decoded t1)
                          (State.subtasks (ui (drawer_open []))))
                       TaskManager.reload)
                    typing 5)
                 (drawer_open []) in
  first_call (drawer_open []) w'
    = Some (Store.subtasks_create
              (Subtask.mk (js "subtask_5") (js "Write tests") (js "t1")
                          (VBool false) 2)) /\
  TaskCard.totalSubtasks
    (KanbanBoard.taskSubtasks (decoded t1) (State.subtasks (ui w'))) = 3%nat /\
  TaskCard.completedSubtasks
    (KanbanBoard.taskSubtasks (decoded t1) (State.subtasks (ui w'))) = 1%nat.
Proof. cbv zeta. repeat split; vm_compute; reflexivity. Qed.

(** With malformed tags in the store, the load replaces the columns and
    then gives up: the cache is left with new columns and old tasks. *)
Example malformed_tags_partial_overwrite :
  let w := start store_malformed [] in
  let w' := exec (TaskManager.loadBoardData (js "b1")) w in
  State.columns (ui w') = [col_todo; col_doing; col_done] /\
  State.tasks (ui w') = [] /\
  State.subtasks (ui w') = [].
Proof. cbv zeta. repeat split; vm_compute; reflexivity. Qed.

(** A drop outside every target writes nothing and reloads nothing: the
    cache keeps the optimistic move. *)
Example drop_outside :
  let w' := exec (TaskManager.dragGesture (js "t1") [Some (js "col_done")]
                    None 5) (loaded []) in
  calls w' = [] /\
  option_map (@Task.columnId _)
    (TaskManager.findTask (js "t1") (State.tasks (ui w')))
    = Some (js "col_done").
Proof. cbv zeta. split; vm_compute; reflexivity. Qed.

(** The drawer of task [t1] saves three tags, one of them made of a
    quotation mark, a reverse solidus and a line feed; the reload that
    follows reads the same three tags back. *)
Example save_then_reload_tags :
  let l := TaskDetailDrawer.mkLocal true (js "Write spec") [] None
             [js "urgent"; js "q3"; [34; 92; 10]] [] [] in
  let w' := exec (TaskDetailDrawer.handleSave
                    (TaskDetailDrawer.mkProps (decoded t1)
                       (TaskManager.drawerSubtasks (decoded t1)
                          (State.subtasks (ui (drawer_open []))))
                       TaskManager.reload)
                    l 5)
                 (drawer_open []) in
  option_map (@Task.tags _)
    (TaskManager.findTask (js "t1") (State.tasks (ui w')))
  = Some (JArr [JStr (js "urgent"); JStr (js "q3"); JStr [34; 92; 10]]) /\
  alerts w' = [js "Task updated: Your changes have been saved"].
Proof. cbv zeta. split; vm_compute; reflexivity. Qed.

(** The box of subtask [s2] is checked, then the one of [s1] is cleared:
    the badge of the card follows. *)
Example toggle_subtasks :
  let props := TaskDetailDrawer.mkProps (decoded t1) [s1; s2]
                 TaskManager.reload in
  let w1 := exec (TaskDetailDrawer.toggleSubtask props (js "s2") true)
                 (drawer_open []) in
  let w2 := exec (TaskDetailDrawer.toggleSubtask props (js "s1") false) w1 in
  TaskCard.completedSubtasks
    (KanbanBoard.taskSubtasks (decoded t1) (State.subtasks (ui w1))) = 2%nat /\
  TaskCard.completedSubtasks
    (KanbanBoard.taskSubtasks (decoded t1) (State.subtasks (ui w2))) = 1%nat.
Proof. cbv zeta. split; vm_compute; reflexivity. Qed.

End Examples.

(* ================================================================== *)
(** * More about the reconciliation loader *)
(* ================================================================== *)

Module LoaderProperties.
Import LoaderFacts.

(** X1.  Whatever happens to it, a load returns without throwing, leaves
    the store as it is, issues its three reads and no write, and keeps the
    user, the selected board, the task of the drawer and the drag state of
    the component. *)
Theorem load_only_reads :
  forall (boardId : jsstring) (w : World),
    fst (TaskManager.loadBoardData boardId w) = inr tt /\
    let w' := exec (TaskManager.loadBoardData boardId) w in
    remote w' = remote w /\
    calls w' = calls w ++ fetch_calls boardId /\
    writes w' = writes w /\
    State.user (ui w') = State.user (ui w) /\
    State.currentBoard (ui w') = State.currentBoard (ui w) /\
    State.selectedTask (ui w') = State.selectedTask (ui w) /\
    State.activeId (ui w') = State.activeId (ui w).
Proof.
  intros boardId w. unfold exec.
  assert (Hw : forall w' : World,
             calls w' = calls w ++ fetch_calls boardId ->
             writes w' = writes w).
  { intros w' E. unfold writes. rewrite E, filter_app. cbn. apply app_nil_r. }
  destruct (loadBoardData_cases boardId w) as [E|[E|E]]; rewrite E;
    cbn [fst snd]; (split; [reflexivity|]); cbv zeta;
    repeat (split; [reflexivity|]);
    (split; [apply Hw; reflexivity|]); repeat split.
Qed.

(** X2.  A load that runs to its end replaces the columns, the tasks and
    the subtasks of the cache wholesale: what it leaves depends on the
    store only, not on what the cache held. *)
Theorem load_replaces_wholesale :
  forall (boardId : jsstring) (w1 w2 : World),
    remote w1 = remote w2 ->
    fetch_rejected (outages w1) = false ->
    fetch_rejected (outages w2) = false ->
    forallb decodable
      (Store.list_tasks (board_query boardId) (remote w1)) = true ->
    let w1' := exec (TaskManager.loadBoardData boardId) w1 in
    let w2' := exec (TaskManager.loadBoardData boardId) w2 in
    State.columns (ui w1') = State.columns (ui w2') /\
    State.tasks (ui w1') = State.tasks (ui w2') /\
    State.subtasks (ui w1') = State.subtasks (ui w2').
Proof.
  intros boardId w1 w2 Hr H1 H2 Hd. unfold exec.
  rewrite (loadBoardData_ok boardId w1 H1 Hd).
  rewrite Hr in Hd. rewrite (loadBoardData_ok boardId w2 H2 Hd).
  cbn [snd reconciled ui State.columns State.tasks State.subtasks].
  rewrite Hr. repeat split.
Qed.

(** X3.  When the fetch goes through and the tags of a fetched task are
    malformed, the load has already replaced the cached columns by the
    columns of the store when it gives up: the cache is left with the new
    columns and the old tasks and subtasks. *)
Theorem undecodable_load_overwrites_columns :
  forall (boardId : jsstring) (w : World),
    fetch_rejected (outages w) = false ->
    existsb (fun row => malformed (Task.tags row))
            (Store.list_tasks (board_query boardId) (remote w)) = true ->
    let w' := exec (TaskManager.loadBoardData boardId) w in
    State.columns (ui w') = Store.list_columns (board_query boardId) (remote w) /\
    State.tasks (ui w') = State.tasks (ui w) /\
    State.subtasks (ui w') = State.subtasks (ui w).
Proof.
  intros boardId w Ho Hm. unfold exec.
  assert (Hd : forallb decodable
                 (Store.list_tasks (board_query boardId) (remote w)) = false).
  { revert Hm. generalize (Store.list_tasks (board_query boardId) (remote w)).
    intros rows. induction rows as [|row rows IH]; cbn [existsb forallb];
      [discriminate|].
    unfold decodable at 1. destruct (malformed (Task.tags row));
      cbn [negb andb orb]; [reflexivity|exact IH]. }
  rewrite (loadBoardData_undecodable boardId w Ho Hd).
  repeat split.
Qed.

End LoaderProperties.

(* ================================================================== *)
(** * More about the drag controller *)
(* ================================================================== *)

Module DragProperties.
Import LoaderFacts DragFacts.

Lemma hover_related_refl (activeId : jsstring) (tasks : list Task.cached) :
  Forall2 (hover_related activeId) tasks tasks.
Proof.
  induction tasks as [|task tasks IH]; constructor; [|exact IH].
  unfold hover_related. destruct (str_eqb (Task.id task) activeId);
    [|reflexivity].
  unfold same_except_columnId. repeat split.
Qed.

Lemma hover_related_trans (activeId : jsstring)
      (l1 l2 l3 : list Task.cached) :
  Forall2 (hover_related activeId) l1 l2 ->
  Forall2 (hover_related activeId) l2 l3 ->
  Forall2 (hover_related activeId) l1 l3.
Proof.
  intros H12. revert l3.
  induction H12 as [|a b l1 l2 Hab _ IH]; intros l3 H23;
    inversion H23 as [|b' c l2' l3' Hbc Hrest]; subst; constructor.
  - unfold hover_related in *.
    destruct (str_eqb (Task.id a) activeId) eqn:Ea.
    + assert (Eb : str_eqb (Task.id b) activeId = true).
      { destruct Hab as (Hid & _). rewrite <- Hid. exact Ea. }
      rewrite Eb in Hbc. unfold same_except_columnId in *.
      repeat match goal with H : _ /\ _ |- _ => destruct H end.
      repeat split; congruence.
    + subst b. rewrite Ea in Hbc. exact Hbc.
  - apply IH. exact Hrest.
Qed.

Lemma moved_related (activeId columnId : jsstring)
      (tasks : list Task.cached) :
  Forall2 (hover_related activeId) tasks (moved activeId columnId tasks).
Proof.
  unfold moved. induction tasks as [|task tasks IH]; cbn [map];
    constructor; [|exact IH].
  unfold hover_related. destruct (str_eqb (Task.id task) activeId);
    [|reflexivity].
  unfold same_except_columnId. repeat split.
Qed.

Lemma hover_cons (activeId : jsstring) (target : option jsstring)
      (targets : list (option jsstring)) (w : World) :
  TaskManager.hover activeId (target :: targets) w =
  TaskManager.hover activeId targets (hovered (mkDrag activeId target) w).
Proof.
  cbn [TaskManager.hover]. unfold bind. rewrite handleDragOver_eq.
  reflexivity.
Qed.

Lemma overColumn_In (columns : list Column.t) (tasks : list Task.cached)
      (overId : jsstring) (col : Column.t) :
  TaskManager.overColumn columns tasks overId = Some col -> In col columns.
Proof.
  unfold TaskManager.overColumn.
  destruct (find (fun c => str_eqb (Column.id c) overId) columns) as [c0|] eqn:E.
  - intros H. inversion H; subst. apply find_some in E. tauto.
  - intros H. apply find_some in H. tauto.
Qed.

(** A hover leaves the world as it is or moves the dragged task to a
    cached column. *)
Lemma hovered_cases (event : DragEvent) (w : World) :
  hovered event w = w \/
  exists col,
    In col (State.columns (ui w)) /\
    hovered event w =
    retasked (moved (active event) (Column.id col) (State.tasks (ui w))) w.
Proof.
  unfold hovered.
  destruct (over event) as [overId|]; [|left; reflexivity].
  destruct (TaskManager.findTask (active event) (State.tasks (ui w)))
    as [t|]; [|left; reflexivity].
  destruct (TaskManager.overColumn (State.columns (ui w))
              (State.tasks (ui w)) overId) as [col|] eqn:Ec;
    [|left; reflexivity].
  destruct (str_eqb (Task.columnId t) (Column.id col)); [left; reflexivity|].
  right. exists col. split; [|reflexivity].
  apply overColumn_In in Ec. exact Ec.
Qed.

(** The world after a sequence of hovers: the same world with other tasks,
    related to the old ones and in valid columns when the old ones were. *)
Lemma hover_run (activeId : jsstring) (targets : list (option jsstring)) :
  forall w : World,
  exists tasks,
    TaskManager.hover activeId targets w = (inr tt, retasked tasks w) /\
    Forall2 (hover_related activeId) (State.tasks (ui w)) tasks /\
    (columns_valid (State.columns (ui w)) (State.tasks (ui w)) ->
     columns_valid (State.columns (ui w)) tasks).
Proof.
  induction targets as [|target targets IH]; intros w.
  - exists (State.tasks (ui w)). cbn [TaskManager.hover].
    rewrite retasked_same. split; [reflexivity|].
    split; [apply hover_related_refl|tauto].
  - rewrite hover_cons.
    destruct (hovered_cases (mkDrag activeId target) w)
      as [E|(col & Hin & E)]; rewrite E.
    + apply IH.
    + destruct (IH (retasked (moved (active (mkDrag activeId target))
                                    (Column.id col) (State.tasks (ui w))) w))
        as (tasks & Eh & Hrel & Hval).
      exists tasks. rewrite Eh, retasked_twice. split; [reflexivity|].
      cbn [retasked ui State.tasks State.columns active] in Hrel, Hval.
      split.
      * eapply hover_related_trans; [apply moved_related|exact Hrel].
      * intros Hv. apply Hval. unfold columns_valid, moved in *.
        rewrite Forall_map. eapply Forall_impl; [|exact Hv].
        intros task Ht.
        destruct (str_eqb (Task.id task) activeId); [|exact Ht].
        cbn [Task.columnId Task.with_columnId].
        apply in_map. exact Hin.
Qed.

(** X4.  A sequence of hovers never throws and touches nothing but the
    cached tasks: the store, the calls, the outage script, the console and
    the alerts are what they were, like every other field of the state;
    the tasks are the same tasks in the same order, those with another id
    than the dragged task unchanged, those with its id changed in their
    column at most. *)
Theorem hover_sequence_frame :
  forall (activeId : jsstring) (targets : list (option jsstring)) (w : World),
    fst (TaskManager.hover activeId targets w) = inr tt /\
    let w' := exec (TaskManager.hover activeId targets) w in
    remote w' = remote w /\ calls w' = calls w /\
    outages w' = outages w /\ console w' = console w /\
    alerts w' = alerts w /\
    State.user (ui w') = State.user (ui w) /\
    State.currentBoard (ui w') = State.currentBoard (ui w) /\
    State.columns (ui w') = State.columns (ui w) /\
    State.subtasks (ui w') = State.subtasks (ui w) /\
    State.selectedTask (ui w') = State.selectedTask (ui w) /\
    State.activeId (ui w') = State.activeId (ui w) /\
    Forall2 (fun old new =>
               if str_eqb (Task.id old) activeId
               then same_except_columnId old new
               else new = old)
            (State.tasks (ui w)) (State.tasks (ui w')).
Proof.
  intros activeId targets w. unfold exec.
  destruct (hover_run activeId targets w) as (tasks & E & Hrel & _).
  rewrite E. cbn [fst snd]. split; [reflexivity|]. cbv zeta.
  repeat (split; [reflexivity|]). exact Hrel.
Qed.

(** X5.  If every cached task is in a cached column before a sequence of
    hovers, every cached task is in a cached column after it: an
    optimistic move only goes to a column of the cache. *)
Theorem hover_keeps_columns_valid :
  forall (activeId : jsstring) (targets : list (option jsstring)) (w : World),
    columns_valid (State.columns (ui w)) (State.tasks (ui w)) ->
    let w' := exec (TaskManager.hover activeId targets) w in
    columns_valid (State.columns (ui w')) (State.tasks (ui w')).
Proof.
  intros activeId targets w Hv. unfold exec.
  destruct (hover_run activeId targets w) as (tasks & E & _ & Hval).
  rewrite E. cbn [snd retasked ui State.columns State.tasks].
  apply Hval. exact Hv.
Qed.

Lemma hovered_twice (event : DragEvent) (w : World) :
  hovered event (hovered event w) = hovered event w.
Proof.
  pose proof (DragClaims.handleDragOver_twice event w) as H.
  unfold exec in H. rewrite !handleDragOver_eq in H. exact H.
Qed.

(** X6.  Hovering the same target any number of times in a row is hovering
    it once. *)
Theorem hover_repeated :
  forall (activeId : jsstring) (target : option jsstring) (n : nat)
         (w : World),
    TaskManager.hover activeId (repeat target (S n)) w =
    TaskManager.hover activeId [target] w.
Proof.
  intros activeId target n. induction n as [|n IH]; intros w; [reflexivity|].
  change (repeat target (S (S n))) with (target :: repeat target (S n)).
  rewrite hover_cons, IH, !hover_cons, hovered_twice. reflexivity.
Qed.

Ltac run_end :=
  cbv beta iota zeta delta
    [TaskManager.handleDragEnd bind gets ret TaskManager.setActiveId modify
     with_ui].

(** X7.  A drag that ends over no target, or whose item is not a cached
    task, ends the drag and does nothing else: no call is issued, nothing
    is shown, and the cache keeps the tasks as the hovers left them. *)
Theorem drop_without_target :
  forall (event : DragEvent) (now : timestamp) (w : World),
    over event = None \/
    TaskManager.findTask (active event) (State.tasks (ui w)) = None ->
    TaskManager.handleDragEnd event now w = (inr tt, idle w).
Proof.
  intros event now w H. run_end.
  destruct (over event) as [overId|]; [|reflexivity].
  destruct H as [H|H]; [discriminate|].
  cbn [ui State.tasks]. rewrite H. reflexivity.
Qed.

Lemma patched_related (activeId : jsstring) (t : Task.cached)
      (now : timestamp) (rows : list Task.row) :
  Forall2 (fun old new =>
             if str_eqb (Task.id old) activeId
             then Task.columnId new = Task.columnId t /\
                  Task.updatedAt new = Some now /\
                  same_except_move old new
             else new = old)
          rows
          (map (fun x => if str_eqb (Task.id x) activeId
                         then Store.patch_task (drop_patch t now) x else x)
               rows).
Proof.
  induction rows as [|row rows IH]; cbn [map]; constructor; [|exact IH].
  destruct (str_eqb (Task.id row) activeId); [|reflexivity].
  unfold same_except_move. repeat split.
Qed.

(** X8.  When the write of a drop is not rejected, the store holds the
    same tasks in the same order, those with the id of the dragged task
    with the column the cache had for it and the time of the drop as their
    time of update, and nothing else changed: their position is not
    renumbered, and the other tasks, the columns and the subtasks are
    untouched. *)
Theorem drop_persists_cached_column :
  forall (event : DragEvent) (now : timestamp) (w : World)
         (overId : jsstring) (t : Task.cached),
    over event = Some overId ->
    TaskManager.findTask (active event) (State.tasks (ui w)) = Some t ->
    hd false (outages w) = false ->
    let w' := exec (TaskManager.handleDragEnd event now) w in
    Store.columns (remote w') = Store.columns (remote w) /\
    Store.subtasks (remote w') = Store.subtasks (remote w) /\
    Forall2 (fun old new =>
               if str_eqb (Task.id old) (active event)
               then Task.columnId new = Task.columnId t /\
                    Task.updatedAt new = Some now /\
                    same_except_move old new
               else new = old)
            (Store.tasks (remote w)) (Store.tasks (remote w')).
Proof.
  intros event now w overId t Hover Hfind Hok. unfold exec.
  rewrite (@handleDragEnd_drop event now w overId t Hover Hfind).
  destruct (reload_frame (after_drop_write event t now w)) as (w' & E & Hr & _).
  rewrite E. cbn [snd]. rewrite Hr.
  cbn [after_drop_write remote]. rewrite Hok.
  cbn [Store.update_task Store.columns Store.subtasks Store.tasks].
  split; [reflexivity|]. split; [reflexivity|].
  apply patched_related.
Qed.

Lemma load_alerts (boardId : jsstring) (w : World) :
  exists w' more,
    TaskManager.loadBoardData boardId w = (inr tt, w') /\
    alerts w' = alerts w ++ more /\
    (more = [] \/ more = [loading_error]).
Proof.
  destruct (loadBoardData_cases boardId w) as [E|[E|E]]; rewrite E.
  - eexists. exists []. split; [reflexivity|]. split; [|left; reflexivity].
    cbn [reconciled alerts]. symmetry. apply app_nil_r.
  - eexists. exists [loading_error]. split; [reflexivity|].
    split; [reflexivity|right; reflexivity].
  - eexists. exists [loading_error]. split; [reflexivity|].
    split; [reflexivity|right; reflexivity].
Qed.

(** X9.  When the write of a drop is rejected, the store is left as it is,
    the notification "Update Error: Failed to move task" is shown, and the
    board is reloaded all the same when one is selected; the only
    notification that can follow is the one of a failed reload. *)
Theorem rejected_drop_reports :
  forall (event : DragEvent) (now : timestamp) (w : World)
         (overId : jsstring) (t : Task.cached),
    over event = Some overId ->
    TaskManager.findTask (active event) (State.tasks (ui w)) = Some t ->
    hd false (outages w) = true ->
    let w' := exec (TaskManager.handleDragEnd event now) w in
    remote w' = remote w /\
    calls w' =
      calls w ++
      Store.tasks_update (active event)
        (Store.mkPatch None None None (Some (Task.columnId t)) None (Some now))
      :: match State.currentBoard (ui w) with
         | Some board => fetch_calls (Board.id board)
         | None => []
         end /\
    exists more,
      alerts w' = alerts w ++ update_error :: more /\
      (more = [] \/ more = [loading_error]).
Proof.
  intros event now w overId t Hover Hfind Hrej. unfold exec.
  rewrite (@handleDragEnd_drop event now w overId t Hover Hfind).
  destruct (reload_frame (after_drop_write event t now w))
    as (w' & E & Hr & Hc).
  rewrite E. cbn [snd]. rewrite Hr, Hc.
  cbn [after_drop_write remote calls ui State.currentBoard]. rewrite Hrej.
  split; [reflexivity|]. split; [rewrite <- app_assoc; reflexivity|].
  revert E. unfold TaskManager.reload, bind, gets.
  cbn [after_drop_write ui State.currentBoard].
  destruct (State.currentBoard (ui w)) as [board|].
  - match goal with
    | |- TaskManager.loadBoardData _ ?w2 = _ -> _ =>
        destruct (load_alerts (Board.id board) w2) as (w2' & more & E2 & Ha & Hm)
    end.
    rewrite E2. intros E. inversion E; subst w'. exists more.
    rewrite Ha. cbn [after_drop_write alerts]. rewrite Hrej, <- app_assoc.
    split; [reflexivity|exact Hm].
  - intros E. inversion E; subst w'. exists [].
    cbn [after_drop_write alerts]. rewrite Hrej.
    split; [reflexivity|left; reflexivity].
Qed.

End DragProperties.

(* ================================================================== *)
(** * The board and the list as views of the cache *)
(* ================================================================== *)

Module ViewProperties.
Import DragFacts.

Lemma list_sum_add {A} (f g : A -> nat) (l : list A) :
  list_sum (map (fun x => f x + g x)%nat l) =
  (list_sum (map f l) + list_sum (map g l))%nat.
Proof.
  unfold list_sum. induction l as [|x l IH]; cbn [map fold_right];
    [reflexivity|].
  rewrite IH. lia.
Qed.

Lemma list_sum_cons (n : nat) (l : list nat) :
  list_sum (n :: l) = (n + list_sum l)%nat.
Proof. reflexivity. Qed.

Lemma existsb_inColumn (task : Task.cached) (columns : list Column.t) :
  existsb (inColumn task) columns = true <->
  In (Task.columnId task) (map Column.id columns).
Proof.
  rewrite existsb_exists, in_map_iff. unfold inColumn. split.
  - intros (c & Hin & E). apply str_eqb_eq in E. exists c. split; congruence.
  - intros (c & E & Hin). exists c. split; [exact Hin|].
    apply str_eqb_eq. congruence.
Qed.

(** With distinct column ids, a task is in one column at most. *)
Lemma columns_of_task (task : Task.cached) (columns : list Column.t) :
  NoDup (map Column.id columns) ->
  list_sum (map (fun c => if inColumn task c then 1 else 0)%nat columns) =
  if existsb (inColumn task) columns then 1%nat else 0%nat.
Proof.
  induction columns as [|c columns IH]; cbn [map existsb]; [reflexivity|].
  intros Hnd. inversion Hnd as [|x xs Hnot Hrest]; subst.
  rewrite list_sum_cons, (IH Hrest).
  destruct (inColumn task c) eqn:Ec; cbn [orb]; [|reflexivity].
  destruct (existsb (inColumn task) columns) eqn:Ex; [|reflexivity].
  exfalso. apply Hnot. apply existsb_inColumn in Ex.
  unfold inColumn in Ec. apply str_eqb_eq in Ec. congruence.
Qed.

Lemma boardTotal_cons (columns : list Column.t) (task : Task.cached)
      (tasks : list Task.cached) :
  boardTotal columns (task :: tasks) =
  (list_sum (map (fun c => if inColumn task c then 1 else 0)%nat columns)
   + boardTotal columns tasks)%nat.
Proof.
  unfold boardTotal. rewrite <- list_sum_add. f_equal.
  apply map_ext. intros c.
  unfold KanbanBoard.columnTasks, inColumn. cbn [filter].
  destruct (str_eqb (Task.columnId task) (Column.id c)); reflexivity.
Qed.

Lemma boardTotal_nil (columns : list Column.t) : boardTotal columns [] = 0%nat.
Proof.
  unfold boardTotal. induction columns as [|c columns IH];
    cbn [map]; [reflexivity|].
  rewrite list_sum_cons, IH. reflexivity.
Qed.

Lemma boardTotal_count (columns : list Column.t) (tasks : list Task.cached) :
  NoDup (map Column.id columns) ->
  boardTotal columns tasks =
  length (filter (fun task => existsb (inColumn task) columns) tasks).
Proof.
  intros Hnd. induction tasks as [|task tasks IH].
  - apply boardTotal_nil.
  - rewrite boardTotal_cons, IH, (@columns_of_task task columns Hnd).
    cbn [filter].
    destruct (existsb (inColumn task) columns); reflexivity.
Qed.

Lemma boardTotal_valid (columns : list Column.t) (tasks : list Task.cached) :
  NoDup (map Column.id columns) ->
  columns_valid columns tasks ->
  boardTotal columns tasks = length tasks.
Proof.
  intros Hnd Hv. rewrite (@boardTotal_count columns tasks Hnd).
  f_equal. unfold columns_valid in Hv.
  induction Hv as [|task tasks Ht _ IH]; cbn [filter]; [reflexivity|].
  apply existsb_inColumn in Ht. rewrite Ht, IH. reflexivity.
Qed.

(** What the search shows is a selection of the cached tasks, in their
    order. *)
Lemma filteredTasks_shown (toLowerCase : jsstring -> jsstring)
      (searchQuery : jsstring) (tasks shown : list Task.cached) :
  TaskManager.filteredTasks toLowerCase searchQuery tasks = Some shown ->
  shown = filter (fun task =>
                    match TaskManager.matchesSearch toLowerCase searchQuery task
                    with Some true => true | _ => false end) tasks.
Proof.
  revert shown. induction tasks as [|task tasks IH]; intros shown H;
    cbn [TaskManager.filteredTasks filter] in *.
  - inversion H. reflexivity.
  - destruct (TaskManager.matchesSearch toLowerCase searchQuery task)
      as [keep|]; [|discriminate].
    destruct (TaskManager.filteredTasks toLowerCase searchQuery tasks)
      as [more|]; [|discriminate].
    inversion H; subst. rewrite <- (IH more eq_refl).
    destruct keep; reflexivity.
Qed.

Lemma filteredTasks_unfiltered (toLowerCase : jsstring -> jsstring)
      (searchQuery : jsstring) (tasks : list Task.cached) :
  toLowerCase searchQuery = [] ->
  TaskManager.filteredTasks toLowerCase searchQuery tasks = Some tasks.
Proof.
  intros Hq. induction tasks as [|task tasks IH]; [reflexivity|].
  cbn [TaskManager.filteredTasks]. unfold TaskManager.matchesSearch at 1.
  rewrite Hq.
  replace (str_includes (toLowerCase (Task.title task)) []) with true
    by (destruct (toLowerCase (Task.title task)); reflexivity).
  rewrite IH. reflexivity.
Qed.

(** X10.  The board is given the tasks the search shows.  When the cached
    columns have distinct ids and every cached task is in a cached
    column, the board shows each of these tasks once: the counts of its
    columns add up to the number of tasks the search shows.  That number
    is at most the number of cached tasks, and the tasks shown are the
    cached tasks when the query is empty. *)
Theorem board_shows_each_task_once :
  forall (toLowerCase : jsstring -> jsstring) (searchQuery : jsstring)
         (s : State.t) (shown : list Task.cached),
    NoDup (map Column.id (State.columns s)) ->
    columns_valid (State.columns s) (State.tasks s) ->
    TaskManager.filteredTasks toLowerCase searchQuery (State.tasks s)
      = Some shown ->
    boardTotal (State.columns s) shown = length shown /\
    (length shown <= length (State.tasks s))%nat /\
    (toLowerCase searchQuery = [] -> shown = State.tasks s).
Proof.
  intros toLowerCase searchQuery s shown Hnd Hv Hs.
  pose proof (@filteredTasks_shown toLowerCase searchQuery (State.tasks s)
                shown Hs) as E.
  split; [|split].
  - apply boardTotal_valid; [exact Hnd|].
    unfold columns_valid in *. rewrite E.
    apply Forall_forall. intros task Hin. apply filter_In in Hin.
    rewrite Forall_forall in Hv. apply Hv. tauto.
  - rewrite E. apply filter_length_le.
  - intros Hq. rewrite (@filteredTasks_unfiltered toLowerCase searchQuery
                       (State.tasks s) Hq) in Hs.
    inversion Hs. reflexivity.
Qed.

(** X11.  A task whose column is not in the cache is shown in no column of
    the board, and the list shows it with the status "Unknown" and the
    grey of a missing column. *)
Theorem orphan_task_views :
  forall (columns : list Column.t) (tasks : list Task.cached)
         (task : Task.cached),
    ~ In (Task.columnId task) (map Column.id columns) ->
    (forall column, In column columns ->
                    ~ In task (KanbanBoard.columnTasks column tasks)) /\
    ListView.getColumnName columns (Task.columnId task) = js "Unknown" /\
    ListView.getColumnColor columns (Task.columnId task) = js "#6b7280".
Proof.
  intros columns tasks task Hnot.
  assert (Hfind : find (fun col => str_eqb (Column.id col) (Task.columnId task))
                       columns = None).
  { destruct (find _ columns) as [c|] eqn:E; [|reflexivity].
    exfalso. apply find_some in E. destruct E as [Hin E].
    apply str_eqb_eq in E. apply Hnot. rewrite <- E. apply in_map. exact Hin. }
  split; [|split].
  - intros column Hin Ht. unfold KanbanBoard.columnTasks in Ht.
    apply filter_In in Ht. destruct Ht as [_ E]. apply str_eqb_eq in E.
    apply Hnot. rewrite E. apply in_map. exact Hin.
  - unfold ListView.getColumnName. rewrite Hfind. reflexivity.
  - unfold ListView.getColumnColor. rewrite Hfind. reflexivity.
Qed.

(** X12.  With distinct column ids and every task in a cached column, a
    sequence of hovers loses and duplicates no card: the counts of the
    columns add up to the same number before and after. *)
Theorem hover_keeps_board_total :
  forall (activeId : jsstring) (targets : list (option jsstring)) (w : World),
    NoDup (map Column.id (State.columns (ui w))) ->
    columns_valid (State.columns (ui w)) (State.tasks (ui w)) ->
    let w' := exec (TaskManager.hover activeId targets) w in
    boardTotal (State.columns (ui w')) (State.tasks (ui w')) =
    boardTotal (State.columns (ui w)) (State.tasks (ui w)).
Proof.
  intros activeId targets w Hnd Hv. unfold exec.
  destruct (DragProperties.hover_run activeId targets w) as (tasks & E & Hrel & Hval).
  rewrite E. cbn [snd retasked ui State.columns State.tasks].
  rewrite (@boardTotal_count _ tasks Hnd), (@boardTotal_count _ _ Hnd).
  specialize (Hval Hv). unfold columns_valid in *.
  assert (Hall : forall l : list Task.cached,
             Forall (fun task => In (Task.columnId task)
                                    (map Column.id (State.columns (ui w)))) l ->
             filter (fun task => existsb (inColumn task) (State.columns (ui w))) l
             = l).
  { intros l Hl. induction Hl as [|x l Hx _ IH]; cbn [filter]; [reflexivity|].
    apply existsb_inColumn in Hx. rewrite Hx, IH. reflexivity. }
  rewrite (Hall _ Hval), (Hall _ Hv).
  symmetry. eapply Forall2_length. exact Hrel.
Qed.

End ViewProperties.

(* ================================================================== *)
(** * More about the mutators *)
(* ================================================================== *)

Module MutatorFacts.
Import LoaderFacts DragFacts.

Lemma request_rejected {A} (c : Store.call) (run : Store.t -> A * Store.t)
      (w : World) :
  hd false (outages w) = true ->
  db.request c run w = (inl StoreError, issued c (remote w) w).
Proof. intros H. unfold db.request. rewrite H. reflexivity. Qed.

Lemma request_served {A} (c : Store.call) (run : Store.t -> A * Store.t)
      (w : World) :
  hd false (outages w) = false ->
  db.request c run w =
  (inr (fst (run (remote w))), issued c (snd (run (remote w))) w).
Proof.
  intros H. unfold db.request. rewrite H.
  destruct (run (remote w)) as [a s]. reflexivity.
Qed.

Lemma toast_destructive (title description : jsstring) (w : World) :
  truthy description = true ->
  toast (Toast.mk title (Some description) (Some destructive)) w =
  (inr tt,
   mkWorld (remote w) (outages w) (calls w)
     (console w ++ [(Error, title ++ js ": " ++ description, None)])
     (alerts w ++ [title ++ js ": " ++ description]) (ui w)).
Proof.
  intros H. unfold toast, Toast.message, bind, console_print, alert, modify.
  cbn [Toast.variant Toast.description Toast.title]. rewrite H. reflexivity.
Qed.

Lemma toast_default (title description : jsstring) (w : World) :
  truthy description = true ->
  toast (Toast.mk title (Some description) None) w =
  (inr tt, notified (title ++ js ": " ++ description) w).
Proof.
  intros H. unfold toast, Toast.message, bind, console_print, alert, modify.
  cbn [Toast.variant Toast.description Toast.title]. rewrite H. reflexivity.
Qed.

(** A catch block that prints the error and shows a destructive toast. *)
Lemma catch_reports (text title description : jsstring) (error : exn)
      (w : World) :
  truthy description = true ->
  (console_print Error text (Some error) ;;
   toast (Toast.mk title (Some description) (Some destructive))) w =
  (inr tt, reported text error (title ++ js ": " ++ description) w).
Proof.
  intros H. unfold bind at 1. unfold console_print at 1, modify at 1.
  rewrite toast_destructive by exact H.
  unfold reported. cbn [remote outages calls console alerts ui].
  rewrite <- app_assoc. reflexivity.
Qed.

(** The rows of a board in the store, and all its subtasks. *)
Lemma In_list_tasks (boardId : jsstring) (s : Store.t) (x : Task.row) :
  In x (Store.list_tasks (board_query boardId) s) <->
  In x (Store.tasks s) /\ Task.boardId x = boardId.
Proof.
  rewrite LoaderClaims.list_tasks_board, LoaderClaims.In_sort_asc, filter_In,
    str_eqb_eq.
  tauto.
Qed.

Lemma In_list_subtasks (s : Store.t) (x : Subtask.t) :
  In x (Store.list_subtasks all_query s) <-> In x (Store.subtasks s).
Proof.
  rewrite LoaderClaims.list_subtasks_all, LoaderClaims.In_sort_asc. tauto.
Qed.

Lemma decodable_rows (boardId : jsstring) (s s' : Store.t) :
  forallb decodable (Store.list_tasks (board_query boardId) s) = true ->
  (forall x, In x (Store.tasks s') -> Task.boardId x = boardId ->
             decodable x = true \/ In x (Store.tasks s)) ->
  forallb decodable (Store.list_tasks (board_query boardId) s') = true.
Proof.
  intros H Hsub. apply forallb_forall. intros x Hx.
  apply In_list_tasks in Hx. destruct Hx as [Hin Hb].
  destruct (Hsub x Hin Hb) as [Hd|Hold]; [exact Hd|].
  rewrite forallb_forall in H. apply H. apply In_list_tasks. tauto.
Qed.

Lemma reload_selected (board : Board.t) (w : World) :
  State.currentBoard (ui w) = Some board ->
  TaskManager.reload w = TaskManager.loadBoardData (Board.id board) w.
Proof.
  intros H. unfold TaskManager.reload, bind, gets. rewrite H. reflexivity.
Qed.

(** [createTask] past its guards. *)
Lemma createTask_run (title : jsstring) (columnId : option jsstring)
      (now : timestamp) (w : World) (user : User.t) (board : Board.t)
      (target : jsstring) :
  State.user (ui w) = Some user ->
  State.currentBoard (ui w) = Some board ->
  TaskManager.targetColumnId columnId (State.columns (ui w)) = Some target ->
  truthy target = true ->
  TaskManager.createTask title columnId now w =
  try_catch
    (db.tasks_create
       (newTask title target now user board (State.tasks (ui w))) ;;
     TaskManager.loadBoardData (Board.id board) ;;
     toast (Toast.mk (js "Task created")
              (Some (34 :: title ++ 34 :: js " has been added to your board"))
              None))
    (fun error =>
       console_print Error (js "Error creating task:") (Some error) ;;
       toast (Toast.mk (js "Creation Error")
                       (Some (js "Failed to create task"))
                       (Some destructive))) w.
Proof.
  intros Hu Hb Ht Htr.
  unfold TaskManager.createTask. unfold bind at 1, gets at 1.
  rewrite Hu. unfold bind at 1, gets at 1. rewrite Hb.
  unfold bind at 1, gets at 1. unfold bind at 1, gets at 1.
  rewrite Ht, Htr. reflexivity.
Qed.

Lemma uint_units_inj (d d' : Decimal.uint) :
  uint_units d = uint_units d' -> d = d'.
Proof.
  revert d'. induction d as [|d IH|d IH|d IH|d IH|d IH|d IH|d IH|d IH|d IH|d IH];
    intros [|d'|d'|d'|d'|d'|d'|d'|d'|d'|d'] H; cbn [uint_units] in H;
    try discriminate; try reflexivity;
    inversion H as [H']; f_equal; apply IH; exact H'.
Qed.

Lemma Number_toString_inj (n n' : N) :
  Number_toString n = Number_toString n' -> n = n'.
Proof.
  unfold Number_toString. intros H. apply uint_units_inj in H.
  apply DecimalN.Unsigned.to_uint_inj. exact H.
Qed.

End MutatorFacts.

Module MutatorProperties.
Import LoaderFacts DragFacts MutatorFacts.

(** X13.  [createTask] does nothing at all, and issues no call, when no
    user is signed in, when no board is selected, or when it is given no
    column and the cache has none (or only a first column with an empty
    id). *)
Theorem createTask_guards :
  forall (title : jsstring) (columnId : option jsstring) (now : timestamp)
         (w : World),
    State.user (ui w) = None \/
    State.currentBoard (ui w) = None \/
    TaskManager.targetColumnId columnId (State.columns (ui w)) = None \/
    TaskManager.targetColumnId columnId (State.columns (ui w)) = Some [] ->
    TaskManager.createTask title columnId now w = (inr tt, w).
Proof.
  intros title columnId now w H.
  unfold TaskManager.createTask. unfold bind at 1, gets at 1.
  unfold bind at 1, gets at 1.
  destruct (State.user (ui w)) as [user|];
    destruct (State.currentBoard (ui w)) as [board|]; try reflexivity.
  destruct H as [H|[H|H]]; try discriminate.
  unfold bind at 1, gets at 1. unfold bind at 1, gets at 1.
  destruct H as [H|H]; rewrite H; reflexivity.
Qed.

(** X14.  When the store rejects the creation of a task, the store and the
    whole state of the component are what they were, the creation is the
    only call issued (the board is not reloaded), and the notification
    "Creation Error: Failed to create task" is shown. *)
Theorem createTask_rejected :
  forall (title : jsstring) (columnId : option jsstring) (now : timestamp)
         (w : World) (user : User.t) (board : Board.t) (target : jsstring),
    State.user (ui w) = Some user ->
    State.currentBoard (ui w) = Some board ->
    TaskManager.targetColumnId columnId (State.columns (ui w)) = Some target ->
    truthy target = true ->
    hd false (outages w) = true ->
    let w' := exec (TaskManager.createTask title columnId now) w in
    remote w' = remote w /\
    ui w' = ui w /\
    calls w' =
      calls w ++
      [Store.tasks_create
         (newTask title target now user board (State.tasks (ui w)))] /\
    alerts w' = alerts w ++ [js "Creation Error: Failed to create task"].
Proof.
  intros title columnId now w user board target Hu Hb Ht Htr Hrej.
  assert (E : TaskManager.createTask title columnId now w =
              (inr tt,
               reported (js "Error creating task:") StoreError
                 (js "Creation Error" ++ js ": " ++ js "Failed to create task")
                 (issued (Store.tasks_create
                            (newTask title target now user board
                                     (State.tasks (ui w))))
                         (remote w) w))).
  { rewrite (createTask_run title columnId now w Hu Hb Ht Htr).
    unfold try_catch. unfold bind at 1. unfold db.tasks_create.
    rewrite request_rejected by exact Hrej.
    rewrite catch_reports by reflexivity. reflexivity. }
  unfold exec. rewrite E.
  cbv zeta. cbn [snd reported issued remote ui calls alerts].
  split; [reflexivity|]. split; [reflexivity|]. split; reflexivity.
Qed.

(** X15.  When the store accepts the creation of a task, the reload that
    follows goes through and the stored tasks of the board decode, the new
    task is in the cache: in the target column, with the number of tasks
    the cache had in that column as its position, with no tags and not
    completed; and the notification of the created task is shown. *)
Theorem createTask_shows_task :
  forall (title : jsstring) (columnId : option jsstring) (now : timestamp)
         (w : World) (user : User.t) (board : Board.t) (target : jsstring),
    State.user (ui w) = Some user ->
    State.currentBoard (ui w) = Some board ->
    TaskManager.targetColumnId columnId (State.columns (ui w)) = Some target ->
    truthy target = true ->
    hd false (outages w) = false ->
    fetch_rejected (tl (outages w)) = false ->
    forallb decodable
      (Store.list_tasks (board_query (Board.id board)) (remote w)) = true ->
    let w' := exec (TaskManager.createTask title columnId now) w in
    (exists task,
        In task (State.tasks (ui w')) /\
        Task.id task = js "task_" ++ Number_toString now /\
        Task.title task = title /\
        Task.columnId task = target /\
        Task.position task =
          Z.of_nat (length (filter
                      (fun t => str_eqb (Task.columnId t) target)
                      (State.tasks (ui w)))) /\
        Task.tags task = JArr [] /\
        Task.completed task = VBool false) /\
    Store.tasks (remote w') =
      Store.tasks (remote w) ++
      [newTask title target now user board (State.tasks (ui w))] /\
    alerts w' = alerts w ++ [task_created title].
Proof.
  intros title columnId now w user board target Hu Hb Ht Htr Hok Hfetch Hdec.
  set (record := newTask title target now user board (State.tasks (ui w))).
  set (w1 := issued (Store.tasks_create record)
                    (Store.create_task record (remote w)) w).
  assert (Hdec1 : forallb decodable
                    (Store.list_tasks (board_query (Board.id board)) (remote w1))
                  = true).
  { apply decodable_rows with (s := remote w); [exact Hdec|].
    intros x Hx _. cbn [w1 issued remote Store.create_task Store.tasks] in Hx.
    apply in_app_iff in Hx. destruct Hx as [Hx|[<-|[]]];
      [right; exact Hx|left; reflexivity]. }
  assert (E : TaskManager.createTask title columnId now w =
              (inr tt, notified (task_created title)
                         (reconciled (Board.id board) w1))).
  { rewrite (createTask_run title columnId now w Hu Hb Ht Htr).
    fold record.
    unfold try_catch. unfold bind at 1. unfold db.tasks_create.
    rewrite request_served by exact Hok. cbn [fst snd]. fold w1.
    unfold bind at 1.
    rewrite (loadBoardData_ok (Board.id board) w1 Hfetch Hdec1).
    rewrite toast_default by reflexivity. reflexivity. }
  unfold exec. rewrite E. cbv zeta.
  cbn [snd notified reconciled remote alerts ui State.tasks w1 issued
       Store.create_task Store.tasks].
  split; [|split; reflexivity].
  exists (decoded record). split.
  - apply in_map. apply In_list_tasks.
    cbn [Store.create_task Store.tasks]. split; [|reflexivity].
    apply in_app_iff. right. left. reflexivity.
  - repeat split.
Qed.

(** X16.  The ids the components make up from the clock.  The records
    [createTask] sends for two tasks have the same id exactly when they
    were made at the same instant, whatever else they hold, and so have
    the records [addSubtask] sends; the id of a task is never the id of a
    subtask; and the three columns of a new workspace have three ids,
    whatever the clock read. *)
Theorem generated_ids :
  forall (now now' : timestamp) (title title' target target' : jsstring)
         (user user' : User.t) (board board' : Board.t)
         (tasks tasks' : list Task.cached)
         (props props' : TaskDetailDrawer.Props)
         (l l' : TaskDetailDrawer.Local)
         (clock : Workspace.Clock) (boardId : jsstring),
    (Task.id (newTask title target now user board tasks)
     = Task.id (newTask title' target' now' user' board' tasks')
     <-> now = now') /\
    (Subtask.id (newSubtask props l now)
     = Subtask.id (newSubtask props' l' now') <-> now = now') /\
    Task.id (newTask title target now user board tasks)
      <> Subtask.id (newSubtask props l now') /\
    NoDup (map Column.id (Workspace.defaultColumns clock boardId)).
Proof.
  intros now now' title title' target target' user user' board board'
         tasks tasks' props props' l l' clock boardId.
  cbn [newTask newSubtask Task.id Subtask.id].
  split; [|split; [|split]].
  - split; [|intros ->; reflexivity].
    intros H. apply app_inv_head in H. apply Number_toString_inj. exact H.
  - split; [|intros ->; reflexivity].
    intros H. apply app_inv_head in H. apply Number_toString_inj. exact H.
  - cbn. discriminate.
  - cbn [Workspace.defaultColumns map Column.id].
    assert (Hne : forall (x y : jsstring) (a b : N),
               a <> b ->
               js "col_" ++ x ++ [95; a] <> js "col_" ++ y ++ [95; b]).
    { intros x y a b Hab H. apply app_inv_head in H.
      change [95; a] with ([95] ++ [a]) in H.
      change [95; b] with ([95] ++ [b]) in H.
      rewrite !app_assoc in H. apply app_inj_tail in H.
      destruct H as [_ H]. contradiction. }
    change (js "_1") with [95; 49]. change (js "_2") with [95; 50].
    change (js "_3") with [95; 51].
    constructor; [|constructor; [|constructor; [|constructor]]]; cbn [In].
    + intros [H|[H|[]]]; revert H; apply Hne; discriminate.
    + intros [H|[]]; revert H; apply Hne; discriminate.
    + intros [].
Qed.

End MutatorProperties.

(* ================================================================== *)
(** * More about the drawer *)
(* ================================================================== *)

Module DrawerFacts.
Import LoaderFacts DragFacts MutatorFacts.

(** A write that is served, and the reload of the selected board that
    follows it and goes through. *)
Lemma served_then_reloaded {A} (c : Store.call)
      (run : Store.t -> A * Store.t) (w : World) (board : Board.t) :
  hd false (outages w) = false ->
  State.currentBoard (ui w) = Some board ->
  fetch_rejected (tl (outages w)) = false ->
  forallb decodable
    (Store.list_tasks (board_query (Board.id board))
                      (snd (run (remote w)))) = true ->
  (db.request c run ;; TaskManager.reload) w =
  (inr tt, reconciled (Board.id board) (issued c (snd (run (remote w))) w)).
Proof.
  intros Hok Hb Hfetch Hdec. unfold bind.
  rewrite request_served by exact Hok.
  rewrite (@reload_selected board) by exact Hb.
  apply loadBoardData_ok; assumption.
Qed.

Lemma bind_assoc {A B C} (m : M A) (k : A -> M B) (k' : B -> M C) (w : World) :
  bind (bind m k) k' w = bind m (fun a => bind (k a) k') w.
Proof.
  unfold bind. destruct (m w) as [[e|a] w1]; reflexivity.
Qed.

Lemma tags_value_stringify (tags : list jsstring) :
  tags_value (Some (JSON.stringify tags)) = Some (JArr (map JStr tags)).
Proof.
  unfold tags_value. rewrite JSONFacts.parse_stringify. reflexivity.
Qed.

Lemma length_insert_asc {A} (position : A -> Z) (x : A) (l : list A) :
  length (Store.insert_asc position x l) = S (length l).
Proof.
  induction l as [|y l IH]; cbn [Store.insert_asc length]; [reflexivity|].
  destruct (position x <=? position y)%Z; cbn [length]; [reflexivity|].
  rewrite IH. reflexivity.
Qed.

Lemma length_sort_asc {A} (position : A -> Z) (l : list A) :
  length (Store.sort_asc position l) = length l.
Proof.
  induction l as [|x l IH]; cbn [Store.sort_asc length]; [reflexivity|].
  rewrite length_insert_asc, IH. reflexivity.
Qed.

End DrawerFacts.

Module DrawerProperties.
Import LoaderFacts DragFacts MutatorFacts DrawerFacts.

(** X17.  When the store rejects the write of a handler of the drawer,
    whatever the drawer was given: the write is the only call issued (the
    board is not reloaded), the store and the state of the component are
    what they were, one notification of the failure is shown, and the
    drawer keeps its fields, so that [handleSave] stays in edit mode and
    [addSubtask] keeps the title typed. *)
Theorem drawer_write_rejected :
  forall (props : TaskDetailDrawer.Props) (l : TaskDetailDrawer.Local)
         (now : timestamp) (subtaskId : jsstring) (checked : bool)
         (onClose : M unit) (w : World),
    hd false (outages w) = true ->
    (fst (TaskDetailDrawer.handleSave props l now w) = inr l /\
     only_reports
       (Store.tasks_update (Task.id (TaskDetailDrawer.task props))
                           (save_patch l now))
       (js "Update failed: Failed to save changes")
       w (exec (TaskDetailDrawer.handleSave props l now) w)) /\
    only_reports
      (Store.subtasks_update subtaskId (toggled checked))
      (js "Update failed: Failed to update subtask")
      w (exec (TaskDetailDrawer.toggleSubtask props subtaskId checked) w) /\
    (truthy (trim (TaskDetailDrawer.newSubtaskTitle l)) = true ->
     fst (TaskDetailDrawer.addSubtask props l now w) = inr l /\
     only_reports
       (Store.subtasks_create (newSubtask props l now))
       (js "Creation failed: Failed to create subtask")
       w (exec (TaskDetailDrawer.addSubtask props l now) w)) /\
    only_reports
      (Store.subtasks_delete subtaskId)
      (js "Delete failed: Failed to delete subtask")
      w (exec (TaskDetailDrawer.deleteSubtask props subtaskId) w) /\
    only_reports
      (Store.tasks_delete (Task.id (TaskDetailDrawer.task props)))
      (js "Delete failed: Failed to delete task")
      w (exec (TaskDetailDrawer.handleDelete props onClose true) w).
Proof.
  intros props l now subtaskId checked onClose w Hrej.
  assert (Hsave :
            TaskDetailDrawer.handleSave props l now w =
            (inr l,
             reported (js "Error updating task:") StoreError
               (js "Update failed" ++ js ": " ++ js "Failed to save changes")
               (issued (Store.tasks_update
                          (Task.id (TaskDetailDrawer.task props))
                          (save_patch l now)) (remote w) w))).
  { unfold TaskDetailDrawer.handleSave, try_catch. unfold bind at 1.
    unfold db.tasks_update. rewrite request_rejected by exact Hrej.
    rewrite <- bind_assoc. unfold bind at 1.
    rewrite catch_reports by reflexivity. reflexivity. }
  assert (Htoggle :
            TaskDetailDrawer.toggleSubtask props subtaskId checked w =
            (inr tt,
             reported (js "Error updating subtask:") StoreError
               (js "Update failed" ++ js ": " ++ js "Failed to update subtask")
               (issued (Store.subtasks_update subtaskId (toggled checked))
                       (remote w) w))).
  { unfold TaskDetailDrawer.toggleSubtask, try_catch. unfold bind at 1.
    unfold db.subtasks_update. rewrite request_rejected by exact Hrej.
    rewrite catch_reports by reflexivity. reflexivity. }
  assert (Hadd :
            truthy (trim (TaskDetailDrawer.newSubtaskTitle l)) = true ->
            TaskDetailDrawer.addSubtask props l now w =
            (inr l,
             reported (js "Error creating subtask:") StoreError
               (js "Creation failed" ++ js ": " ++ js "Failed to create subtask")
               (issued (Store.subtasks_create (newSubtask props l now))
                       (remote w) w))).
  { intros Htr. unfold TaskDetailDrawer.addSubtask. rewrite Htr. cbn [negb].
    unfold try_catch. unfold bind at 1.
    unfold db.subtasks_create. rewrite request_rejected by exact Hrej.
    rewrite <- bind_assoc. unfold bind at 1.
    rewrite catch_reports by reflexivity. reflexivity. }
  assert (Hdel :
            TaskDetailDrawer.deleteSubtask props subtaskId w =
            (inr tt,
             reported (js "Error deleting subtask:") StoreError
               (js "Delete failed" ++ js ": " ++ js "Failed to delete subtask")
               (issued (Store.subtasks_delete subtaskId) (remote w) w))).
  { unfold TaskDetailDrawer.deleteSubtask, try_catch. unfold bind at 1.
    unfold db.subtasks_delete. rewrite request_rejected by exact Hrej.
    rewrite catch_reports by reflexivity. reflexivity. }
  assert (Hdelete :
            TaskDetailDrawer.handleDelete props onClose true w =
            (inr tt,
             reported (js "Error deleting task:") StoreError
               (js "Delete failed" ++ js ": " ++ js "Failed to delete task")
               (issued (Store.tasks_delete
                          (Task.id (TaskDetailDrawer.task props)))
                       (remote w) w))).
  { unfold TaskDetailDrawer.handleDelete, try_catch. cbn [negb].
    unfold bind at 1.
    unfold db.tasks_delete. rewrite request_rejected by exact Hrej.
    rewrite catch_reports by reflexivity. reflexivity. }
  unfold exec, only_reports.
  rewrite Hsave, Htoggle, Hdel, Hdelete. cbn [fst snd].
  split; [repeat split|]. split; [repeat split|].
  split; [|split; repeat split].
  intros Htr. rewrite (Hadd Htr). cbn [fst snd]. repeat split.
Qed.

(** The drawer the component renders: its task is the selected one, its
    subtasks are those of that task, and its [onUpdate] reloads. *)
Lemma rendered (s : State.t) (props : TaskDetailDrawer.Props) :
  renderDrawer s = Some props ->
  State.selectedTask s = Some (TaskDetailDrawer.task props) /\
  TaskDetailDrawer.subtasks props =
    TaskManager.drawerSubtasks (TaskDetailDrawer.task props) (State.subtasks s) /\
  TaskDetailDrawer.onUpdate props = TaskManager.reload.
Proof.
  unfold renderDrawer. destruct (State.selectedTask s) as [t|]; [|discriminate].
  intros H. inversion H; subst. repeat split.
Qed.

(** X18.  When the store accepts the save of the drawer and the reload
    that follows goes through: the drawer leaves edit mode; every cached
    task with the id of the saved one has the title, the description (none
    when the field is empty), the due date and the tags of the drawer, and
    the time of the save as its time of update; every other cached task is
    a stored task as it was; the task the drawer displays is still the one
    selected before the save; and "Task updated" is shown. *)
Theorem handleSave_shows_changes :
  forall (w : World) (props : TaskDetailDrawer.Props)
         (l : TaskDetailDrawer.Local) (now : timestamp) (board : Board.t),
    renderDrawer (ui w) = Some props ->
    State.currentBoard (ui w) = Some board ->
    hd false (outages w) = false ->
    fetch_rejected (tl (outages w)) = false ->
    forallb decodable
      (Store.list_tasks (board_query (Board.id board)) (remote w)) = true ->
    fst (TaskDetailDrawer.handleSave props l now w)
      = inr (TaskDetailDrawer.setIsEditing false l) /\
    let w' := exec (TaskDetailDrawer.handleSave props l now) w in
    (forall t, In t (State.tasks (ui w')) ->
               Task.id t = Task.id (TaskDetailDrawer.task props) ->
               Task.title t = TaskDetailDrawer.title l /\
               Task.description t =
                 (if truthy (TaskDetailDrawer.description l)
                  then Some (TaskDetailDrawer.description l) else None) /\
               Task.dueDate t = TaskDetailDrawer.dueDate l /\
               Task.tags t = JArr (map JStr (TaskDetailDrawer.tags l)) /\
               Task.updatedAt t = Some now) /\
    (forall t, In t (State.tasks (ui w')) ->
               Task.id t <> Task.id (TaskDetailDrawer.task props) ->
               exists row, In row (Store.tasks (remote w)) /\ t = decoded row) /\
    State.selectedTask (ui w') = Some (TaskDetailDrawer.task props) /\
    alerts w' = alerts w ++ [js "Task updated: Your changes have been saved"].
Proof.
  intros w props l now board Hr Hb Hok Hfetch Hdec.
  destruct (rendered _ Hr) as (Hsel & _ & Hup).
  set (id := Task.id (TaskDetailDrawer.task props)).
  set (c := Store.tasks_update id (save_patch l now)).
  set (s1 := Store.update_task id (save_patch l now) (remote w)).
  assert (Hrows : forall x, In x (Store.tasks s1) ->
                    exists x0, In x0 (Store.tasks (remote w)) /\
                      x = if str_eqb (Task.id x0) id
                          then Store.patch_task (save_patch l now) x0 else x0).
  { intros x Hx. cbn [s1 Store.update_task Store.tasks] in Hx.
    apply in_map_iff in Hx. destruct Hx as (x0 & E & Hin).
    exists x0. split; [exact Hin|]. symmetry. exact E. }
  assert (Hdec1 : forallb decodable
                    (Store.list_tasks (board_query (Board.id board)) s1) = true).
  { apply decodable_rows with (s := remote w); [exact Hdec|].
    intros x Hx _. destruct (Hrows x Hx) as (x0 & Hin & ->).
    destruct (str_eqb (Task.id x0) id); [left|right; exact Hin].
    unfold decodable, malformed.
    cbn [Store.patch_task Task.tags save_patch Store.p_tags].
    rewrite tags_value_stringify. reflexivity. }
  assert (E : TaskDetailDrawer.handleSave props l now w =
              (inr (TaskDetailDrawer.setIsEditing false l),
               notified (js "Task updated" ++ js ": "
                         ++ js "Your changes have been saved")
                 (reconciled (Board.id board) (issued c s1 w)))).
  { unfold TaskDetailDrawer.handleSave, try_catch. rewrite Hup.
    rewrite <- bind_assoc. unfold bind at 1. unfold db.tasks_update.
    pose proof (@served_then_reloaded unit c
               (fun s => (tt, Store.update_task id (save_patch l now) s))
               w board Hok Hb Hfetch Hdec1) as R.
    unfold c, id, save_patch in R. rewrite R.
    unfold bind at 1. rewrite toast_default by reflexivity. reflexivity. }
  unfold exec. rewrite E. cbn [fst snd]. split; [reflexivity|]. cbv zeta.
  cbn [notified reconciled issued remote alerts ui State.tasks
       State.selectedTask].
  split; [|split; [|split; [exact Hsel|reflexivity]]].
  - intros t Ht Hid. apply in_map_iff in Ht. destruct Ht as (row & <- & Hrow).
    apply In_list_tasks in Hrow. destruct Hrow as [Hrow _].
    destruct (Hrows row Hrow) as (x0 & _ & ->).
    destruct (str_eqb (Task.id x0) id) eqn:Ex.
    + unfold decoded.
      cbn [Store.patch_task Task.tags Task.title Task.description
           Task.dueDate Task.updatedAt Task.with_tags save_patch
           Store.p_tags Store.p_title Store.p_description Store.p_dueDate
           Store.p_updatedAt Store.or_keep].
      rewrite tags_value_stringify. repeat split.
    + exfalso. apply str_eqb_neq in Ex. apply Ex. exact Hid.
  - intros t Ht Hid. apply in_map_iff in Ht. destruct Ht as (row & <- & Hrow).
    apply In_list_tasks in Hrow. destruct Hrow as [Hrow _].
    destruct (Hrows row Hrow) as (x0 & Hin & ->).
    destruct (str_eqb (Task.id x0) id) eqn:Ex.
    + exfalso. apply Hid. apply str_eqb_eq in Ex. exact Ex.
    + exists x0. split; [exact Hin|reflexivity].
Qed.

(** X19.  When the store accepts the toggle of a subtask and the reload
    that follows goes through, the cached subtasks are the stored ones,
    those with the id of the toggled subtask with the value written; so
    every reader takes a cached subtask with that id as completed exactly
    when the box was checked. *)
Theorem toggleSubtask_shows :
  forall (w : World) (props : TaskDetailDrawer.Props)
         (subtaskId : jsstring) (checked : bool) (board : Board.t),
    renderDrawer (ui w) = Some props ->
    State.currentBoard (ui w) = Some board ->
    hd false (outages w) = false ->
    fetch_rejected (tl (outages w)) = false ->
    forallb decodable
      (Store.list_tasks (board_query (Board.id board)) (remote w)) = true ->
    let w' := exec (TaskDetailDrawer.toggleSubtask props subtaskId checked) w in
    (forall st, In st (State.subtasks (ui w')) <->
                exists old, In old (Store.subtasks (remote w)) /\
                  st = if str_eqb (Subtask.id old) subtaskId
                       then Subtask.with_completed (toggled checked) old
                       else old) /\
    (forall st, In st (State.subtasks (ui w')) ->
                Subtask.id st = subtaskId -> isCompleted st = checked) /\
    alerts w' = alerts w.
Proof.
  intros w props subtaskId checked board Hr Hb Hok Hfetch Hdec.
  destruct (rendered _ Hr) as (_ & _ & Hup).
  set (c := Store.subtasks_update subtaskId (toggled checked)).
  set (s1 := Store.update_subtask subtaskId (toggled checked) (remote w)).
  assert (E : TaskDetailDrawer.toggleSubtask props subtaskId checked w =
              (inr tt, reconciled (Board.id board) (issued c s1 w))).
  { unfold TaskDetailDrawer.toggleSubtask, try_catch. rewrite Hup.
    unfold db.subtasks_update.
    pose proof (@served_then_reloaded unit c
               (fun s => (tt, Store.update_subtask subtaskId (toggled checked) s))
               w board Hok Hb Hfetch Hdec) as R.
    unfold c, toggled in R. rewrite R. reflexivity. }
  unfold exec. rewrite E. cbv zeta.
  cbn [snd reconciled issued remote alerts ui State.subtasks].
  assert (Hall : forall st,
             In st (Store.list_subtasks all_query s1) <->
             exists old, In old (Store.subtasks (remote w)) /\
               st = if str_eqb (Subtask.id old) subtaskId
                    then Subtask.with_completed (toggled checked) old
                    else old).
  { intros st. rewrite In_list_subtasks.
    cbn [s1 Store.update_subtask Store.subtasks]. rewrite in_map_iff.
    split; intros (old & H1 & H2); exists old; split; auto. }
  split; [exact Hall|]. split; [|reflexivity].
  intros st Hin Hid. apply Hall in Hin. destruct Hin as (old & _ & ->).
  destruct (str_eqb (Subtask.id old) subtaskId) eqn:Ex.
  - destruct checked; reflexivity.
  - exfalso. apply str_eqb_neq in Ex. apply Ex. exact Hid.
Qed.

(** X20.  When the store accepts the deletion of a subtask and the reload
    that follows goes through, the cached subtasks are the stored subtasks
    with another id, and "Subtask deleted" is shown. *)
Theorem deleteSubtask_removes :
  forall (w : World) (props : TaskDetailDrawer.Props)
         (subtaskId : jsstring) (board : Board.t),
    renderDrawer (ui w) = Some props ->
    State.currentBoard (ui w) = Some board ->
    hd false (outages w) = false ->
    fetch_rejected (tl (outages w)) = false ->
    forallb decodable
      (Store.list_tasks (board_query (Board.id board)) (remote w)) = true ->
    let w' := exec (TaskDetailDrawer.deleteSubtask props subtaskId) w in
    (forall st, In st (State.subtasks (ui w')) <->
                In st (Store.subtasks (remote w)) /\
                Subtask.id st <> subtaskId) /\
    alerts w' = alerts w ++ [js "Subtask deleted: Subtask has been removed"].
Proof.
  intros w props subtaskId board Hr Hb Hok Hfetch Hdec.
  destruct (rendered _ Hr) as (_ & _ & Hup).
  set (c := Store.subtasks_delete subtaskId).
  set (s1 := Store.delete_subtask subtaskId (remote w)).
  assert (E : TaskDetailDrawer.deleteSubtask props subtaskId w =
              (inr tt,
               notified (js "Subtask deleted" ++ js ": "
                         ++ js "Subtask has been removed")
                 (reconciled (Board.id board) (issued c s1 w)))).
  { unfold TaskDetailDrawer.deleteSubtask, try_catch. rewrite Hup.
    rewrite <- bind_assoc. unfold bind at 1. unfold db.subtasks_delete.
    pose proof (@served_then_reloaded unit c
               (fun s => (tt, Store.delete_subtask subtaskId s))
               w board Hok Hb Hfetch Hdec) as R.
    unfold c in R. rewrite R.
    rewrite toast_default by reflexivity. reflexivity. }
  unfold exec. rewrite E. cbv zeta.
  cbn [snd notified reconciled issued remote alerts ui State.subtasks].
  split; [|reflexivity].
  intros st. rewrite In_list_subtasks.
  cbn [s1 Store.delete_subtask Store.subtasks].
  rewrite filter_In, negb_true_iff, str_eqb_neq. tauto.
Qed.

(** X21.  When the store accepts a new subtask and the reload that follows
    goes through, the subtask is in the cache, not completed, under the
    task of the drawer, with the trimmed title and with the number of
    subtasks the drawer had as its position, and the drawer's input is
    emptied. *)
Theorem addSubtask_shows :
  forall (w : World) (props : TaskDetailDrawer.Props)
         (l : TaskDetailDrawer.Local) (now : timestamp) (board : Board.t),
    renderDrawer (ui w) = Some props ->
    State.currentBoard (ui w) = Some board ->
    truthy (trim (TaskDetailDrawer.newSubtaskTitle l)) = true ->
    hd false (outages w) = false ->
    fetch_rejected (tl (outages w)) = false ->
    forallb decodable
      (Store.list_tasks (board_query (Board.id board)) (remote w)) = true ->
    fst (TaskDetailDrawer.addSubtask props l now w)
      = inr (TaskDetailDrawer.setNewSubtaskTitle [] l) /\
    let w' := exec (TaskDetailDrawer.addSubtask props l now) w in
    In (Subtask.mk (js "subtask_" ++ Number_toString now)
          (trim (TaskDetailDrawer.newSubtaskTitle l))
          (Task.id (TaskDetailDrawer.task props)) (VBool false)
          (Z.of_nat (length (TaskDetailDrawer.subtasks props))))
       (State.subtasks (ui w')) /\
    length (State.subtasks (ui w')) = S (length (Store.subtasks (remote w))) /\
    alerts w' = alerts w ++ [js "Subtask added: New subtask has been created"].
Proof.
  intros w props l now board Hr Hb Htr Hok Hfetch Hdec.
  destruct (rendered _ Hr) as (_ & _ & Hup).
  set (c := Store.subtasks_create (newSubtask props l now)).
  set (s1 := Store.create_subtask (newSubtask props l now) (remote w)).
  assert (E : TaskDetailDrawer.addSubtask props l now w =
              (inr (TaskDetailDrawer.setNewSubtaskTitle [] l),
               notified (js "Subtask added" ++ js ": "
                         ++ js "New subtask has been created")
                 (reconciled (Board.id board) (issued c s1 w)))).
  { unfold TaskDetailDrawer.addSubtask. rewrite Htr. cbn [negb].
    unfold try_catch. rewrite Hup.
    rewrite <- bind_assoc. unfold bind at 1. unfold db.subtasks_create.
    pose proof (@served_then_reloaded unit c
               (fun s => (tt, Store.create_subtask (newSubtask props l now) s))
               w board Hok Hb Hfetch Hdec) as R.
    unfold c, newSubtask in R. rewrite R.
    unfold bind at 1. rewrite toast_default by reflexivity. reflexivity. }
  unfold exec. rewrite E. cbn [fst snd]. split; [reflexivity|]. cbv zeta.
  cbn [notified reconciled issued remote alerts ui State.subtasks].
  split; [|split; [|reflexivity]].
  - apply In_list_subtasks. cbn [s1 Store.create_subtask Store.subtasks].
    apply in_app_iff. right. left. reflexivity.
  - rewrite LoaderClaims.list_subtasks_all.
    cbn [s1 Store.create_subtask Store.subtasks].
    rewrite length_sort_asc, length_app. cbn [length]. lia.
Qed.

(** X22.  Deleting the task of the drawer.  When the dialog is cancelled
    nothing happens.  When it is confirmed, the store accepts the deletion
    and the reload that follows goes through: the deletion of the task is
    the only write, so the subtasks of the task stay in the store and in
    the cache; the cached tasks are the stored tasks of the board with
    another id; the drawer is closed; and "Task deleted" is shown. *)
Theorem handleDelete_removes :
  forall (w : World) (props : TaskDetailDrawer.Props) (board : Board.t),
    renderDrawer (ui w) = Some props ->
    State.currentBoard (ui w) = Some board ->
    hd false (outages w) = false ->
    fetch_rejected (tl (outages w)) = false ->
    forallb decodable
      (Store.list_tasks (board_query (Board.id board)) (remote w)) = true ->
    TaskDetailDrawer.handleDelete props TaskManager.closeDrawer false w
      = (inr tt, w) /\
    let w' := exec (TaskDetailDrawer.handleDelete props
                      TaskManager.closeDrawer true) w in
    calls w' = calls w
               ++ Store.tasks_delete (Task.id (TaskDetailDrawer.task props))
                  :: fetch_calls (Board.id board) /\
    (forall t, In t (State.tasks (ui w')) <->
               exists row, In row (Store.tasks (remote w)) /\
                           Task.boardId row = Board.id board /\
                           Task.id row <> Task.id (TaskDetailDrawer.task props) /\
                           t = decoded row) /\
    (forall st, In st (State.subtasks (ui w')) <->
                In st (Store.subtasks (remote w))) /\
    Store.subtasks (remote w') = Store.subtasks (remote w) /\
    renderDrawer (ui w') = None /\
    alerts w' = alerts w ++ [js "Task deleted: The task has been removed"].
Proof.
  intros w props board Hr Hb Hok Hfetch Hdec.
  destruct (rendered _ Hr) as (_ & _ & Hup).
  set (id := Task.id (TaskDetailDrawer.task props)).
  set (c := Store.tasks_delete id).
  set (s1 := Store.delete_task id (remote w)).
  assert (Hdec1 : forallb decodable
                    (Store.list_tasks (board_query (Board.id board)) s1) = true).
  { apply decodable_rows with (s := remote w); [exact Hdec|].
    intros x Hx _. right. cbn [s1 Store.delete_task Store.tasks] in Hx.
    apply filter_In in Hx. tauto. }
  assert (E : TaskDetailDrawer.handleDelete props TaskManager.closeDrawer true w =
              (inr tt,
               notified (js "Task deleted" ++ js ": "
                         ++ js "The task has been removed")
                 (exec TaskManager.closeDrawer
                    (reconciled (Board.id board) (issued c s1 w))))).
  { unfold TaskDetailDrawer.handleDelete. cbn [negb].
    unfold try_catch. rewrite Hup.
    rewrite <- bind_assoc. unfold bind at 1. unfold db.tasks_delete.
    pose proof (@served_then_reloaded unit c
               (fun s => (tt, Store.delete_task id s))
               w board Hok Hb Hfetch Hdec1) as R.
    unfold c, id in R. rewrite R.
    unfold bind at 1. unfold TaskManager.closeDrawer at 1.
    unfold TaskManager.setSelectedTask at 1. unfold modify at 1.
    rewrite toast_default by reflexivity. reflexivity. }
  split; [reflexivity|].
  unfold exec at 1. rewrite E. cbv zeta.
  cbn [snd notified exec TaskManager.closeDrawer TaskManager.setSelectedTask
       modify with_ui reconciled issued remote alerts calls ui State.tasks
       State.subtasks State.selectedTask Store.subtasks s1 Store.delete_task].
  split; [rewrite <- app_assoc; reflexivity|].
  split; [|split; [|split; [reflexivity|split; reflexivity]]].
  - intros t. rewrite in_map_iff. split.
    + intros (row & <- & Hrow). apply In_list_tasks in Hrow.
      destruct Hrow as [Hrow Hbd].
      cbn [Store.tasks] in Hrow. apply filter_In in Hrow.
      destruct Hrow as [Hin Hne]. apply negb_true_iff, str_eqb_neq in Hne.
      exists row. auto.
    + intros (row & Hin & Hbd & Hne & ->). exists row. split; [reflexivity|].
      apply In_list_tasks. split; [|exact Hbd].
      cbn [Store.tasks]. apply filter_In. split; [exact Hin|].
      apply negb_true_iff, str_eqb_neq. exact Hne.
  - intros st. rewrite In_list_subtasks. cbn [Store.subtasks]. tauto.
Qed.

End DrawerProperties.

(* ================================================================== *)
(** * The tag editors and the quick-add form *)
(* ================================================================== *)

Module FormFacts.

Lemma some_In (tags : list jsstring) (tag : jsstring) :
  existsb (fun t => str_eqb t tag) tags = true <-> In tag tags.
Proof.
  rewrite existsb_exists. split.
  - intros (t & Hin & E). apply str_eqb_eq in E. subst. exact Hin.
  - intros Hin. exists tag. split; [exact Hin|apply str_eqb_refl].
Qed.

Lemma NoDup_add (tags : list jsstring) (tag : jsstring) :
  NoDup tags -> ~ In tag tags -> NoDup (tags ++ [tag]).
Proof.
  induction tags as [|y l IH]; intros Hnd Hnot.
  - constructor; [intros []|constructor].
  - cbn [app]. inversion Hnd as [|z zs Hy Hl]; subst. constructor.
    + rewrite in_app_iff. intros [Hin|[E|[]]]; [contradiction|].
      apply Hnot. left. symmetry. exact E.
    + apply IH; [exact Hl|]. intros Hin. apply Hnot. right. exact Hin.
Qed.

(** [tags.includes(tag) ? tags : [...tags, tag]] for a truthy tag. *)
Lemma added (tags : list jsstring) (input : jsstring) :
  NoDup tags ->
  let tags' := if truthy input && negb (existsb (fun t => str_eqb t input) tags)
               then tags ++ [input] else tags in
  NoDup tags' /\
  (forall tag, In tag tags' <->
               In tag tags \/ (tag = input /\ truthy input = true)).
Proof.
  intros Hnd. cbv zeta.
  destruct (truthy input) eqn:Ht; cbn [andb].
  - destruct (existsb (fun t => str_eqb t input) tags) eqn:Hi; cbn [negb].
    + split; [exact Hnd|]. apply some_In in Hi. intros tag. split; [auto|].
      intros [H|[-> _]]; assumption.
    + split.
      * apply NoDup_add; [exact Hnd|]. intros Hin. apply some_In in Hin.
        congruence.
      * intros tag. rewrite in_app_iff. cbn [In]. split.
        -- intros [H|[<-|[]]]; auto.
        -- intros [H|[-> _]]; auto.
  - split; [exact Hnd|]. intros tag. split; [auto|].
    intros [H|[_ H]]; [exact H|discriminate].
Qed.

(** [tags.filter(tag => tag !== tagToRemove)] *)
Lemma removed (tags : list jsstring) (tagToRemove : jsstring) :
  NoDup tags ->
  let tags' := filter (fun tag => negb (str_eqb tag tagToRemove)) tags in
  NoDup tags' /\
  (forall tag, In tag tags' <-> In tag tags /\ tag <> tagToRemove).
Proof.
  intros Hnd. cbv zeta. split; [apply NoDup_filter; exact Hnd|].
  intros tag. rewrite filter_In, negb_true_iff, str_eqb_neq. tauto.
Qed.

(** Removing a tag that was not there, after adding it, gives the list
    back. *)
Lemma removed_added (tags : list jsstring) (tag : jsstring) :
  ~ In tag tags ->
  filter (fun t => negb (str_eqb t tag)) (tags ++ [tag]) = tags.
Proof.
  intros Hnot. rewrite filter_app. cbn [filter]. rewrite str_eqb_refl.
  cbn [negb]. rewrite app_nil_r.
  induction tags as [|t tags IH]; [reflexivity|].
  cbn [filter]. destruct (str_eqb t tag) eqn:E.
  - exfalso. apply Hnot. left. apply str_eqb_eq. exact E.
  - cbn [negb]. f_equal. apply IH. intros H. apply Hnot. right. exact H.
Qed.

(** A call found at an index is found there in every extension. *)
Lemma nth_error_extended {A} (l more : list A) (n : nat) (x : A) :
  nth_error l n = Some x -> nth_error (l ++ more) n = Some x.
Proof.
  intros H. rewrite nth_error_app1; [exact H|].
  apply nth_error_Some. congruence.
Qed.

End FormFacts.

Module FormProperties.
Import FormFacts.

(** X23.  The tags of the drawer and of the quick-add form are kept as
    sets.  From a list without duplicates, [addTag] gives a list without
    duplicates that holds the tags it had and the trimmed input when that
    is not empty; [removeTag] gives a list without duplicates that holds
    the tags it had except the one removed; and removing a tag just added,
    that was not there before, gives the list back. *)
Theorem tag_editing :
  forall (l : TaskDetailDrawer.Local) (q : QuickAddTask.Local)
         (tagToRemove : jsstring),
    NoDup (TaskDetailDrawer.tags l) ->
    NoDup (QuickAddTask.tags q) ->
    (NoDup (TaskDetailDrawer.tags (TaskDetailDrawer.addTag l)) /\
     (forall tag,
         In tag (TaskDetailDrawer.tags (TaskDetailDrawer.addTag l)) <->
         In tag (TaskDetailDrawer.tags l) \/
         (tag = trim (TaskDetailDrawer.tagInput l) /\ truthy tag = true)) /\
     NoDup (TaskDetailDrawer.tags (TaskDetailDrawer.removeTag tagToRemove l)) /\
     (forall tag,
         In tag (TaskDetailDrawer.tags
                   (TaskDetailDrawer.removeTag tagToRemove l)) <->
         In tag (TaskDetailDrawer.tags l) /\ tag <> tagToRemove) /\
     (truthy (trim (TaskDetailDrawer.tagInput l)) = true ->
      ~ In (trim (TaskDetailDrawer.tagInput l)) (TaskDetailDrawer.tags l) ->
      TaskDetailDrawer.tags
        (TaskDetailDrawer.removeTag (trim (TaskDetailDrawer.tagInput l))
           (TaskDetailDrawer.addTag l))
      = TaskDetailDrawer.tags l)) /\
    (NoDup (QuickAddTask.tags (QuickAddTask.addTag q)) /\
     (forall tag,
         In tag (QuickAddTask.tags (QuickAddTask.addTag q)) <->
         In tag (QuickAddTask.tags q) \/
         (tag = trim (QuickAddTask.tagInput q) /\ truthy tag = true)) /\
     NoDup (QuickAddTask.tags (QuickAddTask.removeTag tagToRemove q)) /\
     (forall tag,
         In tag (QuickAddTask.tags (QuickAddTask.removeTag tagToRemove q)) <->
         In tag (QuickAddTask.tags q) /\ tag <> tagToRemove) /\
     (truthy (trim (QuickAddTask.tagInput q)) = true ->
      ~ In (trim (QuickAddTask.tagInput q)) (QuickAddTask.tags q) ->
      QuickAddTask.tags
        (QuickAddTask.removeTag (trim (QuickAddTask.tagInput q))
           (QuickAddTask.addTag q))
      = QuickAddTask.tags q)).
Proof.
  intros l q tagToRemove Hl Hq. split.
  - pose proof (@added _ (trim (TaskDetailDrawer.tagInput l)) Hl) as [Ha1 Ha2].
    pose proof (@removed _ tagToRemove Hl) as [Hr1 Hr2].
    assert (Et : TaskDetailDrawer.tags (TaskDetailDrawer.addTag l) =
                 if truthy (trim (TaskDetailDrawer.tagInput l)) &&
                    negb (existsb (fun t => str_eqb t (trim (TaskDetailDrawer.tagInput l)))
                            (TaskDetailDrawer.tags l))
                 then TaskDetailDrawer.tags l ++ [trim (TaskDetailDrawer.tagInput l)]
                 else TaskDetailDrawer.tags l).
    { unfold TaskDetailDrawer.addTag, TaskDetailDrawer.includes.
      destruct (truthy _ && negb _); reflexivity. }
    split; [rewrite Et; exact Ha1|].
    split.
    { intros tag. rewrite Et, Ha2. split.
      - intros [H|[-> H]]; auto.
      - intros [H|[-> H]]; auto. }
    split; [exact Hr1|]. split; [exact Hr2|].
    intros Ht Hnot.
    cbn [TaskDetailDrawer.removeTag TaskDetailDrawer.tags]. rewrite Et, Ht.
    destruct (existsb _ _) eqn:Hi; [apply some_In in Hi; contradiction|].
    cbn [andb negb]. apply removed_added. exact Hnot.
  - pose proof (@added _ (trim (QuickAddTask.tagInput q)) Hq) as [Ha1 Ha2].
    pose proof (@removed _ tagToRemove Hq) as [Hr1 Hr2].
    assert (Et : QuickAddTask.tags (QuickAddTask.addTag q) =
                 if truthy (trim (QuickAddTask.tagInput q)) &&
                    negb (existsb (fun t => str_eqb t (trim (QuickAddTask.tagInput q)))
                            (QuickAddTask.tags q))
                 then QuickAddTask.tags q ++ [trim (QuickAddTask.tagInput q)]
                 else QuickAddTask.tags q).
    { unfold QuickAddTask.addTag, QuickAddTask.includes.
      destruct (truthy _ && negb _); reflexivity. }
    split; [rewrite Et; exact Ha1|].
    split.
    { intros tag. rewrite Et, Ha2. split.
      - intros [H|[-> H]]; auto.
      - intros [H|[-> H]]; auto. }
    split; [exact Hr1|]. split; [exact Hr2|].
    intros Ht Hnot.
    cbn [QuickAddTask.removeTag QuickAddTask.tags]. rewrite Et, Ht.
    destruct (existsb _ _) eqn:Hi; [apply some_In in Hi; contradiction|].
    cbn [andb negb]. apply removed_added. exact Hnot.
Qed.

(** X24.  Submitting the quick-add form with a title that is not blank,
    when [createTask] is its [onCreateTask]: the first call creates a task
    with the trimmed title in the column selected in the form, and with
    no description, no due date and no tags, whatever the form holds in
    these fields. *)
Theorem quickAdd_creates_bare_task :
  forall (props : QuickAddTask.QuickAddTaskProps) (l : QuickAddTask.Local)
         (now : timestamp) (w : World) (user : User.t) (board : Board.t)
         (target : jsstring),
    QuickAddTask.onCreateTask props
      = (fun title columnId => TaskManager.createTask title columnId now) ->
    appends (QuickAddTask.onClose props) ->
    State.user (ui w) = Some user ->
    State.currentBoard (ui w) = Some board ->
    TaskManager.targetColumnId (Some (QuickAddTask.selectedColumn l))
      (State.columns (ui w)) = Some target ->
    truthy target = true ->
    truthy (trim (QuickAddTask.title l)) = true ->
    exists record,
      first_call w (exec (QuickAddTask.handleSubmit props l) w)
        = Some (Store.tasks_create record) /\
      Task.title record = trim (QuickAddTask.title l) /\
      Task.columnId record = target /\
      Task.description record = None /\
      Task.dueDate record = None /\
      Task.tags record = Some (js "[]").
Proof.
  intros props l now w user board target Hcreate Hclose Hu Hb Ht Htr Htitle.
  pose proof (@CallFacts.createTask_issues (trim (QuickAddTask.title l))
                (Some (QuickAddTask.selectedColumn l)) now w user board target
                Hu Hb Ht Htr) as Hfirst.
  exists (newTask (trim (QuickAddTask.title l)) target now user board
            (State.tasks (ui w))).
  split; [|split; [|split; [|split; [|split]]]; reflexivity].
  unfold first_call, exec, newTask in *.
  unfold QuickAddTask.handleSubmit. rewrite Htitle. cbn [negb].
  rewrite Hcreate. unfold bind at 1.
  destruct (TaskManager.createTask _ _ now w) as [[e|[]] w1]; cbn [snd] in *.
  - exact Hfirst.
  - unfold bind, ret.
    destruct (Hclose w1) as (more & Hmore).
    destruct (QuickAddTask.onClose props w1) as [[e|[]] w2]; cbn [snd] in *;
      rewrite Hmore; apply nth_error_extended; exact Hfirst.
Qed.

End FormProperties.

(* ================================================================== *)
(** * The search *)
(* ================================================================== *)

Module SearchFacts.

Section SearchOn.
Variable toLowerCase : jsstring -> jsstring.

Lemma str_includes_empty (s : jsstring) : str_includes s [] = true.
Proof. destruct s; reflexivity. Qed.

Lemma someTag_searchable (q : jsstring) (items : list json) :
  forallb (fun tag => match tag with JStr _ => true | _ => false end) items
    = true ->
  TaskManager.someTag toLowerCase q items =
  Some (existsb (fun tag =>
                   match tag with
                   | JStr s => str_includes (toLowerCase s) q
                   | _ => false
                   end) items).
Proof.
  induction items as [|tag items IH]; intros H; [reflexivity|].
  cbn [forallb] in H. apply andb_true_iff in H. destruct H as [Ht Hi].
  destruct tag; try discriminate.
  cbn [TaskManager.someTag TaskManager.tagMatches existsb].
  destruct (str_includes (toLowerCase s) q); [reflexivity|].
  cbn [orb]. apply IH. exact Hi.
Qed.

Lemma matchesSearch_searchable (q : jsstring) (task : Task.cached) :
  searchable (Task.tags task) = true ->
  TaskManager.matchesSearch toLowerCase q task = Some (matches toLowerCase q task).
Proof.
  intros H. unfold TaskManager.matchesSearch, matches.
  destruct (str_includes (toLowerCase (Task.title task)) (toLowerCase q));
    [reflexivity|].
  cbn [orb].
  destruct (match Task.description task with
            | Some d => str_includes (toLowerCase d) (toLowerCase q)
            | None => false
            end); [reflexivity|].
  cbn [orb]. unfold TaskManager.tagsMatch.
  destruct (Task.tags task); try discriminate; [reflexivity|].
  cbn [searchable] in H. apply someTag_searchable. exact H.
Qed.

Lemma someTag_throws (q : jsstring) (items : list json) :
  TaskManager.someTag toLowerCase q items = None ->
  forallb (fun tag => match tag with JStr _ => true | _ => false end) items
    = false.
Proof.
  intros H.
  destruct (forallb _ items) eqn:E; [|reflexivity].
  rewrite someTag_searchable in H by exact E. discriminate.
Qed.

End SearchOn.

End SearchFacts.

Module SearchProperties.
Import SearchFacts.

(** X25.  Computing the tasks the search shows throws exactly when the
    predicate of the filter throws on a cached task; and it throws on a
    task only when neither the title nor the description of the task
    contains the query and the tags of the task are not [null] or an array
    of strings. *)
Theorem search_throws :
  forall (toLowerCase : jsstring -> jsstring) (searchQuery : jsstring)
         (tasks : list Task.cached),
    (TaskManager.filteredTasks toLowerCase searchQuery tasks = None <->
     exists task, In task tasks /\
                  TaskManager.matchesSearch toLowerCase searchQuery task = None) /\
    (forall task,
        TaskManager.matchesSearch toLowerCase searchQuery task = None ->
        searchable (Task.tags task) = false /\
        str_includes (toLowerCase (Task.title task)) (toLowerCase searchQuery)
          = false /\
        (forall d, Task.description task = Some d ->
                   str_includes (toLowerCase d) (toLowerCase searchQuery)
                     = false)).
Proof.
  intros toLowerCase searchQuery tasks. split.
  - induction tasks as [|task tasks IH]; cbn [TaskManager.filteredTasks].
    + split; [discriminate|]. intros (task & [] & _).
    + destruct (TaskManager.matchesSearch toLowerCase searchQuery task)
        as [keep|] eqn:Em.
      * destruct (TaskManager.filteredTasks toLowerCase searchQuery tasks)
          as [shown|] eqn:Ef.
        -- split; [discriminate|]. intros (t & [<-|Hin] & Ht); [congruence|].
           destruct IH as [_ IH]. discriminate IH. exists t. auto.
        -- split; [|reflexivity]. intros _.
           destruct IH as [IH _]. destruct (IH eq_refl) as (t & Hin & Ht).
           exists t. split; [right; exact Hin|exact Ht].
      * split; [|reflexivity]. intros _. exists task.
        split; [left; reflexivity|exact Em].
  - intros task H.
    destruct (searchable (Task.tags task)) eqn:Es.
    { rewrite matchesSearch_searchable in H by exact Es. discriminate. }
    split; [reflexivity|].
    unfold TaskManager.matchesSearch in H.
    destruct (str_includes (toLowerCase (Task.title task))
                (toLowerCase searchQuery)); [discriminate|].
    split; [reflexivity|]. intros d Hd. rewrite Hd in H.
    destruct (str_includes (toLowerCase d) (toLowerCase searchQuery));
      [discriminate|reflexivity].
Qed.

(** X26.  When the tags of every cached task are [null] or an array of
    strings, the search does not throw and shows, in the order of the
    cache, the tasks whose title, description or one of whose tags
    contains the query, letter case apart. *)
Theorem search_shows_matches :
  forall (toLowerCase : jsstring -> jsstring) (searchQuery : jsstring)
         (tasks : list Task.cached),
    forallb (fun task => searchable (Task.tags task)) tasks = true ->
    TaskManager.filteredTasks toLowerCase searchQuery tasks
      = Some (filter (matches toLowerCase searchQuery) tasks).
Proof.
  intros toLowerCase searchQuery tasks.
  induction tasks as [|task tasks IH]; intros H; [reflexivity|].
  cbn [forallb] in H. apply andb_true_iff in H. destruct H as [Ht Hi].
  cbn [TaskManager.filteredTasks filter].
  rewrite matchesSearch_searchable by exact Ht. rewrite (IH Hi).
  reflexivity.
Qed.

(** X27.  A query that is empty once in lower case shows every cached
    task, whatever the tags of the tasks are: the title of a task contains
    the empty string, and the tags are not looked at. *)
Theorem search_empty_query :
  forall (toLowerCase : jsstring -> jsstring) (searchQuery : jsstring)
         (tasks : list Task.cached),
    toLowerCase searchQuery = [] ->
    TaskManager.filteredTasks toLowerCase searchQuery tasks = Some tasks.
Proof.
  intros toLowerCase searchQuery tasks Hq.
  induction tasks as [|task tasks IH]; [reflexivity|].
  cbn [TaskManager.filteredTasks]. unfold TaskManager.matchesSearch at 1.
  rewrite Hq, str_includes_empty, IH. reflexivity.
Qed.

End SearchProperties.

(* ================================================================== *)
(** * The set-up of a workspace *)
(* ================================================================== *)

Module WorkspaceFacts.
Import LoaderFacts MutatorFacts.

(** The set-up of a user who has a board, when the list of the boards is
    served. *)
Lemma existing_user_run (userId : jsstring) (clock : Workspace.Clock)
      (s : Workspace.t) (first : Board.t) (more : list Board.t) :
  hd false (outages (Workspace.world s)) = false ->
  userBoards userId (Workspace.boardRows s) = first :: more ->
  Workspace.initializeUserBoard userId clock s =
  (inr tt,
   Workspace.mk (Workspace.boardRows s) (first :: more)
     (Workspace.setupCalls s ++ [Workspace.boards_list userId])
     (let w := Workspace.world s in
      mkWorld (remote w) (tl (outages w)) (calls w) (console w) (alerts w)
        (State.mk (State.user (ui w)) (Some first) (State.columns (ui w))
           (State.tasks (ui w)) (State.subtasks (ui w))
           (State.selectedTask (ui w)) (State.activeId (ui w))))).
Proof.
  intros Hok Hrows. unfold userBoards in Hrows.
  unfold Workspace.initializeUserBoard, Workspace.try_catch.
  unfold Workspace.bind at 1. unfold Workspace.db_boards_list at 1.
  unfold Workspace.request at 1. cbv zeta. rewrite Hok, Hrows.
  reflexivity.
Qed.

Lemma filter_none {A} (f : A -> bool) (l : list A) :
  (forall x, In x l -> f x = false) -> filter f l = [].
Proof.
  induction l as [|x l IH]; intros H; [reflexivity|].
  cbn [filter]. rewrite (H x) by (left; reflexivity).
  apply IH. intros y Hy. apply H. right. exact Hy.
Qed.

Ltac setup_run :=
  cbv beta iota zeta delta
    [Workspace.initializeUserBoard Workspace.try_catch Workspace.bind
     Workspace.db_boards_list Workspace.db_boards_create
     Workspace.db_columns_create Workspace.createColumns
     Workspace.defaultColumns Workspace.request Workspace.ret
     Workspace.setBoards Workspace.lift TaskManager.setCurrentBoard
     modify console_print with_ui hd_error length Nat.eqb
     Workspace.world Workspace.boardRows Workspace.boards
     Workspace.setupCalls outages remote calls console alerts ui hd tl
     skipn map Store.columns Store.tasks Store.subtasks].

(** The set-up of a user who has no board, when its six calls are
    served. *)
Lemma new_user_run (userId : jsstring) (clock : Workspace.Clock)
      (s : Workspace.t) :
  userBoards userId (Workspace.boardRows s) = [] ->
  served 6 (outages (Workspace.world s)) = true ->
  let board := defaultBoard userId clock in
  let cols := Workspace.defaultColumns clock (Board.id board) in
  Workspace.initializeUserBoard userId clock s =
  (inr tt,
   Workspace.mk (Workspace.boardRows s ++ [board]) [board]
     (Workspace.setupCalls s
      ++ Workspace.boards_list userId :: Workspace.boards_create board
         :: map Workspace.columns_create cols ++ [Workspace.boards_list userId])
     (let w := Workspace.world s in
      mkWorld (Store.mk (Store.columns (remote w) ++ cols)
                        (Store.tasks (remote w)) (Store.subtasks (remote w)))
        (skipn 6 (outages w)) (calls w) (console w) (alerts w)
        (State.mk (State.user (ui w)) (Some board) (State.columns (ui w))
           (State.tasks (ui w)) (State.subtasks (ui w))
           (State.selectedTask (ui w)) (State.activeId (ui w))))).
Proof.
  intros Hrows Hok. cbv zeta.
  destruct s as [rows bs sc [rem outs cs con al u]].
  cbn [Workspace.boardRows Workspace.world outages] in Hrows, Hok.
  unfold userBoards in Hrows.
  assert (Hnew : filter (fun b => str_eqb (Board.userId b) userId)
                   (rows ++ [defaultBoard userId clock])
                 = [defaultBoard userId clock]).
  { rewrite filter_app, Hrows. cbn [filter defaultBoard Board.userId app].
    rewrite str_eqb_refl. reflexivity. }
  unfold served in Hok.
  destruct outs as [|[] [|[] [|[] [|[] [|[] [|[] outs]]]]]];
    try discriminate Hok;
    unfold defaultBoard in *;
    setup_run; rewrite Hrows; setup_run; rewrite Hnew; setup_run;
    rewrite <- !app_assoc; reflexivity.
Qed.

(** The set-up of a user who has no board, when its call number [k] is
    the first to be rejected: what was created before it stays, the error
    is shown, and the component is not updated. *)
Lemma failed_run (userId : jsstring) (clock : Workspace.Clock)
      (s : Workspace.t) (k : nat) (rest : list bool) :
  userBoards userId (Workspace.boardRows s) = [] ->
  outages (Workspace.world s) = repeat false k ++ true :: rest ->
  (k <= 5)%nat ->
  let board := defaultBoard userId clock in
  let cols := Workspace.defaultColumns clock (Board.id board) in
  Workspace.initializeUserBoard userId clock s =
  (inr tt,
   Workspace.mk
     (Workspace.boardRows s ++ (if (2 <=? k)%nat then [board] else []))
     (Workspace.boards s)
     (Workspace.setupCalls s
      ++ firstn (S k)
           (Workspace.boards_list userId :: Workspace.boards_create board
            :: map Workspace.columns_create cols
            ++ [Workspace.boards_list userId]))
     (let w := Workspace.world s in
      mkWorld (Store.mk (Store.columns (remote w) ++ firstn (k - 2) cols)
                        (Store.tasks (remote w)) (Store.subtasks (remote w)))
        rest (calls w)
        (console w
         ++ [(Error, js "Error initializing user board:", Some StoreError);
             (Error, setup_error, None)])
        (alerts w ++ [setup_error]) (ui w))).
Proof.
  intros Hrows Hout Hk. cbv zeta.
  destruct s as [rows bs sc [rem outs cs con al u]].
  cbn [Workspace.boardRows Workspace.world outages] in Hrows, Hout.
  unfold userBoards in Hrows. subst outs.
  assert (Hnew : filter (fun b => str_eqb (Board.userId b) userId)
                   (rows ++ [defaultBoard userId clock])
                 = [defaultBoard userId clock]).
  { rewrite filter_app, Hrows. cbn [filter defaultBoard Board.userId app].
    rewrite str_eqb_refl. reflexivity. }
  unfold defaultBoard in *.
  destruct k as [|[|[|[|[|[|k]]]]]]; [| | | | | |exfalso; lia];
    cbn [repeat app Nat.leb Nat.sub firstn map];
    setup_run; rewrite ?Hrows; setup_run;
    (rewrite toast_destructive by reflexivity);
    setup_run; rewrite <- ?app_assoc, ?app_nil_r;
    destruct rem; reflexivity.
Qed.

End WorkspaceFacts.

Module WorkspaceProperties.
Import LoaderFacts MutatorFacts WorkspaceFacts.

(** X28.  For a user who has a board, when the list of the boards is
    served, the set-up creates nothing: the list is its only call, the
    boards of the component are the boards of the user, and the first of
    them is selected. *)
Theorem existing_user_keeps_workspace :
  forall (userId : jsstring) (clock : Workspace.Clock) (s : Workspace.t)
         (first : Board.t) (more : list Board.t),
    hd false (outages (Workspace.world s)) = false ->
    userBoards userId (Workspace.boardRows s) = first :: more ->
    let s' := Workspace.exec (Workspace.initializeUserBoard userId clock) s in
    Workspace.boardRows s' = Workspace.boardRows s /\
    remote (Workspace.world s') = remote (Workspace.world s) /\
    Workspace.setupCalls s'
      = Workspace.setupCalls s ++ [Workspace.boards_list userId] /\
    Workspace.boards s' = first :: more /\
    State.currentBoard (ui (Workspace.world s')) = Some first /\
    alerts (Workspace.world s') = alerts (Workspace.world s).
Proof.
  intros userId clock s first more Hok Hrows. unfold Workspace.exec.
  rewrite (@existing_user_run userId clock s first more Hok Hrows).
  cbv zeta. repeat split.
Qed.

(** X29.  For a user who has no board, when the six calls of the set-up
    are served: the board "My Tasks" of the user is added to the boards,
    the columns "To Do", "In Progress" and "Done" of that board are added
    to the stored columns and nothing else of the store changes, the
    board is the only board of the component and is selected, and nothing
    is shown.  When the load of the selected board then goes through, and
    no stored column or task had the id of the new board as its board, the
    cache holds the three columns in this order and no task. *)
Theorem new_user_workspace :
  forall (userId : jsstring) (clock : Workspace.Clock) (s : Workspace.t),
    userBoards userId (Workspace.boardRows s) = [] ->
    served 6 (outages (Workspace.world s)) = true ->
    let board := defaultBoard userId clock in
    let cols := Workspace.defaultColumns clock (Board.id board) in
    let s' := Workspace.exec (Workspace.initializeUserBoard userId clock) s in
    Workspace.boardRows s' = Workspace.boardRows s ++ [board] /\
    Store.columns (remote (Workspace.world s'))
      = Store.columns (remote (Workspace.world s)) ++ cols /\
    Store.tasks (remote (Workspace.world s'))
      = Store.tasks (remote (Workspace.world s)) /\
    Store.subtasks (remote (Workspace.world s'))
      = Store.subtasks (remote (Workspace.world s)) /\
    Workspace.boards s' = [board] /\
    State.currentBoard (ui (Workspace.world s')) = Some board /\
    alerts (Workspace.world s') = alerts (Workspace.world s) /\
    ((forall col, In col (Store.columns (remote (Workspace.world s))) ->
                  Column.boardId col <> Board.id board) ->
     (forall row, In row (Store.tasks (remote (Workspace.world s))) ->
                  Task.boardId row <> Board.id board) ->
     fetch_rejected (skipn 6 (outages (Workspace.world s))) = false ->
     let s'' := Workspace.exec Workspace.loadCurrentBoard s' in
     State.columns (ui (Workspace.world s'')) = cols /\
     State.tasks (ui (Workspace.world s'')) = [] /\
     alerts (Workspace.world s'') = alerts (Workspace.world s)).
Proof.
  intros userId clock s Hrows Hok. cbv zeta. unfold Workspace.exec.
  rewrite (@new_user_run userId clock s Hrows Hok). cbv zeta.
  cbn [snd Workspace.boardRows Workspace.boards Workspace.world remote
       Store.columns Store.tasks Store.subtasks ui State.currentBoard alerts].
  do 7 (split; [reflexivity|]).
  intros Hcols Htasks Hfetch.
  set (board := defaultBoard userId clock) in *.
  unfold Workspace.loadCurrentBoard, Workspace.lift.
  cbn [Workspace.world].
  rewrite (@reload_selected board) by reflexivity.
  assert (Hnone : Store.list_tasks (board_query (Board.id board))
                    (Store.mk
                       (Store.columns (remote (Workspace.world s)) ++
                        Workspace.defaultColumns clock (Board.id board))
                       (Store.tasks (remote (Workspace.world s)))
                       (Store.subtasks (remote (Workspace.world s)))) = []).
  { rewrite LoaderClaims.list_tasks_board. cbn [Store.tasks].
    rewrite filter_none; [reflexivity|].
    intros row Hin. apply str_eqb_neq. apply Htasks. exact Hin. }
  rewrite loadBoardData_ok;
    [|exact Hfetch|cbn [remote]; rewrite Hnone; reflexivity].
  cbn [snd Workspace.world reconciled ui remote alerts State.columns
       State.tasks].
  rewrite Hnone. split; [|split; reflexivity].
  rewrite LoaderClaims.list_columns_board. cbn [Store.columns].
  rewrite filter_app, filter_none.
  - cbn [app Workspace.defaultColumns filter Column.boardId].
    rewrite !str_eqb_refl. reflexivity.
  - intros col Hin. apply str_eqb_neq. apply Hcols. exact Hin.
Qed.

(** X30.  A set-up that fails is not undone, and not completed later.
    For a user who has no board, when call number [k] of the set-up is the
    first to be rejected: "Setup Error" is shown and the boards and the
    state of the component are what they were; the board stays in the
    store when its creation was served, with the columns created before
    the rejection.  The next set-up of the user, when its list is served,
    finds the board, selects it and creates nothing: the columns the
    first one did not create are never created. *)
Theorem failed_set_up_not_repaired :
  forall (userId : jsstring) (clock clock' : Workspace.Clock)
         (s : Workspace.t) (k : nat) (rest : list bool),
    userBoards userId (Workspace.boardRows s) = [] ->
    outages (Workspace.world s) = repeat false k ++ true :: rest ->
    (k <= 5)%nat ->
    let board := defaultBoard userId clock in
    let cols := Workspace.defaultColumns clock (Board.id board) in
    let s' := Workspace.exec (Workspace.initializeUserBoard userId clock) s in
    alerts (Workspace.world s') = alerts (Workspace.world s) ++ [setup_error] /\
    Workspace.boards s' = Workspace.boards s /\
    ui (Workspace.world s') = ui (Workspace.world s) /\
    Workspace.boardRows s'
      = Workspace.boardRows s ++ (if (2 <=? k)%nat then [board] else []) /\
    Store.columns (remote (Workspace.world s'))
      = Store.columns (remote (Workspace.world s)) ++ firstn (k - 2) cols /\
    ((2 <= k)%nat -> hd false rest = false ->
     let s'' := Workspace.exec
                  (Workspace.initializeUserBoard userId clock') s' in
     State.currentBoard (ui (Workspace.world s'')) = Some board /\
     Workspace.boards s'' = [board] /\
     remote (Workspace.world s'') = remote (Workspace.world s') /\
     Workspace.setupCalls s''
       = Workspace.setupCalls s' ++ [Workspace.boards_list userId]).
Proof.
  intros userId clock clock' s k rest Hrows Hout Hk. cbv zeta.
  unfold Workspace.exec.
  rewrite (@failed_run userId clock s k rest Hrows Hout Hk). cbv zeta.
  cbn [snd Workspace.boardRows Workspace.boards Workspace.world remote
       Store.columns ui alerts].
  do 5 (split; [reflexivity|]).
  intros H2 Hrest.
  apply Nat.leb_le in H2. rewrite H2.
  rewrite (@existing_user_run userId clock' _ (defaultBoard userId clock) []).
  - cbv zeta. repeat split.
  - exact Hrest.
  - cbn [Workspace.boardRows]. unfold userBoards in *.
    rewrite filter_app, Hrows. cbn [filter defaultBoard Board.userId app].
    rewrite str_eqb_refl. reflexivity.
Qed.

End WorkspaceProperties.

(* ================================================================== *)
(** * The further properties on the board of the scenario *)
(* ================================================================== *)

Module ScenarioFacts.

(** The ids of a list written out are distinct. *)
Ltac distinct :=
  vm_compute;
  repeat (constructor;
          [let H := fresh in
           intros H; repeat (destruct H as [H|H]; [discriminate H|]); exact H
          |]);
  constructor.

(** The tasks of a list written out are in columns of the cache. *)
Ltac placed :=
  vm_compute; repeat (constructor; [auto 10|]); constructor.

End ScenarioFacts.

Module LoaderPropertiesWitnesses.
Import Scenario ScenarioFacts.

(** The first load of the board and a load on the loaded board leave the same cache. *)
Lemma load_replaces_wholesale_witness :
  remote (start store0 []) = remote (loaded []) /\
  fetch_rejected (outages (start store0 [])) = false /\
  fetch_rejected (outages (loaded [])) = false /\
  forallb decodable
  (Store.list_tasks (board_query (js "b1")) (remote (start store0 []))) = true /\
  (let w1' := exec (TaskManager.loadBoardData (js "b1")) (start store0 []) in
  let w2' := exec (TaskManager.loadBoardData (js "b1")) (loaded []) in
  State.columns (ui w1') = State.columns (ui w2') /\
  State.tasks (ui w1') = State.tasks (ui w2') /\
  State.subtasks (ui w1') = State.subtasks (ui w2')).
Proof.
  split; [vm_compute; reflexivity|].
  split; [vm_compute; reflexivity|].
  split; [vm_compute; reflexivity|].
  split; [vm_compute; reflexivity|].
  apply (@LoaderProperties.load_replaces_wholesale
           (js "b1") (start store0 []) (loaded []));
    [vm_compute; reflexivity
    |vm_compute; reflexivity
    |vm_compute; reflexivity
    |vm_compute; reflexivity].
Defined.

(** The tags of [t1_malformed] are not JSON. *)
Lemma undecodable_load_overwrites_columns_witness :
  fetch_rejected (outages (start store_malformed [])) = false /\
  existsb (fun row => malformed (Task.tags row))
  (Store.list_tasks (board_query (js "b1")) (remote (start store_malformed []))) = true /\
  (let w' := exec (TaskManager.loadBoardData (js "b1")) (start store_malformed []) in
  State.columns (ui w') = Store.list_columns (board_query (js "b1")) (remote (start store_malformed [])) /\
  State.tasks (ui w') = State.tasks (ui (start store_malformed [])) /\
  State.subtasks (ui w') = State.subtasks (ui (start store_malformed []))).
Proof.
  split; [vm_compute; reflexivity|].
  split; [vm_compute; reflexivity|].
  apply (@LoaderProperties.undecodable_load_overwrites_columns
           (js "b1") (start store_malformed []));
    [vm_compute; reflexivity
    |vm_compute; reflexivity].
Defined.

End LoaderPropertiesWitnesses.

Module DragPropertiesWitnesses.
Import Scenario ScenarioFacts.

(** Task [t1] passes over the column [col_done], over nothing, and over task [t2]. *)
Lemma hover_keeps_columns_valid_witness :
  columns_valid (State.columns (ui (loaded []))) (State.tasks (ui (loaded []))) /\
  (let w' := exec (TaskManager.hover (js "t1") path) (loaded []) in
  columns_valid (State.columns (ui w')) (State.tasks (ui w'))).
Proof.
  split; [placed|].
  apply (@DragProperties.hover_keeps_columns_valid
           (js "t1") path (loaded []));
    [placed].
Defined.

(** Task [t1] is dropped outside every target. *)
Lemma drop_without_target_witness :
  (over (mkDrag (js "t1") None) = None \/
  TaskManager.findTask (active (mkDrag (js "t1") None)) (State.tasks (ui (loaded []))) = None) /\
  (TaskManager.handleDragEnd (mkDrag (js "t1") None) 5 (loaded []) = (inr tt, idle (loaded []))).
Proof.
  split; [left; reflexivity|].
  apply (@DragProperties.drop_without_target
           (mkDrag (js "t1") None) 5 (loaded []));
    [left; reflexivity].
Defined.

(** Task [t1] is dragged over [col_done] and dropped there. *)
Lemma drop_persists_cached_column_witness :
  over drop_on_done = Some (js "col_done") /\
  TaskManager.findTask (active drop_on_done) (State.tasks (ui (dragging []))) = Some t1_over_done /\
  hd false (outages (dragging [])) = false /\
  (let w' := exec (TaskManager.handleDragEnd drop_on_done 5) (dragging []) in
  Store.columns (remote w') = Store.columns (remote (dragging [])) /\
  Store.subtasks (remote w') = Store.subtasks (remote (dragging [])) /\
  Forall2 (fun old new =>
             if str_eqb (Task.id old) (active drop_on_done)
             then Task.columnId new = Task.columnId t1_over_done /\
                  Task.updatedAt new = Some 5 /\
                  same_except_move old new
             else new = old)
          (Store.tasks (remote (dragging []))) (Store.tasks (remote w'))).
Proof.
  split; [vm_compute; reflexivity|].
  split; [vm_compute; reflexivity|].
  split; [vm_compute; reflexivity|].
  apply (@DragProperties.drop_persists_cached_column
           drop_on_done 5 (dragging []) (js "col_done") t1_over_done);
    [vm_compute; reflexivity
    |vm_compute; reflexivity
    |vm_compute; reflexivity].
Defined.

(** The same drop, rejected by the store. *)
Lemma rejected_drop_reports_witness :
  over drop_on_done = Some (js "col_done") /\
  TaskManager.findTask (active drop_on_done) (State.tasks (ui (dragging [true]))) = Some t1_over_done /\
  hd false (outages (dragging [true])) = true /\
  (let w' := exec (TaskManager.handleDragEnd drop_on_done 5) (dragging [true]) in
  remote w' = remote (dragging [true]) /\
  calls w' =
    calls (dragging [true]) ++
    Store.tasks_update (active drop_on_done)
      (Store.mkPatch None None None (Some (Task.columnId t1_over_done)) None (Some 5))
    :: match State.currentBoard (ui (dragging [true])) with
       | Some board => fetch_calls (Board.id board)
       | None => []
       end /\
  exists more,
    alerts w' = alerts (dragging [true]) ++ update_error :: more /\
    (more = [] \/ more = [loading_error])).
Proof.
  split; [vm_compute; reflexivity|].
  split; [vm_compute; reflexivity|].
  split; [vm_compute; reflexivity|].
  apply (@DragProperties.rejected_drop_reports
           drop_on_done 5 (dragging [true]) (js "col_done") t1_over_done);
    [vm_compute; reflexivity
    |vm_compute; reflexivity
    |vm_compute; reflexivity].
Defined.

End DragPropertiesWitnesses.

Module ViewPropertiesWitnesses.
Import Scenario ScenarioFacts.

(** The loaded board, searched for the word spec: of its three tasks the
    board shows [t1]. *)
Lemma board_shows_each_task_once_witness :
  NoDup (map Column.id (State.columns (ui (loaded [])))) /\
  columns_valid (State.columns (ui (loaded []))) (State.tasks (ui (loaded []))) /\
  TaskManager.filteredTasks lower (js "spec") (State.tasks (ui (loaded [])))
    = Some [decoded t1] /\
  (boardTotal (State.columns (ui (loaded []))) [decoded t1]
     = length [decoded t1] /\
   (length [decoded t1] <= length (State.tasks (ui (loaded []))))%nat /\
   (lower (js "spec") = [] -> [decoded t1] = State.tasks (ui (loaded [])))).
Proof.
  split; [distinct|].
  split; [placed|].
  split; [vm_compute; reflexivity|].
  apply (@ViewProperties.board_shows_each_task_once
           lower (js "spec") (ui (loaded [])) [decoded t1]);
    [distinct
    |placed
    |vm_compute; reflexivity].
Defined.

(** Task [t9] is in a column of another board. *)
Lemma orphan_task_views_witness :
  ~ In (Task.columnId (decoded t9)) (map Column.id (State.columns (ui (loaded [])))) /\
  ((forall column, In column (State.columns (ui (loaded []))) ->
                  ~ In (decoded t9) (KanbanBoard.columnTasks column (map decoded [t1; t9]))) /\
  ListView.getColumnName (State.columns (ui (loaded []))) (Task.columnId (decoded t9)) = js "Unknown" /\
  ListView.getColumnColor (State.columns (ui (loaded []))) (Task.columnId (decoded t9)) = js "#6b7280").
Proof.
  split; [vm_compute; intuition discriminate|].
  apply (@ViewProperties.orphan_task_views
           (State.columns (ui (loaded []))) (map decoded [t1; t9]) (decoded t9));
    [vm_compute; intuition discriminate].
Defined.

(** The hovers of task [t1] on the loaded board. *)
Lemma hover_keeps_board_total_witness :
  NoDup (map Column.id (State.columns (ui (loaded [])))) /\
  columns_valid (State.columns (ui (loaded []))) (State.tasks (ui (loaded []))) /\
  (let w' := exec (TaskManager.hover (js "t1") path) (loaded []) in
  boardTotal (State.columns (ui w')) (State.tasks (ui w')) =
  boardTotal (State.columns (ui (loaded []))) (State.tasks (ui (loaded [])))).
Proof.
  split; [distinct|].
  split; [placed|].
  apply (@ViewProperties.hover_keeps_board_total
           (js "t1") path (loaded []));
    [distinct
    |placed].
Defined.

End ViewPropertiesWitnesses.

Module MutatorPropertiesWitnesses.
Import Scenario ScenarioFacts.

(** Before the first load the cache has no column. *)
Lemma createTask_guards_witness :
  (State.user (ui (start store0 [])) = None \/
  State.currentBoard (ui (start store0 [])) = None \/
  TaskManager.targetColumnId None (State.columns (ui (start store0 []))) = None \/
  TaskManager.targetColumnId None (State.columns (ui (start store0 []))) = Some []) /\
  (TaskManager.createTask (js "Plan") None 5 (start store0 []) = (inr tt, (start store0 []))).
Proof.
  split; [right; right; left; reflexivity|].
  apply (@MutatorProperties.createTask_guards
           (js "Plan") None 5 (start store0 []));
    [right; right; left; reflexivity].
Defined.

(** A task for the first column, rejected by the store. *)
Lemma createTask_rejected_witness :
  State.user (ui (loaded [true])) = Some alice /\
  State.currentBoard (ui (loaded [true])) = Some board1 /\
  TaskManager.targetColumnId None (State.columns (ui (loaded [true]))) = Some (js "col_todo") /\
  truthy (js "col_todo") = true /\
  hd false (outages (loaded [true])) = true /\
  (let w' := exec (TaskManager.createTask (js "Plan") None 5) (loaded [true]) in
  remote w' = remote (loaded [true]) /\
  ui w' = ui (loaded [true]) /\
  calls w' =
    calls (loaded [true]) ++
    [Store.tasks_create
       (newTask (js "Plan") (js "col_todo") 5 alice board1 (State.tasks (ui (loaded [true]))))] /\
  alerts w' = alerts (loaded [true]) ++ [js "Creation Error: Failed to create task"]).
Proof.
  split; [vm_compute; reflexivity|].
  split; [vm_compute; reflexivity|].
  split; [vm_compute; reflexivity|].
  split; [vm_compute; reflexivity|].
  split; [vm_compute; reflexivity|].
  apply (@MutatorProperties.createTask_rejected
           (js "Plan") None 5 (loaded [true]) alice board1 (js "col_todo"));
    [vm_compute; reflexivity
    |vm_compute; reflexivity
    |vm_compute; reflexivity
    |vm_compute; reflexivity
    |vm_compute; reflexivity].
Defined.

(** A task for the first column, which holds [t1] and [t2]. *)
Lemma createTask_shows_task_witness :
  State.user (ui (loaded [])) = Some alice /\
  State.currentBoard (ui (loaded [])) = Some board1 /\
  TaskManager.targetColumnId None (State.columns (ui (loaded []))) = Some (js "col_todo") /\
  truthy (js "col_todo") = true /\
  hd false (outages (loaded [])) = false /\
  fetch_rejected (tl (outages (loaded []))) = false /\
  forallb decodable
  (Store.list_tasks (board_query (Board.id board1)) (remote (loaded []))) = true /\
  (let w' := exec (TaskManager.createTask (js "Plan") None 5) (loaded []) in
  (exists task,
      In task (State.tasks (ui w')) /\
      Task.id task = js "task_" ++ Number_toString 5 /\
      Task.title task = (js "Plan") /\
      Task.columnId task = (js "col_todo") /\
      Task.position task =
        Z.of_nat (length (filter
                    (fun t => str_eqb (Task.columnId t) (js "col_todo"))
                    (State.tasks (ui (loaded []))))) /\
      Task.tags task = JArr [] /\
      Task.completed task = VBool false) /\
  Store.tasks (remote w') =
    Store.tasks (remote (loaded [])) ++
    [newTask (js "Plan") (js "col_todo") 5 alice board1 (State.tasks (ui (loaded [])))] /\
  alerts w' = alerts (loaded []) ++ [task_created (js "Plan")]).
Proof.
  split; [vm_compute; reflexivity|].
  split; [vm_compute; reflexivity|].
  split; [vm_compute; reflexivity|].
  split; [vm_compute; reflexivity|].
  split; [vm_compute; reflexivity|].
  split; [vm_compute; reflexivity|].
  split; [vm_compute; reflexivity|].
  apply (@MutatorProperties.createTask_shows_task
           (js "Plan") None 5 (loaded []) alice board1 (js "col_todo"));
    [vm_compute; reflexivity
    |vm_compute; reflexivity
    |vm_compute; reflexivity
    |vm_compute; reflexivity
    |vm_compute; reflexivity
    |vm_compute; reflexivity
    |vm_compute; reflexivity].
Defined.

End MutatorPropertiesWitnesses.

Module DrawerPropertiesWitnesses.
Import Scenario ScenarioFacts.

(** The drawer of [t1], with a store that rejects the next call. *)
Lemma drawer_write_rejected_witness :
  hd false (outages (drawer_open [true])) = true /\
  ((fst (TaskDetailDrawer.handleSave (drawer [true]) typing 5 (drawer_open [true])) = inr typing /\
   only_reports
     (Store.tasks_update (Task.id (TaskDetailDrawer.task (drawer [true])))
                         (save_patch typing 5))
     (js "Update failed: Failed to save changes")
     (drawer_open [true]) (exec (TaskDetailDrawer.handleSave (drawer [true]) typing 5) (drawer_open [true]))) /\
  only_reports
    (Store.subtasks_update (js "s1") (toggled true))
    (js "Update failed: Failed to update subtask")
    (drawer_open [true]) (exec (TaskDetailDrawer.toggleSubtask (drawer [true]) (js "s1") true) (drawer_open [true])) /\
  (truthy (trim (TaskDetailDrawer.newSubtaskTitle typing)) = true ->
   fst (TaskDetailDrawer.addSubtask (drawer [true]) typing 5 (drawer_open [true])) = inr typing /\
   only_reports
     (Store.subtasks_create (newSubtask (drawer [true]) typing 5))
     (js "Creation failed: Failed to create subtask")
     (drawer_open [true]) (exec (TaskDetailDrawer.addSubtask (drawer [true]) typing 5) (drawer_open [true]))) /\
  only_reports
    (Store.subtasks_delete (js "s1"))
    (js "Delete failed: Failed to delete subtask")
    (drawer_open [true]) (exec (TaskDetailDrawer.deleteSubtask (drawer [true]) (js "s1")) (drawer_open [true])) /\
  only_reports
    (Store.tasks_delete (Task.id (TaskDetailDrawer.task (drawer [true]))))
    (js "Delete failed: Failed to delete task")
    (drawer_open [true]) (exec (TaskDetailDrawer.handleDelete (drawer [true]) TaskManager.closeDrawer true) (drawer_open [true]))).
Proof.
  split; [vm_compute; reflexivity|].
  apply (@DrawerProperties.drawer_write_rejected
           (drawer [true]) typing 5 (js "s1") true TaskManager.closeDrawer (drawer_open [true]));
    [vm_compute; reflexivity].
Defined.

(** The drawer of [t1] is saved. *)
Lemma handleSave_shows_changes_witness :
  renderDrawer (ui (drawer_open [])) = Some (drawer []) /\
  State.currentBoard (ui (drawer_open [])) = Some board1 /\
  hd false (outages (drawer_open [])) = false /\
  fetch_rejected (tl (outages (drawer_open []))) = false /\
  forallb decodable
  (Store.list_tasks (board_query (Board.id board1)) (remote (drawer_open []))) = true /\
  (fst (TaskDetailDrawer.handleSave (drawer []) tagging 5 (drawer_open []))
    = inr (TaskDetailDrawer.setIsEditing false tagging) /\
  let w' := exec (TaskDetailDrawer.handleSave (drawer []) tagging 5) (drawer_open []) in
  (forall t, In t (State.tasks (ui w')) ->
             Task.id t = Task.id (TaskDetailDrawer.task (drawer [])) ->
             Task.title t = TaskDetailDrawer.title tagging /\
             Task.description t =
               (if truthy (TaskDetailDrawer.description tagging)
                then Some (TaskDetailDrawer.description tagging) else None) /\
             Task.dueDate t = TaskDetailDrawer.dueDate tagging /\
             Task.tags t = JArr (map JStr (TaskDetailDrawer.tags tagging)) /\
             Task.updatedAt t = Some 5) /\
  (forall t, In t (State.tasks (ui w')) ->
             Task.id t <> Task.id (TaskDetailDrawer.task (drawer [])) ->
             exists row, In row (Store.tasks (remote (drawer_open []))) /\ t = decoded row) /\
  State.selectedTask (ui w') = Some (TaskDetailDrawer.task (drawer [])) /\
  alerts w' = alerts (drawer_open []) ++ [js "Task updated: Your changes have been saved"]).
Proof.
  split; [vm_compute; reflexivity|].
  split; [vm_compute; reflexivity|].
  split; [vm_compute; reflexivity|].
  split; [vm_compute; reflexivity|].
  split; [vm_compute; reflexivity|].
  apply (@DrawerProperties.handleSave_shows_changes
           (drawer_open []) (drawer []) tagging 5 board1);
    [vm_compute; reflexivity
    |vm_compute; reflexivity
    |vm_compute; reflexivity
    |vm_compute; reflexivity
    |vm_compute; reflexivity].
Defined.

(** The box of subtask [s2] is checked. *)
Lemma toggleSubtask_shows_witness :
  renderDrawer (ui (drawer_open [])) = Some (drawer []) /\
  State.currentBoard (ui (drawer_open [])) = Some board1 /\
  hd false (outages (drawer_open [])) = false /\
  fetch_rejected (tl (outages (drawer_open []))) = false /\
  forallb decodable
  (Store.list_tasks (board_query (Board.id board1)) (remote (drawer_open []))) = true /\
  (let w' := exec (TaskDetailDrawer.toggleSubtask (drawer []) (js "s2") true) (drawer_open []) in
  (forall st, In st (State.subtasks (ui w')) <->
              exists old, In old (Store.subtasks (remote (drawer_open []))) /\
                st = if str_eqb (Subtask.id old) (js "s2")
                     then Subtask.with_completed (toggled true) old
                     else old) /\
  (forall st, In st (State.subtasks (ui w')) ->
              Subtask.id st = (js "s2") -> isCompleted st = true) /\
  alerts w' = alerts (drawer_open [])).
Proof.
  split; [vm_compute; reflexivity|].
  split; [vm_compute; reflexivity|].
  split; [vm_compute; reflexivity|].
  split; [vm_compute; reflexivity|].
  split; [vm_compute; reflexivity|].
  apply (@DrawerProperties.toggleSubtask_shows
           (drawer_open []) (drawer []) (js "s2") true board1);
    [vm_compute; reflexivity
    |vm_compute; reflexivity
    |vm_compute; reflexivity
    |vm_compute; reflexivity
    |vm_compute; reflexivity].
Defined.

(** Subtask [s1] is deleted. *)
Lemma deleteSubtask_removes_witness :
  renderDrawer (ui (drawer_open [])) = Some (drawer []) /\
  State.currentBoard (ui (drawer_open [])) = Some board1 /\
  hd false (outages (drawer_open [])) = false /\
  fetch_rejected (tl (outages (drawer_open []))) = false /\
  forallb decodable
  (Store.list_tasks (board_query (Board.id board1)) (remote (drawer_open []))) = true /\
  (let w' := exec (TaskDetailDrawer.deleteSubtask (drawer []) (js "s1")) (drawer_open []) in
  (forall st, In st (State.subtasks (ui w')) <->
              In st (Store.subtasks (remote (drawer_open []))) /\
              Subtask.id st <> (js "s1")) /\
  alerts w' = alerts (drawer_open []) ++ [js "Subtask deleted: Subtask has been removed"]).
Proof.
  split; [vm_compute; reflexivity|].
  split; [vm_compute; reflexivity|].
  split; [vm_compute; reflexivity|].
  split; [vm_compute; reflexivity|].
  split; [vm_compute; reflexivity|].
  apply (@DrawerProperties.deleteSubtask_removes
           (drawer_open []) (drawer []) (js "s1") board1);
    [vm_compute; reflexivity
    |vm_compute; reflexivity
    |vm_compute; reflexivity
    |vm_compute; reflexivity
    |vm_compute; reflexivity].
Defined.

(** The subtask typed in the drawer of [t1] is added. *)
Lemma addSubtask_shows_witness :
  renderDrawer (ui (drawer_open [])) = Some (drawer []) /\
  State.currentBoard (ui (drawer_open [])) = Some board1 /\
  truthy (trim (TaskDetailDrawer.newSubtaskTitle typing)) = true /\
  hd false (outages (drawer_open [])) = false /\
  fetch_rejected (tl (outages (drawer_open []))) = false /\
  forallb decodable
  (Store.list_tasks (board_query (Board.id board1)) (remote (drawer_open []))) = true /\
  (fst (TaskDetailDrawer.addSubtask (drawer []) typing 5 (drawer_open []))
    = inr (TaskDetailDrawer.setNewSubtaskTitle [] typing) /\
  let w' := exec (TaskDetailDrawer.addSubtask (drawer []) typing 5) (drawer_open []) in
  In (Subtask.mk (js "subtask_" ++ Number_toString 5)
        (trim (TaskDetailDrawer.newSubtaskTitle typing))
        (Task.id (TaskDetailDrawer.task (drawer []))) (VBool false)
        (Z.of_nat (length (TaskDetailDrawer.subtasks (drawer [])))))
     (State.subtasks (ui w')) /\
  length (State.subtasks (ui w')) = S (length (Store.subtasks (remote (drawer_open [])))) /\
  alerts w' = alerts (drawer_open []) ++ [js "Subtask added: New subtask has been created"]).
Proof.
  split; [vm_compute; reflexivity|].
  split; [vm_compute; reflexivity|].
  split; [vm_compute; reflexivity|].
  split; [vm_compute; reflexivity|].
  split; [vm_compute; reflexivity|].
  split; [vm_compute; reflexivity|].
  apply (@DrawerProperties.addSubtask_shows
           (drawer_open []) (drawer []) typing 5 board1);
    [vm_compute; reflexivity
    |vm_compute; reflexivity
    |vm_compute; reflexivity
    |vm_compute; reflexivity
    |vm_compute; reflexivity
    |vm_compute; reflexivity].
Defined.

(** Task [t1], which has the subtasks [s1] and [s2], is deleted. *)
Lemma handleDelete_removes_witness :
  renderDrawer (ui (drawer_open [])) = Some (drawer []) /\
  State.currentBoard (ui (drawer_open [])) = Some board1 /\
  hd false (outages (drawer_open [])) = false /\
  fetch_rejected (tl (outages (drawer_open []))) = false /\
  forallb decodable
  (Store.list_tasks (board_query (Board.id board1)) (remote (drawer_open []))) = true /\
  (TaskDetailDrawer.handleDelete (drawer []) TaskManager.closeDrawer false (drawer_open [])
    = (inr tt, (drawer_open [])) /\
  let w' := exec (TaskDetailDrawer.handleDelete (drawer [])
                    TaskManager.closeDrawer true) (drawer_open []) in
  calls w' = calls (drawer_open [])
             ++ Store.tasks_delete (Task.id (TaskDetailDrawer.task (drawer [])))
                :: fetch_calls (Board.id board1) /\
  (forall t, In t (State.tasks (ui w')) <->
             exists row, In row (Store.tasks (remote (drawer_open []))) /\
                         Task.boardId row = Board.id board1 /\
                         Task.id row <> Task.id (TaskDetailDrawer.task (drawer [])) /\
                         t = decoded row) /\
  (forall st, In st (State.subtasks (ui w')) <->
              In st (Store.subtasks (remote (drawer_open [])))) /\
  Store.subtasks (remote w') = Store.subtasks (remote (drawer_open [])) /\
  renderDrawer (ui w') = None /\
  alerts w' = alerts (drawer_open []) ++ [js "Task deleted: The task has been removed"]).
Proof.
  split; [vm_compute; reflexivity|].
  split; [vm_compute; reflexivity|].
  split; [vm_compute; reflexivity|].
  split; [vm_compute; reflexivity|].
  split; [vm_compute; reflexivity|].
  apply (@DrawerProperties.handleDelete_removes
           (drawer_open []) (drawer []) board1);
    [vm_compute; reflexivity
    |vm_compute; reflexivity
    |vm_compute; reflexivity
    |vm_compute; reflexivity
    |vm_compute; reflexivity].
Defined.

End DrawerPropertiesWitnesses.

Module FormPropertiesWitnesses.
Import Scenario ScenarioFacts.

(** The tags of the drawer of [t1] and of the filled form. *)
Lemma tag_editing_witness :
  NoDup (TaskDetailDrawer.tags tagging) /\
  NoDup (QuickAddTask.tags filled) /\
  ((NoDup (TaskDetailDrawer.tags (TaskDetailDrawer.addTag tagging)) /\
   (forall tag,
       In tag (TaskDetailDrawer.tags (TaskDetailDrawer.addTag tagging)) <->
       In tag (TaskDetailDrawer.tags tagging) \/
       (tag = trim (TaskDetailDrawer.tagInput tagging) /\ truthy tag = true)) /\
   NoDup (TaskDetailDrawer.tags (TaskDetailDrawer.removeTag (js "q3") tagging)) /\
   (forall tag,
       In tag (TaskDetailDrawer.tags
                 (TaskDetailDrawer.removeTag (js "q3") tagging)) <->
       In tag (TaskDetailDrawer.tags tagging) /\ tag <> (js "q3")) /\
   (truthy (trim (TaskDetailDrawer.tagInput tagging)) = true ->
    ~ In (trim (TaskDetailDrawer.tagInput tagging)) (TaskDetailDrawer.tags tagging) ->
    TaskDetailDrawer.tags
      (TaskDetailDrawer.removeTag (trim (TaskDetailDrawer.tagInput tagging))
         (TaskDetailDrawer.addTag tagging))
    = TaskDetailDrawer.tags tagging)) /\
  (NoDup (QuickAddTask.tags (QuickAddTask.addTag filled)) /\
   (forall tag,
       In tag (QuickAddTask.tags (QuickAddTask.addTag filled)) <->
       In tag (QuickAddTask.tags filled) \/
       (tag = trim (QuickAddTask.tagInput filled) /\ truthy tag = true)) /\
   NoDup (QuickAddTask.tags (QuickAddTask.removeTag (js "q3") filled)) /\
   (forall tag,
       In tag (QuickAddTask.tags (QuickAddTask.removeTag (js "q3") filled)) <->
       In tag (QuickAddTask.tags filled) /\ tag <> (js "q3")) /\
   (truthy (trim (QuickAddTask.tagInput filled)) = true ->
    ~ In (trim (QuickAddTask.tagInput filled)) (QuickAddTask.tags filled) ->
    QuickAddTask.tags
      (QuickAddTask.removeTag (trim (QuickAddTask.tagInput filled))
         (QuickAddTask.addTag filled))
    = QuickAddTask.tags filled))).
Proof.
  split; [distinct|].
  split; [distinct|].
  apply (@FormProperties.tag_editing
           tagging filled (js "q3"));
    [distinct
    |distinct].
Defined.

(** The filled form is submitted. *)
Lemma quickAdd_creates_bare_task_witness :
  QuickAddTask.onCreateTask (quickAdd 5)
  = (fun title columnId => TaskManager.createTask title columnId 5) /\
  appends (QuickAddTask.onClose (quickAdd 5)) /\
  State.user (ui (loaded [])) = Some alice /\
  State.currentBoard (ui (loaded [])) = Some board1 /\
  TaskManager.targetColumnId (Some (QuickAddTask.selectedColumn filled))
  (State.columns (ui (loaded []))) = Some (js "col_doing") /\
  truthy (js "col_doing") = true /\
  truthy (trim (QuickAddTask.title filled)) = true /\
  (exists record,
  first_call (loaded []) (exec (QuickAddTask.handleSubmit (quickAdd 5) filled) (loaded []))
    = Some (Store.tasks_create record) /\
  Task.title record = trim (QuickAddTask.title filled) /\
  Task.columnId record = (js "col_doing") /\
  Task.description record = None /\
  Task.dueDate record = None /\
  Task.tags record = Some (js "[]")).
Proof.
  split; [reflexivity|].
  split; [apply CallFacts.appends_ret|].
  split; [vm_compute; reflexivity|].
  split; [vm_compute; reflexivity|].
  split; [vm_compute; reflexivity|].
  split; [vm_compute; reflexivity|].
  split; [vm_compute; reflexivity|].
  apply (@FormProperties.quickAdd_creates_bare_task
           (quickAdd 5) filled 5 (loaded []) alice board1 (js "col_doing"));
    [reflexivity
    |apply CallFacts.appends_ret
    |vm_compute; reflexivity
    |vm_compute; reflexivity
    |vm_compute; reflexivity
    |vm_compute; reflexivity
    |vm_compute; reflexivity].
Defined.

End FormPropertiesWitnesses.

Module SearchPropertiesWitnesses.
Import Scenario ScenarioFacts.

(** The task [numbered] is searched for a word its title does not have. *)
Lemma search_throws_witness :
  TaskManager.matchesSearch lower (js "spec") numbered = None /\
  (searchable (Task.tags numbered) = false /\
   str_includes (lower (Task.title numbered)) (lower (js "spec")) = false /\
   (forall d, Task.description numbered = Some d ->
              str_includes (lower d) (lower (js "spec")) = false)).
Proof.
  split; [vm_compute; reflexivity|].
  apply (proj2 (@SearchProperties.search_throws lower (js "spec") [numbered])
               numbered).
  vm_compute; reflexivity.
Defined.

(** The loaded board is searched for SPEC. *)
Lemma search_shows_matches_witness :
  forallb (fun task => searchable (Task.tags task)) (State.tasks (ui (loaded []))) = true /\
  (TaskManager.filteredTasks lower (js "SPEC") (State.tasks (ui (loaded [])))
  = Some (filter (matches lower (js "SPEC")) (State.tasks (ui (loaded []))))).
Proof.
  split; [vm_compute; reflexivity|].
  apply (@SearchProperties.search_shows_matches
           lower (js "SPEC") (State.tasks (ui (loaded []))));
    [vm_compute; reflexivity].
Defined.

(** The empty query, on tasks one of which has unreadable tags. *)
Lemma search_empty_query_witness :
  lower [] = [] /\
  (TaskManager.filteredTasks lower [] ([decoded t1; numbered]) = Some ([decoded t1; numbered])).
Proof.
  split; [reflexivity|].
  apply (@SearchProperties.search_empty_query
           lower [] ([decoded t1; numbered]));
    [reflexivity].
Defined.

End SearchPropertiesWitnesses.

Module WorkspacePropertiesWitnesses.
Import Scenario ScenarioFacts.

(** The user of [board1] signs in. *)
Lemma existing_user_keeps_workspace_witness :
  hd false (outages (Workspace.world (desk [board1] []))) = false /\
  userBoards (js "u1") (Workspace.boardRows (desk [board1] [])) = board1 :: [] /\
  (let s' := Workspace.exec (Workspace.initializeUserBoard (js "u1") clock0) (desk [board1] []) in
  Workspace.boardRows s' = Workspace.boardRows (desk [board1] []) /\
  remote (Workspace.world s') = remote (Workspace.world (desk [board1] [])) /\
  Workspace.setupCalls s'
    = Workspace.setupCalls (desk [board1] []) ++ [Workspace.boards_list (js "u1")] /\
  Workspace.boards s' = board1 :: [] /\
  State.currentBoard (ui (Workspace.world s')) = Some board1 /\
  alerts (Workspace.world s') = alerts (Workspace.world (desk [board1] []))).
Proof.
  split; [vm_compute; reflexivity|].
  split; [vm_compute; reflexivity|].
  apply (@WorkspaceProperties.existing_user_keeps_workspace
           (js "u1") clock0 (desk [board1] []) board1 []);
    [vm_compute; reflexivity
    |vm_compute; reflexivity].
Defined.

(** A user without a board signs in. *)
Lemma new_user_workspace_witness :
  userBoards (js "u1") (Workspace.boardRows (desk [] [])) = [] /\
  served 6 (outages (Workspace.world (desk [] []))) = true /\
  (let board := defaultBoard (js "u1") clock0 in
  let cols := Workspace.defaultColumns clock0 (Board.id board) in
  let s' := Workspace.exec (Workspace.initializeUserBoard (js "u1") clock0) (desk [] []) in
  Workspace.boardRows s' = Workspace.boardRows (desk [] []) ++ [board] /\
  Store.columns (remote (Workspace.world s'))
    = Store.columns (remote (Workspace.world (desk [] []))) ++ cols /\
  Store.tasks (remote (Workspace.world s'))
    = Store.tasks (remote (Workspace.world (desk [] []))) /\
  Store.subtasks (remote (Workspace.world s'))
    = Store.subtasks (remote (Workspace.world (desk [] []))) /\
  Workspace.boards s' = [board] /\
  State.currentBoard (ui (Workspace.world s')) = Some board /\
  alerts (Workspace.world s') = alerts (Workspace.world (desk [] [])) /\
  ((forall col, In col (Store.columns (remote (Workspace.world (desk [] [])))) ->
                Column.boardId col <> Board.id board) ->
   (forall row, In row (Store.tasks (remote (Workspace.world (desk [] [])))) ->
                Task.boardId row <> Board.id board) ->
   fetch_rejected (skipn 6 (outages (Workspace.world (desk [] [])))) = false ->
   let s'' := Workspace.exec Workspace.loadCurrentBoard s' in
   State.columns (ui (Workspace.world s'')) = cols /\
   State.tasks (ui (Workspace.world s'')) = [] /\
   alerts (Workspace.world s'') = alerts (Workspace.world (desk [] [])))).
Proof.
  split; [vm_compute; reflexivity|].
  split; [vm_compute; reflexivity|].
  apply (@WorkspaceProperties.new_user_workspace
           (js "u1") clock0 (desk [] []));
    [vm_compute; reflexivity
    |vm_compute; reflexivity].
Defined.

(** The creation of the second column is rejected. *)
Lemma failed_set_up_not_repaired_witness :
  userBoards (js "u1") (Workspace.boardRows interrupted) = [] /\
  outages (Workspace.world interrupted) = repeat false 3 ++ true :: [] /\
  (3 <= 5)%nat /\
  (let board := defaultBoard (js "u1") clock0 in
  let cols := Workspace.defaultColumns clock0 (Board.id board) in
  let s' := Workspace.exec (Workspace.initializeUserBoard (js "u1") clock0) interrupted in
  alerts (Workspace.world s') = alerts (Workspace.world interrupted) ++ [setup_error] /\
  Workspace.boards s' = Workspace.boards interrupted /\
  ui (Workspace.world s') = ui (Workspace.world interrupted) /\
  Workspace.boardRows s'
    = Workspace.boardRows interrupted ++ (if (2 <=? 3)%nat then [board] else []) /\
  Store.columns (remote (Workspace.world s'))
    = Store.columns (remote (Workspace.world interrupted)) ++ firstn (3 - 2) cols /\
  ((2 <= 3)%nat -> hd false [] = false ->
   let s'' := Workspace.exec
                (Workspace.initializeUserBoard (js "u1") clock0) s' in
   State.currentBoard (ui (Workspace.world s'')) = Some board /\
   Workspace.boards s'' = [board] /\
   remote (Workspace.world s'') = remote (Workspace.world s') /\
   Workspace.setupCalls s''
     = Workspace.setupCalls s' ++ [Workspace.boards_list (js "u1")])).
Proof.
  split; [vm_compute; reflexivity|].
  split; [vm_compute; reflexivity|].
  split; [lia|].
  apply (@WorkspaceProperties.failed_set_up_not_repaired
           (js "u1") clock0 clock0 interrupted 3 []);
    [vm_compute; reflexivity
    |vm_compute; reflexivity
    |lia].
Defined.

End WorkspacePropertiesWitnesses.

(* ================================================================== *)
(** * The place of a new item in the order of a load *)
(* ================================================================== *)

Module PositionFacts.
Import LoaderFacts MutatorFacts DrawerFacts.

Section Order.
Variable A : Type.
Variable position : A -> Z.






Variable scope : A -> bool.







End Order.




End PositionFacts.

Module PositionClaims.
Import LoaderFacts MutatorFacts DrawerFacts PositionFacts CallFacts.



End PositionClaims.

Module PositionWitnesses.
Import Scenario.


End PositionWitnesses.
